(** * Rebuild-DB-Script: the Render database rebuild workflow

    A shallow embedding of the three scripts of the repository
    (the interactive script [src/index.js], the module variant and the
    fan-out variant) and the properties of their rebuild workflow.

    The scripts are sequences of HTTP calls through axios.  They are
    modelled in a state-and-exception monad over a [world] that records
    every request issued and every console line written; the remote API is
    a function [server] from the history of requests and the current
    request to a reply, over which the theorems quantify. *)

From Stdlib Require Import ZArith Ascii String List Lia Permutation.
From stdpp Require Import base option list gmap strings pretty.

Set Warnings "-register-all".
Local Open Scope Z_scope.

(** ** JavaScript values

    Response bodies are parsed JSON, so a value is one of the JSON kinds
    plus [undefined].  Objects are finite maps from property names to
    values.  Numbers are the integer ones: the scripts inspect status codes
    and lengths only. *)

Inductive value : Type :=
  | VUndefined
  | VNull
  | VBool (b : bool)
  | VNum (n : Z)
  | VStr (s : string)
  | VArr (items : list value)
  | VObj (fields : gmap string value).

(** An object literal [{k1: v1, ...}]. *)
Definition obj (l : list (string * value)) : value := VObj (list_to_map l).

Definition is_nullish (v : value) : bool :=
  match v with VUndefined | VNull => true | _ => false end.

(** [v !== null] *)
Definition not_null (v : value) : bool :=
  match v with VNull => false | _ => true end.

(** [v === s] for a string literal [s]. *)
Definition strict_eq_str (v : value) (s : string) : bool :=
  match v with VStr t => String.eqb t s | _ => false end.

(** The condition of [if (v)], [!v] and [v ? a : b]. *)
Definition truthy (v : value) : bool :=
  match v with
  | VUndefined | VNull => false
  | VBool b => b
  | VNum n => negb (n =? 0)
  | VStr s => negb (String.eqb s "")
  | VArr _ | VObj _ => true
  end.

(** String conversion, as done by a template literal [`${v}`]. *)
Fixpoint to_string (v : value) : string :=
  match v with
  | VUndefined => "undefined"
  | VNull => "null"
  | VBool true => "true"
  | VBool false => "false"
  | VNum n => pretty n
  | VStr s => s
  | VArr l =>
      String.concat ","
        (List.map (fun x => match x with
                            | VUndefined | VNull => ""
                            | _ => to_string x
                            end) l)
  | VObj _ => "[object Object]"
  end.

(** ** Replies, exceptions and results *)

Inductive reply : Type :=
  | NetworkFailure
  | HttpResponse (status : Z) (data : value).

Inductive exn : Type :=
  | TypeError
  | AxiosError (r : reply).

Inductive result (A : Type) : Type :=
  | Ok (a : A)
  | Throw (e : exn).
Arguments Ok {A} a.
Arguments Throw {A} e.

Definition rbind {A B} (r : result A) (f : A -> result B) : result B :=
  match r with Ok a => f a | Throw e => Throw e end.

Notation "'let+' x ':=' c1 'in' c2" := (rbind c1 (fun x => c2))
  (at level 10, x pattern, c1 at level 100, c2 at level 200).

(** [v.k] for a property name [k] that is not an array index.  Reading a
    property of [undefined] or [null] is a TypeError; destructuring
    [const { k } = v] behaves the same. *)
Definition get_prop (v : value) (k : string) : result value :=
  match v with
  | VUndefined | VNull => Throw TypeError
  | VObj m => Ok (default VUndefined (m !! k))
  | VArr l =>
      Ok (if String.eqb k "length" then VNum (Z.of_nat (length l))
          else VUndefined)
  | VStr s =>
      Ok (if String.eqb k "length" then VNum (Z.of_nat (String.length s))
          else VUndefined)
  | VBool _ | VNum _ => Ok VUndefined
  end.

(** [v[i]] for an index literal [i]. *)
Definition get_index (v : value) (i : nat) : result value :=
  match v with
  | VUndefined | VNull => Throw TypeError
  | VArr l => Ok (nth i l VUndefined)
  | VStr s =>
      Ok (match String.get i s with
          | Some c => VStr (String c EmptyString)
          | None => VUndefined
          end)
  | VObj m => Ok (default VUndefined (m !! pretty i))
  | VBool _ | VNum _ => Ok VUndefined
  end.

(** [Object.values(v)]; only its length is inspected by the scripts. *)
Definition Object_values (v : value) : result (list value) :=
  match v with
  | VUndefined | VNull => Throw TypeError
  | VObj m => Ok ((map_to_list m).*2)
  | VArr l => Ok l
  | VStr s => Ok ((fun c => VStr (String c EmptyString)) <$> list_ascii_of_string s)
  | VBool _ | VNum _ => Ok []
  end.

(** The own enumerable properties copied by a spread [{...v}]. *)
Definition spread (v : value) : gmap string value :=
  match v with
  | VObj m => m
  | VArr l => list_to_map (imap (fun i x => (pretty i, x)) l)
  | VStr s =>
      list_to_map
        (imap (fun i c => (pretty i, VStr (String c EmptyString)))
              (list_ascii_of_string s))
  | VUndefined | VNull | VBool _ | VNum _ => ∅
  end.

(** The assignment [o.k = v] on an object. *)
Definition set_prop (o : value) (k : string) (v : value) : value :=
  match o with
  | VObj m => VObj (<[k := v]> m)
  | other => other
  end.

(** [a.filter(f)], [a.map(f)] and [a.reduce(f, init)] with callbacks that
    may throw; calling them on something that is not an array is a
    TypeError. *)
Fixpoint filterM (f : value -> result bool) (l : list value)
  : result (list value) :=
  match l with
  | [] => Ok []
  | x :: rest =>
      let+ keep := f x in
      let+ rest' := filterM f rest in
      Ok (if keep then x :: rest' else rest')
  end.

Fixpoint mapM (f : value -> result value) (l : list value)
  : result (list value) :=
  match l with
  | [] => Ok []
  | x :: rest =>
      let+ y := f x in
      let+ rest' := mapM f rest in
      Ok (y :: rest')
  end.

Fixpoint reduceM (f : value -> value -> result value) (l : list value)
  (acc : value) : result value :=
  match l with
  | [] => Ok acc
  | x :: rest => let+ acc' := f acc x in reduceM f rest acc'
  end.

Definition array_filter (f : value -> result bool) (v : value)
  : result (list value) :=
  match v with VArr l => filterM f l | _ => Throw TypeError end.

Definition array_reduce (f : value -> value -> result value) (v : value)
  (init : value) : result value :=
  match v with VArr l => reduceM f l init | _ => Throw TypeError end.

(** ** The world: requests issued and console lines written *)

Inductive verb : Type := GET | POST | PUT | DELETE.

Record request : Type := mkRequest {
  req_method : verb;
  req_url : string;
  req_body : option value;
  req_options : value
}.

Record response : Type := mkResponse {
  status : Z;
  data : value
}.

Inductive printed : Type :=
  | PStr (s : string)
  | PErr (e : exn).

Inductive log_entry : Type :=
  | ConsoleLog (args : list printed)
  | ConsoleError (args : list printed).

Record world : Type := mkWorld {
  calls : list request;
  console : list log_entry
}.

Definition M (A : Type) : Type := world -> result A * world.

Definition ret {A} (a : A) : M A := fun w => (Ok a, w).

Definition throw {A} (e : exn) : M A := fun w => (Throw e, w).

Definition bind {A B} (m : M A) (f : A -> M B) : M B :=
  fun w =>
    match m w with
    | (Ok a, w') => f a w'
    | (Throw e, w') => (Throw e, w')
    end.

Notation "'let*' x ':=' c1 'in' c2" := (bind c1 (fun x => c2))
  (at level 10, x pattern, c1 at level 100, c2 at level 200).

(** A pure computation that may throw, run inside the workflow. *)
Definition lift {A} (r : result A) : M A := fun w => (r, w).

(** [try { m } catch (error) { h error }] *)
Definition try_catch {A} (m : M A) (h : exn -> M A) : M A :=
  fun w =>
    match m w with
    | (Ok a, w') => (Ok a, w')
    | (Throw e, w') => h e w'
    end.

(** The world after a request has been issued, and after a line has been
    written to the console. *)
Definition sent (r : request) (w : world) : world :=
  mkWorld (calls w ++ [r]) (console w).

Definition logged (e : log_entry) (w : world) : world :=
  mkWorld (calls w) (console w ++ [e]).

Definition console_log (args : list printed) : M unit :=
  fun w => (Ok tt, logged (ConsoleLog args) w).

Definition console_error (args : list printed) : M unit :=
  fun w => (Ok tt, logged (ConsoleError args) w).

(** [for (const x of l) { body x }] *)
Fixpoint for_of (l : list value) (body : value -> M unit) : M unit :=
  match l with
  | [] => ret tt
  | x :: rest => let* _ := body x in for_of rest body
  end.

(** [await Promise.all(l.map(f))] for an async [f]: the requests of the
    branches are issued in list order, every branch runs to its end
    whatever the others do, and the results keep the list order; the call
    rejects with the first rejection, if any.  The branches are run one
    after the other: the order in which their replies arrive, which only
    shows in the order of their console lines, is not modelled. *)
Fixpoint promise_all_map (f : value -> M value) (l : list value)
  : M (list value) :=
  fun w =>
    match l with
    | [] => (Ok [], w)
    | x :: rest =>
        let (r, w1) := f x w in
        let (rs, w2) := promise_all_map f rest w1 in
        (match r, rs with
         | Ok y, Ok ys => Ok (y :: ys)
         | Throw e, _ => Throw e
         | Ok _, Throw e => Throw e
         end, w2)
    end.

(** The remote API: the reply to a request, given the requests that came
    before it. *)
Definition api : Type := list request -> request -> reply.

(** axios with its default [validateStatus]: the promise resolves on a
    2xx status and rejects otherwise. *)
Definition validateStatus (r : reply) : result response :=
  match r with
  | HttpResponse st d =>
      if (200 <=? st) && (st <? 300)
      then Ok (mkResponse st d)
      else Throw (AxiosError r)
  | NetworkFailure => Throw (AxiosError r)
  end.

Definition axios (server : api) (r : request) : M response :=
  fun w => (validateStatus (server (calls w) r), sent r w).

(** ** Configuration: the module-level constants of the scripts *)

Record config : Type := mkConfig {
  databaseName : value;
  databaseKey : value;
  baseUrl : value;
  key : value
}.

(** The constants as they stand in the source, with the API key read from
    the process environment. *)
Definition source_config (api_key : value) : config :=
  {| databaseName := VNull;
     databaseKey := VNull;
     baseUrl := VStr "https://api.render.com/v1";
     key := api_key |}.

(** chalk's styles, whose output depends on the terminal. *)
Record styles : Type := mkStyles {
  red : string -> string;
  yellow : string -> string;
  green : string -> string
}.

(** ** Resource accessors shared by the three scripts

    These functions read the same in [src/index.js] and in the two other
    variants. *)

Section Accessors.
Context (server : api) (cfg : config).

Definition options : value :=
  obj [("headers",
        obj [("accept", VStr "application/json");
             ("Content-Type", VStr "application/json");
             ("authorization", VStr ("Bearer " +:+ to_string (key cfg)))])].

Definition axios_get (url : string) (opts : value) : M response :=
  axios server (mkRequest GET url None opts).

Definition axios_post (url : string) (body opts : value) : M response :=
  axios server (mkRequest POST url (Some body) opts).

Definition axios_put (url : string) (body opts : value) : M response :=
  axios server (mkRequest PUT url (Some body) opts).

Definition axios_delete (url : string) (opts : value) : M response :=
  axios server (mkRequest DELETE url None opts).

Definition fetchOwner : M value :=
  try_catch
    (let* response :=
       axios_get (to_string (baseUrl cfg) +:+ "/owners?limit=1") options in
     if status response =? 200 then
       let* first := lift (get_index (data response) 0) in
       let* owner := lift (get_prop first "owner") in
       ret owner
     else ret VUndefined)
    (fun error =>
       let* _ := console_error [PStr "Error fetching owner:"; PErr error] in
       throw error).

Definition deployService (serviceId : value) : M value :=
  let body := obj [("clearCache", VStr "do_not_clear")] in
  try_catch
    (let* response :=
       axios_post
         (to_string (baseUrl cfg) +:+ "/services/" +:+ to_string serviceId
            +:+ "/deploys")
         body options in
     ret (data response))
    (fun error =>
       let* _ :=
         console_error
           [PStr ("Error deploying service ID " +:+ to_string serviceId
                    +:+ ":");
            PErr error] in
       throw error).

Definition fetchDatabase : M value :=
  try_catch
    (let* response :=
       axios_get (to_string (baseUrl cfg) +:+ "/postgres") options in
     let* len := lift (get_prop (data response) "length") in
     if truthy len then
       let* first := lift (get_index (data response) 0) in
       lift (get_prop first "postgres")
     else ret (obj []))
    (fun error =>
       let* _ := console_error [PStr "Error fetching database:"; PErr error] in
       throw error).

Definition fetchConnectionInfo (databaseId : value) : M value :=
  try_catch
    (let* response :=
       axios_get
         (to_string (baseUrl cfg) +:+ "/postgres/" +:+ to_string databaseId
            +:+ "/connection-info")
         options in
     ret (data response))
    (fun error =>
       let* _ :=
         console_error
           [PStr ("Error fetching details for database ID "
                    +:+ to_string databaseId +:+ ":");
            PErr error] in
       throw error).

Definition deleteDatabase (databaseId : value) : M response :=
  try_catch
    (let* response :=
       axios_delete
         (to_string (baseUrl cfg) +:+ "/postgres/" +:+ to_string databaseId)
         options in
     ret response)
    (fun error =>
       let* _ :=
         console_error
           [PStr ("Error deleting database ID " +:+ to_string databaseId
                    +:+ ":");
            PErr error] in
       throw error).

Definition updateEnvVariable (serviceId envKey envValue : value) : M value :=
  let body := obj [("value", envValue)] in
  try_catch
    (let* response :=
       axios_put
         (to_string (baseUrl cfg) +:+ "/services/" +:+ to_string serviceId
            +:+ "/env-vars/" +:+ to_string envKey)
         body options in
     ret (data response))
    (fun error =>
       let* _ :=
         console_error
           [PStr ("Error updating environment variable for service ID "
                    +:+ to_string serviceId +:+ ":");
            PErr error] in
       throw error).

Definition isEmpty (o : value) : result bool :=
  let+ values := Object_values o in
  Ok (Nat.eqb (length values) 0).

(** The callback [(item) => item.service.type === "web_service"]. *)
Definition is_web_service (item : value) : result bool :=
  let+ service := get_prop item "service" in
  let+ type := get_prop service "type" in
  Ok (strict_eq_str type "web_service").

(** [createDatabase] of the interactive and module variants, which take
    the name from the module-level constant. *)
Definition createDatabase (ownerId : value) : M value :=
  let body :=
    obj [("enableHighAvailability", VBool false);
         ("plan", VStr "free");
         ("version", VStr "16");
         ("name", databaseName cfg);
         ("ownerId", ownerId)] in
  try_catch
    (let* response :=
       axios_post (to_string (baseUrl cfg) +:+ "/postgres") body options in
     ret (data response))
    (fun error =>
       let* _ := console_error [PStr "Error creating database:"; PErr error] in
       throw error).

(** The list [missing] built by the four checks that open [runScript]
    in the interactive script and [validateVariables] in the module
    variant. *)
Definition missing_variables (chalk : styles) : list string :=
  let missing := [] in
  let missing :=
    if negb (truthy (databaseName cfg))
    then missing ++ [red chalk "databaseName"] else missing in
  let missing :=
    if negb (truthy (databaseKey cfg))
    then missing ++ [red chalk "databaseKey"] else missing in
  let missing :=
    if negb (truthy (baseUrl cfg))
    then missing ++ [red chalk "baseUrl"] else missing in
  let missing :=
    if negb (truthy (key cfg))
    then missing ++ [red chalk "key"] else missing in
  missing.
End Accessors.

(** ** The interactive script, [src/index.js] *)

Module Interactive.
Section Script.
Context (server : api) (cfg : config).

Definition fetchServices : M (list value) :=
  try_catch
    (let* response :=
       axios_get server (to_string (baseUrl cfg) +:+ "/services")
         (options cfg) in
     let* services := lift (array_filter is_web_service (data response)) in
     ret (List.filter not_null services))
    (fun error =>
       let* _ := console_error [PStr "Error fetching services:"; PErr error] in
       throw error).

(** The steps of [rebuildDatabase] after the delete guard: they run
    unless the function has returned early. *)
Definition create_and_repoint (owner : value) (services : list value)
  : M unit :=
  let* ownerId := lift (get_prop owner "id") in
  let* created := createDatabase server cfg ownerId in
  let* name := lift (get_prop created "name") in
  let* status := lift (get_prop created "status") in
  let* id := lift (get_prop created "id") in
  let* createdAt := lift (get_prop created "createdAt") in
  let newDb :=
    obj [("name", name); ("status", status); ("id", id);
         ("createdAt", createdAt)] in
  let* info := fetchConnectionInfo server cfg id in
  let* internalConnectionString :=
    lift (get_prop info "internalConnectionString") in
  let newDb := set_prop newDb "internalDatabaseUrl" internalConnectionString in
  let* _ :=
    for_of services (fun service =>
      let* serviceId := lift (get_prop service "id") in
      let* internalDatabaseUrl :=
        lift (get_prop newDb "internalDatabaseUrl") in
      let* _ :=
        updateEnvVariable server cfg serviceId (databaseKey cfg)
          internalDatabaseUrl in
      let* serviceId := lift (get_prop service "id") in
      let* _ := deployService server cfg serviceId in
      ret tt) in
  console_log [PStr "done!"].

Definition rebuildDatabase : M unit :=
  let* _ := console_log [PStr "Rebuilding database..."] in
  try_catch
    (let* owner := fetchOwner server cfg in
     let* services := fetchServices in
     let* database := fetchDatabase server cfg in
     let* empty := lift (isEmpty database) in
     if negb empty then
       let* databaseId := lift (get_prop database "id") in
       let* deleteDb := deleteDatabase server cfg databaseId in
       if negb (status deleteDb =? 204) then
         console_error [PStr "Failed to delete existing database."]
       else create_and_repoint owner services
     else create_and_repoint owner services)
    (fun error =>
       console_error [PStr "Error during database rebuild:"; PErr error]).

(** [runScript]; the rebuild it starts is not awaited by the caller, but
    its calls are issued all the same. *)
Definition runScript (chalk : styles) : M unit :=
  let missing := missing_variables cfg chalk in
  if negb (Nat.eqb (length missing) 0) then
    let* _ :=
      console_log
        [PStr (yellow chalk
                 ("The following variables still don't have a value: "
                    +:+ String.concat ", " missing))] in
    let* _ :=
      console_log
        [PStr (yellow chalk "Please add them for the script to run...")] in
    ret tt
  else
    let* _ :=
      console_log
        [PStr (green chalk
                 ("All variables are set. Rebuilding database..."
                    +:+ String (Ascii.ascii_of_nat 10) EmptyString))] in
    rebuildDatabase.
End Script.
End Interactive.

(** ** The module variant, which exports the accessors and validates the
    constants at the start of [rebuildDatabase] *)

Module Exported.
Section Script.
Context (server : api) (cfg : config).

Definition fetchServices : M (list value) :=
  try_catch
    (let* response :=
       axios_get server (to_string (baseUrl cfg) +:+ "/services")
         (options cfg) in
     let* services := lift (array_filter is_web_service (data response)) in
     ret (List.filter not_null services))
    (fun error =>
       let* _ := console_error [PStr "Error fetching services:"; PErr error] in
       throw error).

(** The steps of [rebuildDatabase] after the delete guard: they run
    unless the function has returned early. *)
Definition create_and_repoint (owner : value) (services : list value)
  : M unit :=
  let* ownerId := lift (get_prop owner "id") in
  let* created := createDatabase server cfg ownerId in
  let* name := lift (get_prop created "name") in
  let* status := lift (get_prop created "status") in
  let* id := lift (get_prop created "id") in
  let* createdAt := lift (get_prop created "createdAt") in
  let newDb :=
    obj [("name", name); ("status", status); ("id", id);
         ("createdAt", createdAt)] in
  let* info := fetchConnectionInfo server cfg id in
  let* internalConnectionString :=
    lift (get_prop info "internalConnectionString") in
  let newDb := set_prop newDb "internalDatabaseUrl" internalConnectionString in
  let* _ :=
    for_of services (fun service =>
      let* serviceId := lift (get_prop service "id") in
      let* internalDatabaseUrl :=
        lift (get_prop newDb "internalDatabaseUrl") in
      let* _ :=
        updateEnvVariable server cfg serviceId (databaseKey cfg)
          internalDatabaseUrl in
      let* serviceId := lift (get_prop service "id") in
      let* _ := deployService server cfg serviceId in
      ret tt) in
  console_log [PStr "done!"].

Definition validateVariables (chalk : styles) : M bool :=
  let missing := missing_variables cfg chalk in
  if negb (Nat.eqb (length missing) 0) then
    let* _ :=
      console_log
        [PStr (yellow chalk
                 ("The following variables still don't have a value: "
                    +:+ String.concat ", " missing))] in
    let* _ :=
      console_log
        [PStr (yellow chalk "Please add them for the script to run...")] in
    ret false
  else
    let* _ :=
      console_log
        [PStr (green chalk
                 ("All variables are set. Rebuilding database..."
                    +:+ String (Ascii.ascii_of_nat 10) EmptyString))] in
    ret true.

Definition rebuildDatabase (chalk : styles) : M unit :=
  let* isValid := validateVariables chalk in
  if negb isValid then ret tt else
  let* _ := console_log [PStr "Rebuilding database..."] in
  try_catch
    (let* owner := fetchOwner server cfg in
     let* services := fetchServices in
     let* database := fetchDatabase server cfg in
     let* empty := lift (isEmpty database) in
     if negb empty then
       let* databaseId := lift (get_prop database "id") in
       let* deleteDb := deleteDatabase server cfg databaseId in
       if negb (status deleteDb =? 204) then
         console_error [PStr "Failed to delete existing database."]
       else create_and_repoint owner services
     else create_and_repoint owner services)
    (fun error =>
       console_error [PStr "Error during database rebuild:"; PErr error]).
End Script.
End Exported.

(** ** The fan-out variant, which enriches every service with the details
    of a deploy event and runs the rebuild with a fixed name and key *)

Module FanOut.
Section Script.
Context (server : api) (cfg : config).

(** The callback of [reduce] in [fetchEventDetails]. *)
Definition latest_step (o item : value) : result value :=
  let+ event := get_prop item "event" in
  let+ type := get_prop event "type" in
  if strict_eq_str type "deploy_ended" then
    let+ details := get_prop event "details" in
    let+ timestamp := get_prop event "timestamp" in
    Ok (VObj (<["lastDeployed" := timestamp]> (spread details)))
  else Ok o.

Definition fetchEventDetails (serviceId : value) : M value :=
  try_catch
    (let* response :=
       axios_get server
         (to_string (baseUrl cfg) +:+ "/services/" +:+ to_string serviceId
            +:+ "/events")
         (options cfg) in
     let* latestDetails :=
       lift (array_reduce latest_step (data response) (obj [])) in
     ret latestDetails)
    (fun error =>
       let* _ :=
         console_error
           [PStr ("Error fetching event details for service ID "
                    +:+ to_string serviceId +:+ ":");
            PErr error] in
       throw error).

(** The async callback mapped over the services in [fetchServices]. *)
Definition detailed (service : value) : M value :=
  let* name := lift (get_prop service "name") in
  let* id := lift (get_prop service "id") in
  let* type := lift (get_prop service "type") in
  try_catch
    (let* details := fetchEventDetails id in
     ret (obj [("name", name); ("id", id); ("type", type);
               ("details", details)]))
    (fun error =>
       let* _ :=
         console_error
           [PStr ("Error fetching details for service ID " +:+ to_string id
                    +:+ ":");
            PErr error] in
       ret VNull).

Definition fetchServices : M (list value) :=
  try_catch
    (let* response :=
       axios_get server (to_string (baseUrl cfg) +:+ "/services")
         (options cfg) in
     let* filtered := lift (array_filter is_web_service (data response)) in
     let* services :=
       lift (mapM (fun item => get_prop item "service") filtered) in
     let* detailedServices := promise_all_map detailed services in
     ret (List.filter not_null detailedServices))
    (fun error =>
       let* _ := console_error [PStr "Error fetching services:"; PErr error] in
       throw error).

Definition fetchDatabaseDetails (databaseId : value) : M value :=
  try_catch
    (let* response :=
       axios_get server
         (to_string (baseUrl cfg) +:+ "/postgres/" +:+ to_string databaseId
            +:+ "/connection-info")
         (options cfg) in
     ret (data response))
    (fun error =>
       let* _ :=
         console_error
           [PStr ("Error fetching details for database ID "
                    +:+ to_string databaseId +:+ ":");
            PErr error] in
       throw error).

Definition createDatabase (dbName ownerId : value) : M value :=
  let body :=
    obj [("enableHighAvailability", VBool false);
         ("plan", VStr "free");
         ("version", VStr "16");
         ("name", dbName);
         ("ownerId", ownerId)] in
  try_catch
    (let* response :=
       axios_post server (to_string (baseUrl cfg) +:+ "/postgres") body
         (options cfg) in
     ret (data response))
    (fun error =>
       let* _ := console_error [PStr "Error creating database:"; PErr error] in
       throw error).

(** The steps of [rebuildDatabase] after the delete guard: they run
    unless the function has returned early. *)
Definition create_and_repoint (owner : value) (services : list value)
  : M unit :=
  let* ownerId := lift (get_prop owner "id") in
  let* created := createDatabase (VStr "my-db") ownerId in
  let* name := lift (get_prop created "name") in
  let* status := lift (get_prop created "status") in
  let* id := lift (get_prop created "id") in
  let* createdAt := lift (get_prop created "createdAt") in
  let newDb :=
    obj [("name", name); ("status", status); ("id", id);
         ("createdAt", createdAt)] in
  let* info := fetchDatabaseDetails id in
  let* internalConnectionString :=
    lift (get_prop info "internalConnectionString") in
  let newDb := set_prop newDb "internalDatabaseUrl" internalConnectionString in
  let* _ :=
    for_of services (fun service =>
      let* serviceId := lift (get_prop service "id") in
      let* internalDatabaseUrl :=
        lift (get_prop newDb "internalDatabaseUrl") in
      let* _ :=
        updateEnvVariable server cfg serviceId (VStr "DATABASE_URL")
          internalDatabaseUrl in
      let* serviceId := lift (get_prop service "id") in
      let* _ := deployService server cfg serviceId in
      ret tt) in
  console_log [PStr "done!"].

Definition rebuildDatabase : M unit :=
  let* _ := console_log [PStr "Rebuilding database..."] in
  try_catch
    (let* owner := fetchOwner server cfg in
     let* services := fetchServices in
     let* database := fetchDatabase server cfg in
     let* empty := lift (isEmpty database) in
     if negb empty then
       let* databaseId := lift (get_prop database "id") in
       let* deleteDb := deleteDatabase server cfg databaseId in
       if negb (status deleteDb =? 204) then
         console_error [PStr "Failed to delete existing database."]
       else create_and_repoint owner services
     else create_and_repoint owner services)
    (fun error =>
       console_error [PStr "Error during database rebuild:"; PErr error]).
End Script.
End FanOut.

(** * Vocabulary of the properties *)

(** ** The requests of the wire protocol *)
Section Requests.
Context (cfg : config).

Definition owner_request : request :=
  mkRequest GET (to_string (baseUrl cfg) +:+ "/owners?limit=1") None
    (options cfg).

Definition services_request : request :=
  mkRequest GET (to_string (baseUrl cfg) +:+ "/services") None (options cfg).

Definition events_request (serviceId : value) : request :=
  mkRequest GET
    (to_string (baseUrl cfg) +:+ "/services/" +:+ to_string serviceId
       +:+ "/events")
    None (options cfg).

Definition database_request : request :=
  mkRequest GET (to_string (baseUrl cfg) +:+ "/postgres") None (options cfg).

Definition connection_request (databaseId : value) : request :=
  mkRequest GET
    (to_string (baseUrl cfg) +:+ "/postgres/" +:+ to_string databaseId
       +:+ "/connection-info")
    None (options cfg).

Definition create_request (name ownerId : value) : request :=
  mkRequest POST (to_string (baseUrl cfg) +:+ "/postgres")
    (Some (obj [("enableHighAvailability", VBool false);
                ("plan", VStr "free");
                ("version", VStr "16");
                ("name", name);
                ("ownerId", ownerId)]))
    (options cfg).

Definition delete_request (databaseId : value) : request :=
  mkRequest DELETE
    (to_string (baseUrl cfg) +:+ "/postgres/" +:+ to_string databaseId)
    None (options cfg).

Definition env_request (serviceId envKey envValue : value) : request :=
  mkRequest PUT
    (to_string (baseUrl cfg) +:+ "/services/" +:+ to_string serviceId
       +:+ "/env-vars/" +:+ to_string envKey)
    (Some (obj [("value", envValue)]))
    (options cfg).

Definition deploy_request (serviceId : value) : request :=
  mkRequest POST
    (to_string (baseUrl cfg) +:+ "/services/" +:+ to_string serviceId
       +:+ "/deploys")
    (Some (obj [("clearCache", VStr "do_not_clear")]))
    (options cfg).

End Requests.

(** ** How an accessor runs.
    Every accessor issues one request and either returns a value computed
    from the response or logs the error under its own heading and throws
    it again. *)

(** The outcome of [try { ... } catch (error) { console.error(msg, error);
    throw error; }] around a computation whose result is [r]. *)
Definition settle {A} (msg : string) (r : result A) (w : world)
  : result A * world :=
  match r with
  | Ok a => (Ok a, w)
  | Throw e => (Throw e, logged (ConsoleError [PStr msg; PErr e]) w)
  end.

(** What [fetchOwner] makes of a response. *)
Definition owner_of (resp : response) : result value :=
  if status resp =? 200 then
    let+ first := get_index (data resp) 0 in get_prop first "owner"
  else Ok VUndefined.

(** What [fetchDatabase] makes of a response. *)
Definition database_of (resp : response) : result value :=
  let+ len := get_prop (data resp) "length" in
  if truthy len then
    let+ first := get_index (data resp) 0 in get_prop first "postgres"
  else Ok (obj []).

(** A server that gives one reply to every request, for the examples. *)
Definition constant_server (r : reply) : api := fun _ _ => r.

Definition empty_world : world := mkWorld [] [].

Definition plain_chalk : styles := mkStyles (fun s => s) (fun s => s) (fun s => s).

Definition example_config : config :=
  mkConfig (VStr "my-db") (VStr "DATABASE_URL")
    (VStr "https://api.render.com/v1") (VStr "rnd_key").

(** ** Validation of the constants *)

(** The two lines written when a constant is missing. *)
Definition missing_report (cfg : config) (chalk : styles) : list log_entry :=
  [ConsoleLog
     [PStr (yellow chalk
              ("The following variables still don't have a value: "
                 +:+ String.concat ", " (missing_variables cfg chalk)))];
   ConsoleLog [PStr (yellow chalk "Please add them for the script to run...")]].

Definition all_set (cfg : config) : bool :=
  truthy (databaseName cfg) && truthy (databaseKey cfg)
  && truthy (baseUrl cfg) && truthy (key cfg).

(** ** The service list *)

(** An entry of the list whose [service.type] is ["web_service"], read off
    the JSON itself. *)
Definition web_entry (item : value) : bool :=
  match item with
  | VObj m =>
      match m !! "service" with
      | Some (VObj s) =>
          match s !! "type" with
          | Some (VStr t) => String.eqb t "web_service"
          | _ => false
          end
      | _ => false
      end
  | _ => false
  end.

(** An entry on which [item.service.type] can be read: an entry with a
    [service] that is neither [null] nor missing. *)
Definition carries_service (item : value) : bool :=
  match item with
  | VObj m =>
      match m !! "service" with
      | Some s => negb (is_nullish s)
      | None => false
      end
  | _ => false
  end.

(** [v.k] where the read cannot fail. *)
Definition prop (v : value) (k : string) : value :=
  match get_prop v k with Ok x => x | Throw _ => VUndefined end.

(** ** The fan-out over the services *)
Section FanOutOutcomes.
Context (server : api) (cfg : config).

(** What [fetchEventDetails] makes of the reply to its request. *)
Definition details_of (r : reply) : result value :=
  let+ resp := validateStatus r in
  array_reduce FanOut.latest_step (data resp) (obj []).

(** The enriched service [{ name, id, type, details }]. *)
Definition enriched (service details : value) : value :=
  obj [("name", prop service "name"); ("id", prop service "id");
       ("type", prop service "type"); ("details", details)].

(** The result slot of one branch of the fan-out. *)
Definition slot (service : value) (outcome : result value) : value :=
  match outcome with
  | Ok details => enriched service details
  | Throw _ => VNull
  end.

(** The event requests of the fan-out, one per service, in order. *)
Definition event_requests (services : list value) : list request :=
  List.map (fun s => events_request cfg (prop s "id")) services.

(** The outcome of each detail fetch: the reply of the server to the
    event request of each service, given the requests before it. *)
Fixpoint detail_outcomes (h : list request) (services : list value)
  : list (result value) :=
  match services with
  | [] => []
  | s :: rest =>
      let req := events_request cfg (prop s "id") in
      details_of (server h req) :: detail_outcomes (h ++ [req]) rest
  end.

Definition failed {A} (r : result A) : bool :=
  match r with Ok _ => false | Throw _ => true end.

(** The services whose detail fetch succeeded, enriched. *)
Fixpoint survivors (services : list value) (outcomes : list (result value))
  : list value :=
  match services, outcomes with
  | s :: ss, Ok d :: os => enriched s d :: survivors ss os
  | _ :: ss, Throw _ :: os => survivors ss os
  | _, _ => []
  end.

(** The console lines of one branch: none when the fetch succeeds, the
    line of [fetchEventDetails] and the line of the branch otherwise. *)
Definition branch_lines (service : value) (outcome : result value)
  : list log_entry :=
  match outcome with
  | Ok _ => []
  | Throw e =>
      [ConsoleError
         [PStr ("Error fetching event details for service ID "
                  +:+ to_string (prop service "id") +:+ ":");
          PErr e];
       ConsoleError
         [PStr ("Error fetching details for service ID "
                  +:+ to_string (prop service "id") +:+ ":");
          PErr e]]
  end.

End FanOutOutcomes.

(** The unwrapped services of the web-service entries of a list. *)
Definition web_services (items : list value) : list value :=
  List.map (fun item => prop item "service") (List.filter web_entry items).

(** A server given by a table of replies per method and URL, for the
    examples; a request outside the table fails on the network. *)
Definition verb_eqb (a b : verb) : bool :=
  match a, b with
  | GET, GET | POST, POST | PUT, PUT | DELETE, DELETE => true
  | _, _ => false
  end.

Fixpoint table_lookup (table : list (verb * string * reply)) (r : request)
  : reply :=
  match table with
  | [] => NetworkFailure
  | (m, u, answer) :: rest =>
      if verb_eqb m (req_method r) && String.eqb u (req_url r)
      then answer else table_lookup rest r
  end.

Definition table_server (table : list (verb * string * reply)) : api :=
  fun _ r => table_lookup table r.

Definition service_entry (id type : string) : value :=
  obj [("service", obj [("id", VStr id); ("name", VStr id); ("type", VStr type)])].

Definition deploy_event (type timestamp status : string) : value :=
  obj [("event",
        obj [("type", VStr type); ("timestamp", VStr timestamp);
             ("details", obj [("status", VStr status)])])].

(** Three services, two of them web services; the events of [s3] cannot
    be fetched. *)
Definition one_failure_server : api :=
  table_server
    [(GET, "https://api.render.com/v1/services",
      HttpResponse 200
        (VArr [service_entry "s1" "web_service";
               service_entry "s2" "static_site";
               service_entry "s3" "web_service"]));
     (GET, "https://api.render.com/v1/services/s1/events",
      HttpResponse 200
        (VArr [deploy_event "deploy_ended" "2024-05-01T10:00:00Z" "succeeded"]));
     (GET, "https://api.render.com/v1/services/s3/events",
      HttpResponse 500 (VStr "Internal Server Error"))].

(** ** The details of the deploy events *)

(** An item of the events list on which [item.event.type] can be read. *)
Definition carries_event (item : value) : bool :=
  negb (is_nullish item) && negb (is_nullish (prop item "event")).

(** An item whose event has ended a deploy. *)
Definition is_deploy_ended (item : value) : bool :=
  strict_eq_str (prop (prop item "event") "type") "deploy_ended".

(** The object built from an item of the events list:
    [{ ...event.details, lastDeployed: event.timestamp }]. *)
Definition deploy_details (item : value) : value :=
  VObj (<["lastDeployed" := prop (prop item "event") "timestamp"]>
          (spread (prop (prop item "event") "details"))).

(** The last item of the response, in its order, that ended a deploy. *)
Definition last_deploy_ended (items : list value) : option value :=
  last (List.filter is_deploy_ended items).

(** The order of two timestamps: ISO 8601 strings, or numbers. *)
Definition timestamp_leb (a b : value) : bool :=
  match a, b with
  | VStr x, VStr y => String.leb x y
  | VNum x, VNum y => x <=? y
  | _, _ => false
  end.

(** After the words of the specification: the item that ended a deploy
    and has the greatest timestamp. *)
Definition greatest_deploy_ended (items : list value) : option value :=
  fold_left
    (fun best item =>
       if is_deploy_ended item then
         match best with
         | None => Some item
         | Some b =>
             if timestamp_leb (prop (prop b "event") "timestamp")
                  (prop (prop item "event") "timestamp")
             then Some item else Some b
         end
       else best)
    items None.

Definition descending_events : list value :=
  [deploy_event "deploy_ended" "2024-05-02T09:00:00Z" "succeeded";
   deploy_event "deploy_started" "2024-05-02T08:55:00Z" "started";
   deploy_event "deploy_ended" "2024-05-01T10:00:00Z" "failed"].

Definition descending_server : api :=
  table_server
    [(GET, "https://api.render.com/v1/services/s1/events",
      HttpResponse 200 (VArr descending_events))].

(** ** The requests a computation issues *)

(** [emits P m]: whatever the world, [m] only adds requests to the list of
    calls, and each request it adds satisfies [P]. *)
Definition emits {A} (P : request -> Prop) (m : M A) : Prop :=
  forall w, exists l, calls (m w).2 = calls w ++ l /\ Forall P l.

(** The world in which the workflow starts its reads. *)
Definition started (w : world) : world :=
  logged (ConsoleLog [PStr "Rebuilding database..."]) w.

(** The world in which the module variant starts its reads, after the
    validation has passed. *)
Definition validated (chalk : styles) (w : world) : world :=
  logged
    (ConsoleLog
       [PStr (green chalk
                ("All variables are set. Rebuilding database..."
                   +:+ String (Ascii.ascii_of_nat 10) EmptyString))]) w.

(** The three reads that open the workflow succeed, from [w0] to [w3]. *)
Definition reads (server : api) (cfg : config) (fetchServices : M (list value))
  (w0 : world) (owner : value) (services : list value) (database : value)
  (w3 : world) : Prop :=
  exists w1 w2,
    fetchOwner server cfg w0 = (Ok owner, w1)
    /\ fetchServices w1 = (Ok services, w2)
    /\ fetchDatabase server cfg w2 = (Ok database, w3).

(** The two reads before the database list succeed, from [w0] to [w2]. *)
Definition reads_before_database (server : api) (cfg : config)
  (fetchServices : M (list value)) (w0 : world) (owner : value)
  (services : list value) (w2 : world) : Prop :=
  exists w1,
    fetchOwner server cfg w0 = (Ok owner, w1)
    /\ fetchServices w1 = (Ok services, w2).

(** The common shape of [rebuildDatabase] in the three scripts, over the
    service listing and the steps after the guard of each. *)
Section Workflow.
Context (server : api) (cfg : config) (fetchServices : M (list value))
  (create_step : value -> list value -> M unit).

Definition guarded (owner : value) (services : list value) (database : value)
  : M unit :=
  let* empty := lift (isEmpty database) in
  if negb empty then
    let* databaseId := lift (get_prop database "id") in
    let* deleteDb := deleteDatabase server cfg databaseId in
    if negb (status deleteDb =? 204) then
      console_error [PStr "Failed to delete existing database."]
    else create_step owner services
  else create_step owner services.

Definition on_error (error : exn) : M unit :=
  console_error [PStr "Error during database rebuild:"; PErr error].

Definition workflow : M unit :=
  let* _ := console_log [PStr "Rebuilding database..."] in
  try_catch
    (let* owner := fetchOwner server cfg in
     let* services := fetchServices in
     let* database := fetchDatabase server cfg in
     guarded owner services database)
    on_error.

End Workflow.

(** ** The reads only read *)

Definition is_get (r : request) : Prop := req_method r = GET.

(** The outcome of a run in which the delete was not confirmed: the
    function returns normally, the calls of the run are reads followed by
    the delete, which is the last call, and when the delete resolved the
    one line written after the reads is the failure line. *)
Definition aborted_after_delete (cfg : config) (w w3 : world)
  (database : value) (st : Z) (out : result unit * world) : Prop :=
  exists gets lines,
    out = (Ok tt,
           mkWorld
             (calls w ++ gets ++ [delete_request cfg (prop database "id")])
             (console w3 ++ lines))
    /\ Forall is_get gets
    /\ (200 <= st < 300 ->
        lines = [ConsoleError [PStr "Failed to delete existing database."]]).

(** An account with an owner, one web service and a database, whose
    delete request is answered with 200. *)
Definition existing_database : value :=
  obj [("id", VStr "d0"); ("name", VStr "old-db"); ("status", VStr "available")].

Definition refused_delete_server : api :=
  table_server
    [(GET, "https://api.render.com/v1/owners?limit=1",
      HttpResponse 200 (VArr [obj [("owner", obj [("id", VStr "o1")])]]));
     (GET, "https://api.render.com/v1/services",
      HttpResponse 200 (VArr [service_entry "s1" "web_service"]));
     (GET, "https://api.render.com/v1/services/s1/events",
      HttpResponse 200 (VArr []));
     (GET, "https://api.render.com/v1/postgres",
      HttpResponse 200 (VArr [obj [("postgres", existing_database)]]));
     (DELETE, "https://api.render.com/v1/postgres/d0",
      HttpResponse 200 (obj []))].

(** The world after the three reads of a variant. *)
Definition after_reads (server : api) (cfg : config)
  (fetchServices : M (list value)) (w0 : world) : world :=
  (fetchDatabase server cfg (fetchServices (fetchOwner server cfg w0).2).2).2.

(** ** Passing over the delete *)

Definition not_delete (r : request) : Prop := req_method r <> DELETE.

(** The outcome of a run that found no database: the calls of the run are
    the reads that end with the database list, followed by requests none of
    which is a delete; and when the owner has an [id] to read, the request
    that follows the database list is the one that creates the database. *)
Definition went_straight_to_create (cfg : config) (name : value)
  (w w2 : world) (owner : value) (out : result unit * world) : Prop :=
  exists gets rest,
    calls w2 = calls w ++ gets
    /\ Forall is_get gets
    /\ calls out.2 = calls w ++ gets ++ database_request cfg :: rest
    /\ Forall not_delete rest
    /\ (is_nullish owner = false ->
        exists rest',
          rest = create_request cfg name (prop owner "id") :: rest').

(** ** The end-to-end scenario *)

(** The account of the scenario: owner [o1], no database, and the one
    service [{ id: "s1", type: "web_service" }]. *)
Definition scenario_owner : value := obj [("id", VStr "o1")].

Definition scenario_service : value :=
  obj [("id", VStr "s1"); ("type", VStr "web_service")].

Definition scenario_entry : value := obj [("service", scenario_service)].

Definition scenario_reads (server : api) (cfg : config) : Prop :=
  (forall h,
     server h (owner_request cfg)
     = HttpResponse 200 (VArr [obj [("owner", scenario_owner)]]))
  /\ (forall h,
        server h (services_request cfg)
        = HttpResponse 200 (VArr [scenario_entry]))
  /\ (forall h, server h (database_request cfg) = HttpResponse 200 (VArr [])).

(** The server creates the database for owner [o1] under the id [newId]
    and gives [url] as its internal connection string. *)
Definition scenario_creation (server : api) (cfg : config)
  (name newId url : value) : Prop :=
  (forall h,
     exists created,
       server h (create_request cfg name (VStr "o1")) = HttpResponse 201 created
       /\ is_nullish created = false
       /\ prop created "id" = newId)
  /\ (forall h,
        exists info,
          server h (connection_request cfg newId) = HttpResponse 200 info
          /\ is_nullish info = false
          /\ prop info "internalConnectionString" = url).

(** The server lists the events of [s1] and accepts the update of its
    variable and its deploy. *)
Definition scenario_repoint (server : api) (cfg : config) (envKey url : value)
  : Prop :=
  (forall h,
     exists events,
       server h (events_request cfg (VStr "s1")) = HttpResponse 200 (VArr events)
       /\ forallb carries_event events = true)
  /\ (forall h,
        exists d,
          server h (env_request cfg (VStr "s1") envKey url) = HttpResponse 200 d)
  /\ (forall h,
        exists d,
          server h (deploy_request cfg (VStr "s1")) = HttpResponse 201 d).

(** The call sequence of the scenario as the specification gives it. *)
Definition stated_sequence (cfg : config) (name envKey newId url : value)
  : list request :=
  [owner_request cfg; services_request cfg; database_request cfg;
   create_request cfg name (VStr "o1"); connection_request cfg newId;
   env_request cfg (VStr "s1") envKey url; deploy_request cfg (VStr "s1")].

(** The call sequence of the fan-out variant in the scenario. *)
Definition fanout_sequence (cfg : config) (newId url : value) : list request :=
  [owner_request cfg; services_request cfg; events_request cfg (VStr "s1");
   database_request cfg;
   create_request cfg (VStr "my-db") (VStr "o1"); connection_request cfg newId;
   env_request cfg (VStr "s1") (VStr "DATABASE_URL") url;
   deploy_request cfg (VStr "s1")].

(** The scenario as a server: the API answers 404 for a service it does
    not know. *)
Definition new_database : value :=
  obj [("id", VStr "d1"); ("name", VStr "my-db"); ("status", VStr "creating");
       ("createdAt", VStr "2024-05-03T08:00:00Z")].

Definition new_connection : value :=
  obj [("internalConnectionString", VStr "postgres://u:p@d1/my_db")].

Definition not_found : reply :=
  HttpResponse 404 (obj [("message", VStr "not found")]).

Definition scenario_server : api :=
  table_server
    [(GET, "https://api.render.com/v1/owners?limit=1",
      HttpResponse 200 (VArr [obj [("owner", scenario_owner)]]));
     (GET, "https://api.render.com/v1/services",
      HttpResponse 200 (VArr [scenario_entry]));
     (GET, "https://api.render.com/v1/services/s1/events",
      HttpResponse 200 (VArr []));
     (GET, "https://api.render.com/v1/postgres", HttpResponse 200 (VArr []));
     (POST, "https://api.render.com/v1/postgres", HttpResponse 201 new_database);
     (GET, "https://api.render.com/v1/postgres/d1/connection-info",
      HttpResponse 200 new_connection);
     (PUT, "https://api.render.com/v1/services/s1/env-vars/DATABASE_URL",
      HttpResponse 200 (obj []));
     (POST, "https://api.render.com/v1/services/s1/deploys",
      HttpResponse 201 (obj [("id", VStr "dep1")]));
     (PUT, "https://api.render.com/v1/services/undefined/env-vars/DATABASE_URL",
      not_found);
     (POST, "https://api.render.com/v1/services/undefined/deploys", not_found)].

Definition summary (r : request) : verb * string := (req_method r, req_url r).

(** ** Services addressed through the list wrapper *)

(** An entry of the service list as the API gives it: an object that
    wraps the service and holds nothing else but a cursor. *)
Definition is_wrapper (item : value) : Prop :=
  exists m, item = VObj m /\ dom m ⊆ ({["cursor"; "service"]} : gset string).

(** The requests of the repointing loop when the service is addressed as
    [undefined]: every PUT is the update of the variable on
    [/services/undefined], and every POST is either the creation of the
    database or the deploy on [/services/undefined]. *)
Definition addressed_as_undefined (cfg : config) (r : request) : Prop :=
  match req_method r with
  | PUT => exists v, r = env_request cfg VUndefined (databaseKey cfg) v
  | POST =>
      r = deploy_request cfg VUndefined
      \/ exists ownerId, r = create_request cfg (databaseName cfg) ownerId
  | GET | DELETE => True
  end.

(** ** Further vocabulary: rejected requests, the shape of a run *)

(** A reply on which axios rejects: no reply at all, or a status outside
    200..299. *)
Definition rejected (r : reply) : bool :=
  match r with
  | NetworkFailure => true
  | HttpResponse st _ => negb ((200 <=? st) && (st <? 300))
  end.

(** The outcome of an accessor whose request [req] was rejected: the error
    of axios is thrown again, after one line under the heading [msg]. *)
Definition rethrown (server : api) (msg : string) (req : request) (w : world)
  {A} (out : result A * world) : Prop :=
  out = (Throw (AxiosError (server (calls w) req)),
         logged
           (ConsoleError [PStr msg; PErr (AxiosError (server (calls w) req))])
           (sent req w)).

(** A request that carries the options of the script and whose URL lies
    under the base URL. *)
Definition authenticated (cfg : config) (r : request) : Prop :=
  req_options r = options cfg
  /\ exists path, req_url r = to_string (baseUrl cfg) +:+ path.

(** The names of the constants that are unset, in the order of the
    checks. *)
Definition unset_names (cfg : config) : list string :=
  List.map fst
    (List.filter (fun p => negb (truthy (snd p)))
       [("databaseName", databaseName cfg); ("databaseKey", databaseKey cfg);
        ("baseUrl", baseUrl cfg); ("key", key cfg)]).

(** The line written when the validation passes. *)
Definition validated_line (chalk : styles) : log_entry :=
  ConsoleLog
    [PStr (green chalk
             ("All variables are set. Rebuilding database..."
                +:+ String (Ascii.ascii_of_nat 10) EmptyString))].

(** A services response on which the filter of [fetchServices] runs
    through: an array whose every entry carries a service. *)
Definition well_formed_list (d : value) : bool :=
  match d with
  | VArr items => forallb carries_service items
  | _ => false
  end.

(** The database list holds a first entry [item] whose database is not
    empty; the entries after it are [rest]. *)
Definition found_first_database (server : api) (cfg : config) (w2 : world)
  (item : value) (rest : list value) : Prop :=
  (exists st,
     server (calls w2) (database_request cfg)
     = HttpResponse st (VArr (item :: rest))
     /\ 200 <= st < 300)
  /\ is_nullish item = false
  /\ isEmpty (prop item "postgres") = Ok false.

(** The requests that list the databases and delete the one of [item]. *)
Definition list_and_delete (cfg : config) (item : value) : list request :=
  [database_request cfg;
   delete_request cfg (prop (prop item "postgres") "id")].

(** The delete of the database of [item], issued after the database list,
    is confirmed with 204. *)
Definition delete_confirmed (server : api) (cfg : config) (w2 : world)
  (item : value) : Prop :=
  exists d,
    server (calls w2 ++ [database_request cfg])
      (delete_request cfg (prop (prop item "postgres") "id"))
    = HttpResponse 204 d.

(** One of the three reads throws [e], leaving the world [w3]. *)
Definition reads_fail (server : api) (cfg : config)
  (fetchServices : M (list value)) (w0 : world) (e : exn) (w3 : world) : Prop :=
  fetchOwner server cfg w0 = (Throw e, w3)
  \/ (exists owner w1,
        fetchOwner server cfg w0 = (Ok owner, w1)
        /\ fetchServices w1 = (Throw e, w3))
  \/ (exists owner w1 services w2,
        fetchOwner server cfg w0 = (Ok owner, w1)
        /\ fetchServices w1 = (Ok services, w2)
        /\ fetchDatabase server cfg w2 = (Throw e, w3)).

(** The line written by the catch at the top of [rebuildDatabase]. *)
Definition rebuild_error_line (e : exn) : log_entry :=
  ConsoleError [PStr "Error during database rebuild:"; PErr e].

(** The requests of a run, read as: reads, then at most one delete, then
    requests none of which deletes. *)
Definition deletes_at_most_once (cfg : config) (issued : list request) : Prop :=
  exists gets mid after,
    issued = gets ++ mid ++ after
    /\ Forall is_get gets
    /\ (mid = [] \/ exists databaseId, mid = [delete_request cfg databaseId])
    /\ Forall not_delete after.

Definition emits_one_delete {A} (cfg : config) (m : M A) : Prop :=
  forall w,
    exists issued,
      calls (m w).2 = calls w ++ issued /\ deletes_at_most_once cfg issued.

(** The world after the owner and the services have been read. *)
Definition after_two_reads (server : api) (cfg : config)
  (fetchServices : M (list value)) (w0 : world) : world :=
  (fetchServices (fetchOwner server cfg w0).2).2.

(** An account with an owner, one web service and a database, which it
    deletes and replaces on request. *)
Definition replacing_server : api :=
  table_server
    [(GET, "https://api.render.com/v1/owners?limit=1",
      HttpResponse 200 (VArr [obj [("owner", scenario_owner)]]));
     (GET, "https://api.render.com/v1/services",
      HttpResponse 200 (VArr [service_entry "s1" "web_service"]));
     (GET, "https://api.render.com/v1/services/s1/events",
      HttpResponse 200 (VArr []));
     (GET, "https://api.render.com/v1/postgres",
      HttpResponse 200
        (VArr [obj [("postgres", existing_database)];
               obj [("postgres", obj [("id", VStr "d9")])]]));
     (DELETE, "https://api.render.com/v1/postgres/d0",
      HttpResponse 204 (VStr ""));
     (POST, "https://api.render.com/v1/postgres", HttpResponse 201 new_database);
     (GET, "https://api.render.com/v1/postgres/d1/connection-info",
      HttpResponse 200 new_connection);
     (PUT, "https://api.render.com/v1/services/s1/env-vars/DATABASE_URL",
      HttpResponse 200 (obj []));
     (POST, "https://api.render.com/v1/services/s1/deploys",
      HttpResponse 201 (obj [("id", VStr "dep1")]))].

(** The same account when the owner request is answered with 204 and no
    owner. *)
Definition ownerless_server : api :=
  table_server
    [(GET, "https://api.render.com/v1/owners?limit=1",
      HttpResponse 204 (VStr ""));
     (GET, "https://api.render.com/v1/services",
      HttpResponse 200 (VArr [service_entry "s1" "web_service"]));
     (GET, "https://api.render.com/v1/services/s1/events",
      HttpResponse 200 (VArr []));
     (GET, "https://api.render.com/v1/postgres",
      HttpResponse 200 (VArr [obj [("postgres", existing_database)]]));
     (DELETE, "https://api.render.com/v1/postgres/d0",
      HttpResponse 204 (VStr ""));
     (POST, "https://api.render.com/v1/postgres", HttpResponse 201 new_database)].

(** The same account when the creation of a database is refused. *)
Definition refusing_creation_server : api :=
  table_server
    [(GET, "https://api.render.com/v1/owners?limit=1",
      HttpResponse 200 (VArr [obj [("owner", scenario_owner)]]));
     (GET, "https://api.render.com/v1/services",
      HttpResponse 200 (VArr [service_entry "s1" "web_service"]));
     (GET, "https://api.render.com/v1/services/s1/events",
      HttpResponse 200 (VArr []));
     (GET, "https://api.render.com/v1/postgres",
      HttpResponse 200 (VArr [obj [("postgres", existing_database)]]));
     (DELETE, "https://api.render.com/v1/postgres/d0",
      HttpResponse 204 (VStr ""));
     (POST, "https://api.render.com/v1/postgres",
      HttpResponse 402 (obj [("message", VStr "payment required")]))].

(** An account whose database entry comes without its [postgres] field. *)
Definition bare_entry_server : api :=
  table_server
    [(GET, "https://api.render.com/v1/owners?limit=1",
      HttpResponse 200 (VArr [obj [("owner", scenario_owner)]]));
     (GET, "https://api.render.com/v1/services",
      HttpResponse 200 (VArr [service_entry "s1" "web_service"]));
     (GET, "https://api.render.com/v1/postgres",
      HttpResponse 200 (VArr [obj [("cursor", VStr "c1")]]))].

(** An account whose database list cannot be read. *)
Definition unreadable_databases_server : api :=
  table_server
    [(GET, "https://api.render.com/v1/owners?limit=1",
      HttpResponse 200 (VArr [obj [("owner", scenario_owner)]]));
     (GET, "https://api.render.com/v1/services",
      HttpResponse 200 (VArr [service_entry "s1" "web_service"]));
     (GET, "https://api.render.com/v1/postgres",
      HttpResponse 503 (VStr "Service Unavailable"))].

(** A reply on which axios resolves. *)
Definition accepted (r : reply) : bool := negb (rejected r).

(** The body of the loop of [rebuildDatabase] over the services, for the
    key [envKey] and the record [newDb] of the new database. *)
Definition repoint (server : api) (cfg : config) (envKey newDb : value)
  (service : value) : M unit :=
  let* serviceId := lift (get_prop service "id") in
  let* internalDatabaseUrl := lift (get_prop newDb "internalDatabaseUrl") in
  let* _ :=
    updateEnvVariable server cfg serviceId envKey internalDatabaseUrl in
  let* serviceId := lift (get_prop service "id") in
  let* _ := deployService server cfg serviceId in
  ret tt.

(** The record [newDb] that [rebuildDatabase] builds from the reply to the
    creation and the connection info. *)
Definition new_database_record (created info : value) : value :=
  set_prop
    (obj [("name", prop created "name"); ("status", prop created "status");
          ("id", prop created "id"); ("createdAt", prop created "createdAt")])
    "internalDatabaseUrl" (prop info "internalConnectionString").

(** The requests that repoint the services: for each service, in order,
    the update of the variable and then the deploy. *)
Definition repoint_requests (cfg : config) (envKey url : value)
  (services : list value) : list request :=
  flat_map
    (fun s =>
       [env_request cfg (prop s "id") envKey url;
        deploy_request cfg (prop s "id")])
    services.

(** The server accepts the update and the deploy of each of the services,
    whenever they come. *)
Definition accepts_writes (server : api) (cfg : config) (envKey url : value)
  (services : list value) : Prop :=
  forall h s,
    In s services ->
    accepted (server h (env_request cfg (prop s "id") envKey url)) = true
    /\ accepted (server h (deploy_request cfg (prop s "id"))) = true.

(** The database list read in the world [w2] is empty. *)
Definition empty_database_list (server : api) (cfg : config) (w2 : world)
  : Prop :=
  exists st,
    server (calls w2) (database_request cfg) = HttpResponse st (VArr [])
    /\ 200 <= st < 300.

(** After the requests [h], the server creates the database for the owner,
    answering [created], and gives [info] as its connection info. *)
Definition database_created (server : api) (cfg : config) (h : list request)
  (name owner created info : value) : Prop :=
  is_nullish owner = false
  /\ accepted (server h (create_request cfg name (prop owner "id"))) = true
  /\ (exists st,
        server h (create_request cfg name (prop owner "id"))
        = HttpResponse st created)
  /\ is_nullish created = false
  /\ accepted
       (server (h ++ [create_request cfg name (prop owner "id")])
          (connection_request cfg (prop created "id"))) = true
  /\ (exists st,
        server (h ++ [create_request cfg name (prop owner "id")])
          (connection_request cfg (prop created "id"))
        = HttpResponse st info)
  /\ is_nullish info = false.

(** The requests that create the database and read its connection info. *)
Definition creation_requests (cfg : config) (name owner created : value)
  : list request :=
  [create_request cfg name (prop owner "id");
   connection_request cfg (prop created "id")].

(** An account without a database and with the web services [s1], [s2]
    and [s3]; the update of the variable of [s2] is refused when [s2_put]
    says so. *)
Definition three_services_server (s2_put : reply) : api :=
  table_server
    [(GET, "https://api.render.com/v1/owners?limit=1",
      HttpResponse 200 (VArr [obj [("owner", scenario_owner)]]));
     (GET, "https://api.render.com/v1/services",
      HttpResponse 200
        (VArr [service_entry "s1" "web_service";
               service_entry "s2" "web_service";
               service_entry "s3" "web_service"]));
     (GET, "https://api.render.com/v1/services/s1/events",
      HttpResponse 200 (VArr []));
     (GET, "https://api.render.com/v1/services/s2/events",
      HttpResponse 200 (VArr []));
     (GET, "https://api.render.com/v1/services/s3/events",
      HttpResponse 200 (VArr []));
     (GET, "https://api.render.com/v1/postgres", HttpResponse 200 (VArr []));
     (POST, "https://api.render.com/v1/postgres", HttpResponse 201 new_database);
     (GET, "https://api.render.com/v1/postgres/d1/connection-info",
      HttpResponse 200 new_connection);
     (PUT, "https://api.render.com/v1/services/s1/env-vars/DATABASE_URL",
      HttpResponse 200 (obj []));
     (POST, "https://api.render.com/v1/services/s1/deploys",
      HttpResponse 201 (obj []));
     (PUT, "https://api.render.com/v1/services/s2/env-vars/DATABASE_URL",
      s2_put);
     (POST, "https://api.render.com/v1/services/s2/deploys",
      HttpResponse 201 (obj []));
     (PUT, "https://api.render.com/v1/services/s3/env-vars/DATABASE_URL",
      HttpResponse 200 (obj []));
     (POST, "https://api.render.com/v1/services/s3/deploys",
      HttpResponse 201 (obj []))].

(** The service [id] as the fan-out variant returns it when it has no
    deploy event. *)
Definition plain_service (id : string) : value :=
  enriched (prop (service_entry id "web_service") "service") (obj []).

(** After the requests [h], the server creates the database for the owner
    and answers [created]. *)
Definition creation_accepted (server : api) (cfg : config) (h : list request)
  (name owner created : value) : Prop :=
  is_nullish owner = false
  /\ accepted (server h (create_request cfg name (prop owner "id"))) = true
  /\ (exists st,
        server h (create_request cfg name (prop owner "id"))
        = HttpResponse st created)
  /\ is_nullish created = false.

(** An events response on which the reduce of [fetchEventDetails] runs
    through: an array whose every item carries an event. *)
Definition well_formed_events (d : value) : bool :=
  match d with
  | VArr items => forallb carries_event items
  | _ => false
  end.

(** An account whose new database has no connection info yet. *)
Definition no_connection_server : api :=
  table_server
    [(GET, "https://api.render.com/v1/owners?limit=1",
      HttpResponse 200 (VArr [obj [("owner", scenario_owner)]]));
     (GET, "https://api.render.com/v1/services",
      HttpResponse 200 (VArr [service_entry "s1" "web_service"]));
     (GET, "https://api.render.com/v1/services/s1/events",
      HttpResponse 200 (VArr []));
     (GET, "https://api.render.com/v1/postgres", HttpResponse 200 (VArr []));
     (POST, "https://api.render.com/v1/postgres", HttpResponse 201 new_database);
     (GET, "https://api.render.com/v1/postgres/d1/connection-info", not_found);
     (PUT, "https://api.render.com/v1/services/s1/env-vars/DATABASE_URL",
      HttpResponse 200 (obj []));
     (POST, "https://api.render.com/v1/services/s1/deploys",
      HttpResponse 201 (obj []))].

(** A service list with one web service whose events come back as an
    error page. *)
Definition malformed_events_server : api :=
  table_server
    [(GET, "https://api.render.com/v1/services",
      HttpResponse 200 (VArr [service_entry "s1" "web_service"]));
     (GET, "https://api.render.com/v1/services/s1/events",
      HttpResponse 200 (VStr "<html>maintenance</html>"))].

(** A service list whose second entry is a cursor record without a
    [service] field. *)
Definition malformed_list_server : api :=
  table_server
    [(GET, "https://api.render.com/v1/services",
      HttpResponse 200
        (VArr [service_entry "s1" "web_service"; obj [("cursor", VStr "c2")]]))].


(** ** Entries read for an [id] they do not carry *)

(** An entry with no [id] field of its own. *)
Definition lacks_id (item : value) : Prop :=
  exists m, item = VObj m /\ m !! "id" = None.

(** The requests of the loop over entries addressed as [undefined]: for
    each entry, in order, the update of the variable under
    [/services/undefined] and then the deploy under [/services/undefined]. *)
Definition undefined_requests (cfg : config) (url : value)
  (entries : list value) : list request :=
  flat_map
    (fun _ : value =>
       [env_request cfg VUndefined (databaseKey cfg) url;
        deploy_request cfg VUndefined])
    entries.

(** The server accepts the update and the deploy under
    [/services/undefined], whenever they come. *)
Definition accepts_undefined (server : api) (cfg : config) (url : value)
  : Prop :=
  forall h,
    accepted (server h (env_request cfg VUndefined (databaseKey cfg) url))
    = true
    /\ accepted (server h (deploy_request cfg VUndefined)) = true.

(** The line of [updateEnvVariable] when the update under
    [/services/undefined] is refused. *)
Definition undefined_update_line (e : exn) : log_entry :=
  ConsoleError
    [PStr "Error updating environment variable for service ID undefined:";
     PErr e].

(** An entry that carries an [id] of its own beside the service. *)
Definition own_id_entry : value :=
  obj [("id", VStr "w1"); ("service", scenario_service)].

(** An account without a database whose service list holds that entry. *)
Definition own_id_server : api :=
  table_server
    [(GET, "https://api.render.com/v1/owners?limit=1",
      HttpResponse 200 (VArr [obj [("owner", scenario_owner)]]));
     (GET, "https://api.render.com/v1/services",
      HttpResponse 200 (VArr [own_id_entry]));
     (GET, "https://api.render.com/v1/postgres", HttpResponse 200 (VArr []));
     (POST, "https://api.render.com/v1/postgres", HttpResponse 201 new_database);
     (GET, "https://api.render.com/v1/postgres/d1/connection-info",
      HttpResponse 200 new_connection);
     (PUT, "https://api.render.com/v1/services/w1/env-vars/DATABASE_URL",
      HttpResponse 200 (obj []));
     (POST, "https://api.render.com/v1/services/w1/deploys",
      HttpResponse 201 (obj []))].

(** An account without a database, with two web services and a static
    site, on a server that answers the requests under
    [/services/undefined] as if the service existed. *)
Definition lenient_server : api :=
  table_server
    [(GET, "https://api.render.com/v1/owners?limit=1",
      HttpResponse 200 (VArr [obj [("owner", scenario_owner)]]));
     (GET, "https://api.render.com/v1/services",
      HttpResponse 200
        (VArr [service_entry "s1" "web_service";
               service_entry "s2" "static_site";
               service_entry "s3" "web_service"]));
     (GET, "https://api.render.com/v1/postgres", HttpResponse 200 (VArr []));
     (POST, "https://api.render.com/v1/postgres", HttpResponse 201 new_database);
     (GET, "https://api.render.com/v1/postgres/d1/connection-info",
      HttpResponse 200 new_connection);
     (PUT, "https://api.render.com/v1/services/undefined/env-vars/DATABASE_URL",
      HttpResponse 200 (obj []));
     (POST, "https://api.render.com/v1/services/undefined/deploys",
      HttpResponse 201 (obj []))].

(** ** The console of the fan-out *)


(** * Properties *)

Lemma calls_settle {A} msg (r : result A) w :
  calls (settle msg r w).2 = calls w.
Proof. destruct r; reflexivity. Qed.

Lemma accessor_run {A} (server : api) (req : request)
  (k : response -> result A) (msg : string) (w : world) :
  try_catch
    (let* resp := axios server req in lift (k resp))
    (fun error =>
       let* _ := console_error [PStr msg; PErr error] in throw error) w
  = settle msg (let+ resp := validateStatus (server (calls w) req) in k resp)
      (sent req w).
Proof.
  unfold try_catch, bind, axios, lift.
  destruct (validateStatus (server (calls w) req)) as [resp|e]; cbn.
  - destruct (k resp); reflexivity.
  - reflexivity.
Qed.

Section AccessorRuns.
Context (server : api) (cfg : config).

Lemma fetchOwner_run w :
  fetchOwner server cfg w
  = settle "Error fetching owner:"
      (let+ resp := validateStatus (server (calls w) (owner_request cfg)) in
       owner_of resp)
      (sent (owner_request cfg) w).
Proof.
  rewrite <- accessor_run. unfold fetchOwner, try_catch, bind, axios_get.
  fold (owner_request cfg).
  destruct (axios server (owner_request cfg) w) as [[resp|e] w']; [|reflexivity].
  unfold owner_of, lift, ret. destruct (status resp =? 200); [|reflexivity].
  destruct (get_index (data resp) 0) as [first|]; cbn; [|reflexivity].
  destruct (get_prop first "owner"); reflexivity.
Qed.

Lemma fetchDatabase_run w :
  fetchDatabase server cfg w
  = settle "Error fetching database:"
      (let+ resp := validateStatus (server (calls w) (database_request cfg)) in
       database_of resp)
      (sent (database_request cfg) w).
Proof.
  rewrite <- accessor_run. unfold fetchDatabase, try_catch, bind, axios_get.
  fold (database_request cfg).
  destruct (axios server (database_request cfg) w) as [[resp|e] w']; [|reflexivity].
  unfold database_of, lift, ret.
  destruct (get_prop (data resp) "length") as [len|]; cbn; [|reflexivity].
  destruct (truthy len); [|reflexivity].
  destruct (get_index (data resp) 0) as [first|]; cbn; [|reflexivity].
  destruct (get_prop first "postgres"); reflexivity.
Qed.

Lemma fetchConnectionInfo_run databaseId w :
  fetchConnectionInfo server cfg databaseId w
  = settle
      ("Error fetching details for database ID " +:+ to_string databaseId
         +:+ ":")
      (let+ resp :=
         validateStatus (server (calls w) (connection_request cfg databaseId)) in
       Ok (data resp))
      (sent (connection_request cfg databaseId) w).
Proof. rewrite <- accessor_run. reflexivity. Qed.

Lemma createDatabase_run ownerId w :
  createDatabase server cfg ownerId w
  = settle "Error creating database:"
      (let+ resp :=
         validateStatus
           (server (calls w) (create_request cfg (databaseName cfg) ownerId)) in
       Ok (data resp))
      (sent (create_request cfg (databaseName cfg) ownerId) w).
Proof. rewrite <- accessor_run. reflexivity. Qed.

Lemma deleteDatabase_run databaseId w :
  deleteDatabase server cfg databaseId w
  = settle ("Error deleting database ID " +:+ to_string databaseId +:+ ":")
      (validateStatus (server (calls w) (delete_request cfg databaseId)))
      (sent (delete_request cfg databaseId) w).
Proof.
  unfold deleteDatabase, try_catch, bind, axios_delete, axios.
  fold (delete_request cfg databaseId).
  destruct (validateStatus _); reflexivity.
Qed.

Lemma updateEnvVariable_run serviceId envKey envValue w :
  updateEnvVariable server cfg serviceId envKey envValue w
  = settle
      ("Error updating environment variable for service ID "
         +:+ to_string serviceId +:+ ":")
      (let+ resp :=
         validateStatus
           (server (calls w) (env_request cfg serviceId envKey envValue)) in
       Ok (data resp))
      (sent (env_request cfg serviceId envKey envValue) w).
Proof. rewrite <- accessor_run. reflexivity. Qed.

Lemma deployService_run serviceId w :
  deployService server cfg serviceId w
  = settle ("Error deploying service ID " +:+ to_string serviceId +:+ ":")
      (let+ resp :=
         validateStatus (server (calls w) (deploy_request cfg serviceId)) in
       Ok (data resp))
      (sent (deploy_request cfg serviceId) w).
Proof. rewrite <- accessor_run. reflexivity. Qed.

End AccessorRuns.

(** ** The owner lookup *)

Lemma validateStatus_2xx st d :
  200 <= st < 300 -> validateStatus (HttpResponse st d) = Ok (mkResponse st d).
Proof.
  intros Hst. unfold validateStatus.
  replace (200 <=? st) with true by (symmetry; apply Z.leb_le; lia).
  replace (st <? 300) with true by (symmetry; apply Z.ltb_lt; lia).
  reflexivity.
Qed.

Lemma get_prop_not_nullish v k :
  is_nullish v = false -> exists x, get_prop v k = Ok x.
Proof. destruct v; cbn; intros H; try discriminate; eauto. Qed.

Lemma get_prop_ok_not_nullish v k x : get_prop v k = Ok x -> is_nullish v = false.
Proof. destruct v; cbn; intros H; try discriminate; reflexivity. Qed.

(** C7.  When the owner request resolves with a status other than 200,
    [fetchOwner] returns [undefined] and neither throws nor logs: the world
    has the request and nothing else.  The missing owner shows only when the
    workflow reads its [id]: in every variant the steps after the delete
    guard then stop with a TypeError before any request is issued. *)
Theorem fetchOwner_non_200_is_silent_undefined
  (server : api) (cfg : config) (w : world) (st : Z) (d : value) :
  server (calls w) (owner_request cfg) = HttpResponse st d ->
  200 <= st < 300 ->
  st <> 200 ->
  fetchOwner server cfg w = (Ok VUndefined, sent (owner_request cfg) w)
  /\ get_prop VUndefined "id" = Throw TypeError
  /\ (forall services w',
        Interactive.create_and_repoint server cfg VUndefined services w'
          = (Throw TypeError, w')
        /\ Exported.create_and_repoint server cfg VUndefined services w'
          = (Throw TypeError, w')
        /\ FanOut.create_and_repoint server cfg VUndefined services w'
          = (Throw TypeError, w')).
Proof.
  intros Hreply Hst Hne. split; [|split; [reflexivity|]].
  - rewrite fetchOwner_run, Hreply, validateStatus_2xx by assumption.
    cbn [rbind]. unfold owner_of. cbn [status].
    destruct (Z.eqb_spec st 200) as [->|_]; [contradiction|reflexivity].
  - intros services w'. repeat split; reflexivity.
Qed.

Lemma fetchOwner_non_200_witness :
  fetchOwner (constant_server (HttpResponse 204 (VStr ""))) example_config
    empty_world
  = (Ok VUndefined, sent (owner_request example_config) empty_world).
Proof.
  apply (fetchOwner_non_200_is_silent_undefined
           (constant_server (HttpResponse 204 (VStr ""))) example_config
           empty_world 204 (VStr "")).
  - reflexivity.
  - lia.
  - lia.
Defined.

(** C10.  On a response with status 200, [fetchOwner] never takes the
    branch that returns without a value: with an empty data array it throws
    a TypeError, logged under its heading and thrown again, and whatever it
    returns is the [owner] field read from the first element of the data. *)
Theorem fetchOwner_empty_200_throws
  (server : api) (cfg : config) (w : world) (d : value) :
  server (calls w) (owner_request cfg) = HttpResponse 200 d ->
  (d = VArr [] ->
   fetchOwner server cfg w
   = (Throw TypeError,
      logged (ConsoleError [PStr "Error fetching owner:"; PErr TypeError])
        (sent (owner_request cfg) w)))
  /\ (forall v w',
        fetchOwner server cfg w = (Ok v, w') ->
        exists first,
          get_index d 0 = Ok first
          /\ is_nullish first = false
          /\ get_prop first "owner" = Ok v).
Proof.
  intros Hreply. rewrite fetchOwner_run, Hreply.
  rewrite validateStatus_2xx by lia. cbn [rbind]. unfold owner_of.
  cbn [status data Z.eqb Pos.eqb]. split.
  - intros ->. reflexivity.
  - intros v w'. destruct (get_index d 0) as [first|e]; cbn [rbind settle].
    + destruct (get_prop first "owner") as [o|e] eqn:Ho; cbn [settle].
      * intros [= <- <-]. exists first.
        eauto using get_prop_ok_not_nullish.
      * discriminate.
    + discriminate.
Qed.

Lemma fetchOwner_empty_200_witness :
  fetchOwner (constant_server (HttpResponse 200 (VArr []))) example_config
    empty_world
  = (Throw TypeError,
     logged (ConsoleError [PStr "Error fetching owner:"; PErr TypeError])
       (sent (owner_request example_config) empty_world)).
Proof.
  apply (fetchOwner_empty_200_throws
           (constant_server (HttpResponse 200 (VArr []))) example_config
           empty_world (VArr [])); reflexivity.
Defined.

(** ** Validation of the constants *)

Lemma missing_variables_length cfg chalk :
  all_set cfg = false ->
  Nat.eqb (length (missing_variables cfg chalk)) 0 = false.
Proof.
  unfold all_set, missing_variables.
  destruct (truthy (databaseName cfg)), (truthy (databaseKey cfg)),
    (truthy (baseUrl cfg)), (truthy (key cfg)); cbn; congruence.
Qed.

(** C4.  In the two variants that validate the constants, when any of the
    database name, the env key, the base URL and the API key is unset
    (falsy), the run stops after writing the two lines of the report: the
    list of calls is unchanged, so no HTTP call is made. *)
Theorem unset_constant_aborts_without_calls
  (server : api) (cfg : config) (chalk : styles) (w : world) :
  all_set cfg = false ->
  Interactive.runScript server cfg chalk w
  = (Ok tt, mkWorld (calls w) (console w ++ missing_report cfg chalk))
  /\ Exported.rebuildDatabase server cfg chalk w
     = (Ok tt, mkWorld (calls w) (console w ++ missing_report cfg chalk)).
Proof.
  intros Hunset. pose proof (missing_variables_length cfg chalk Hunset) as Hlen.
  unfold Interactive.runScript, Exported.rebuildDatabase,
    Exported.validateVariables, bind, console_log, ret, logged, missing_report.
  rewrite Hlen. cbn [negb calls console].
  rewrite <- !app_assoc. split; reflexivity.
Qed.

Lemma unset_constant_witness :
  calls (Interactive.runScript (constant_server NetworkFailure)
           (source_config (VStr "rnd_key")) plain_chalk empty_world).2 = []
  /\ calls (Exported.rebuildDatabase (constant_server NetworkFailure)
              (source_config (VStr "rnd_key")) plain_chalk empty_world).2 = [].
Proof.
  destruct (unset_constant_aborts_without_calls
              (constant_server NetworkFailure) (source_config (VStr "rnd_key"))
              plain_chalk empty_world) as [H1 H2].
  - reflexivity.
  - rewrite H1, H2. split; reflexivity.
Defined.

(** ** The service list *)

Lemma is_web_service_carried item :
  carries_service item = true -> is_web_service item = Ok (web_entry item).
Proof.
  unfold is_web_service, carries_service, web_entry.
  destruct item as [| | | | |l|m]; try discriminate.
  cbn [get_prop]. destruct (m !! "service") as [s|]; [|discriminate].
  destruct s as [| | | | |l|sm]; try discriminate; intros _; try reflexivity.
  cbn. destruct (sm !! "type") as [[]|]; reflexivity.
Qed.

Lemma is_web_service_not_carried item :
  carries_service item = false -> is_web_service item = Throw TypeError.
Proof.
  unfold is_web_service, carries_service.
  destruct item as [| | | | |l|m]; try reflexivity.
  cbn. destruct (m !! "service") as [[]|]; cbn; congruence.
Qed.

Lemma web_entry_carries item : web_entry item = true -> carries_service item = true.
Proof.
  unfold web_entry, carries_service. destruct item; try discriminate.
  destruct (_ !! "service") as [[]|]; try discriminate. reflexivity.
Qed.

Lemma web_entry_not_null item : web_entry item = true -> not_null item = true.
Proof. destruct item; try discriminate; reflexivity. Qed.

Lemma filterM_web_entries items :
  forallb carries_service items = true ->
  filterM is_web_service items = Ok (List.filter web_entry items).
Proof.
  induction items as [|x rest IH]; [reflexivity|].
  cbn [forallb filterM List.filter]. intros [Hx Hrest]%andb_prop.
  rewrite (is_web_service_carried x Hx), (IH Hrest). reflexivity.
Qed.

Lemma filterM_web_throws items :
  forallb carries_service items = false ->
  filterM is_web_service items = Throw TypeError.
Proof.
  induction items as [|x rest IH]; [discriminate|].
  cbn [forallb filterM]. destruct (carries_service x) eqn:Hx.
  - rewrite (is_web_service_carried x Hx). cbn [andb rbind]. intros H.
    rewrite (IH H). reflexivity.
  - intros _. rewrite (is_web_service_not_carried x Hx). reflexivity.
Qed.

Lemma filter_not_null_web items :
  List.filter not_null (List.filter web_entry items) = List.filter web_entry items.
Proof.
  induction items as [|x rest IH]; [reflexivity|].
  cbn [List.filter]. destruct (web_entry x) eqn:Hx; [|exact IH].
  cbn [List.filter]. rewrite (web_entry_not_null x Hx), IH. reflexivity.
Qed.

Lemma Interactive_fetchServices_run server cfg w :
  Interactive.fetchServices server cfg w
  = settle "Error fetching services:"
      (let+ resp := validateStatus (server (calls w) (services_request cfg)) in
       let+ services := array_filter is_web_service (data resp) in
       Ok (List.filter not_null services))
      (sent (services_request cfg) w).
Proof.
  rewrite <- accessor_run.
  unfold Interactive.fetchServices, try_catch, bind, axios_get.
  fold (services_request cfg).
  destruct (axios server (services_request cfg) w) as [[resp|e] w']; [|reflexivity].
  unfold lift, ret.
  destruct (array_filter is_web_service (data resp)); reflexivity.
Qed.

Lemma Exported_fetchServices_eq server cfg :
  Exported.fetchServices server cfg = Interactive.fetchServices server cfg.
Proof. reflexivity. Qed.

(** ** The fan-out over the services *)

Section FanOutRuns.
Context (server : api) (cfg : config).

Lemma fetchEventDetails_run serviceId w :
  FanOut.fetchEventDetails server cfg serviceId w
  = settle
      ("Error fetching event details for service ID "
         +:+ to_string serviceId +:+ ":")
      (details_of (server (calls w) (events_request cfg serviceId)))
      (sent (events_request cfg serviceId) w).
Proof.
  unfold details_of. rewrite <- accessor_run.
  unfold FanOut.fetchEventDetails, try_catch, bind, axios_get.
  fold (events_request cfg serviceId).
  destruct (axios server (events_request cfg serviceId) w) as [[resp|e] w'];
    [|reflexivity].
  unfold lift, ret. destruct (array_reduce _ _ _); reflexivity.
Qed.

Lemma detailed_run s w :
  is_nullish s = false ->
  let outcome :=
    details_of (server (calls w) (events_request cfg (prop s "id"))) in
  FanOut.detailed server cfg s w
  = (Ok (slot s outcome),
     mkWorld (calls w ++ [events_request cfg (prop s "id")])
       (console w ++ branch_lines s outcome)).
Proof.
  intros Hs.
  destruct (get_prop_not_nullish s "name" Hs) as [name Hn].
  destruct (get_prop_not_nullish s "id" Hs) as [id' Hi].
  destruct (get_prop_not_nullish s "type" Hs) as [type Ht].
  unfold FanOut.detailed, slot, enriched, branch_lines, prop.
  rewrite Hn, Hi, Ht.
  unfold bind at 1 2 3. unfold lift at 1 2 3. unfold try_catch, bind.
  rewrite fetchEventDetails_run.
  destruct (details_of (server (calls w) (events_request cfg id')))
    as [d|e] eqn:Hd; cbn [settle].
  - unfold ret, sent. rewrite app_nil_r. reflexivity.
  - unfold console_error, ret, logged, sent. cbn [calls console].
    rewrite <- app_assoc. reflexivity.
Qed.

Lemma promise_all_detailed services : forall w,
  forallb (fun s => negb (is_nullish s)) services = true ->
  exists lines,
    promise_all_map (FanOut.detailed server cfg) services w
    = (Ok (List.map (fun '(s, o) => slot s o)
             (combine services (detail_outcomes server cfg (calls w) services))),
       mkWorld (calls w ++ event_requests cfg services) (console w ++ lines)).
Proof.
  induction services as [|s rest IH]; intros w Hall.
  - exists []. cbn. rewrite !app_nil_r. destruct w; reflexivity.
  - cbn [forallb] in Hall. apply andb_prop in Hall as [Hs Hrest].
    apply negb_true_iff in Hs.
    pose proof (detailed_run s w Hs) as H1. cbv zeta in H1.
    cbn [promise_all_map]. rewrite H1.
    destruct (IH (mkWorld (calls w ++ [events_request cfg (prop s "id")])
                    (console w ++ branch_lines s
                       (details_of
                          (server (calls w)
                             (events_request cfg (prop s "id"))))))
                Hrest) as [lines2 H2].
    rewrite H2.
    exists (branch_lines s
              (details_of
                 (server (calls w) (events_request cfg (prop s "id"))))
              ++ lines2).
    cbn [calls console detail_outcomes combine List.map event_requests].
    rewrite <- !app_assoc. reflexivity.
Qed.

Lemma filter_not_null_slots services : forall outcomes,
  List.filter not_null
    (List.map (fun '(s, o) => slot s o) (combine services outcomes))
  = survivors services outcomes.
Proof.
  induction services as [|s rest IH]; intros [|[d|e] os]; try reflexivity.
  - cbn [combine List.map List.filter survivors slot].
    cbn [enriched obj not_null]. rewrite IH. reflexivity.
  - cbn [combine List.map List.filter survivors slot not_null]. apply IH.
Qed.

Lemma detail_outcomes_length services : forall h,
  length (detail_outcomes server cfg h services) = length services.
Proof.
  induction services as [|s rest IH]; intros h; cbn; [|rewrite IH]; reflexivity.
Qed.

Lemma survivors_length services : forall outcomes,
  length outcomes = length services ->
  (length (survivors services outcomes)
   + length (List.filter failed outcomes) = length services)%nat.
Proof.
  induction services as [|s rest IH]; intros [|[d|e] os] Hlen;
    try discriminate; try reflexivity.
  - cbn [survivors List.filter failed length]. cbn [length] in Hlen.
    pose proof (IH os ltac:(lia)). lia.
  - cbn [survivors List.filter failed length]. cbn [length] in Hlen.
    pose proof (IH os ltac:(lia)). lia.
Qed.

End FanOutRuns.

Section FanOutServices.
Context (server : api) (cfg : config).

Lemma web_entry_service item :
  web_entry item = true ->
  get_prop item "service" = Ok (prop item "service")
  /\ is_nullish (prop item "service") = false.
Proof.
  unfold web_entry, prop. destruct item as [| | | | |l|m]; try discriminate.
  cbn. destruct (m !! "service") as [[]|]; try discriminate.
  intros _. split; reflexivity.
Qed.

Lemma mapM_service items :
  mapM (fun item => get_prop item "service") (List.filter web_entry items)
  = Ok (web_services items).
Proof.
  unfold web_services. induction items as [|x rest IH]; [reflexivity|].
  cbn [List.filter]. destruct (web_entry x) eqn:Hx; [|exact IH].
  cbn [mapM List.map]. destruct (web_entry_service x Hx) as [-> _].
  cbn [rbind]. rewrite IH. reflexivity.
Qed.

Lemma web_services_not_nullish items :
  forallb (fun s => negb (is_nullish s)) (web_services items) = true.
Proof.
  unfold web_services. induction items as [|x rest IH]; [reflexivity|].
  cbn [List.filter]. destruct (web_entry x) eqn:Hx; [|exact IH].
  cbn [List.map forallb]. destruct (web_entry_service x Hx) as [_ ->].
  exact IH.
Qed.

Lemma FanOut_fetchServices_run w st items :
  server (calls w) (services_request cfg) = HttpResponse st (VArr items) ->
  200 <= st < 300 ->
  forallb carries_service items = true ->
  let services := web_services items in
  let outcomes :=
    detail_outcomes server cfg (calls w ++ [services_request cfg]) services in
  exists lines,
    promise_all_map (FanOut.detailed server cfg) services
      (sent (services_request cfg) w)
    = (Ok (List.map (fun '(s, o) => slot s o) (combine services outcomes)),
       mkWorld (calls w ++ services_request cfg :: event_requests cfg services)
         (console w ++ lines))
    /\ FanOut.fetchServices server cfg w
       = (Ok (survivors services outcomes),
          mkWorld
            (calls w ++ services_request cfg :: event_requests cfg services)
            (console w ++ lines)).
Proof.
  intros Hreply Hst Hitems services outcomes.
  destruct (promise_all_detailed server cfg services
              (sent (services_request cfg) w)
              (web_services_not_nullish items)) as [lines Hall].
  exists lines. cbn [sent calls console] in Hall.
  rewrite <- app_assoc in Hall. cbn [app] in Hall.
  fold outcomes in Hall. split; [exact Hall|].
  unfold FanOut.fetchServices, try_catch, bind at 1, axios_get, axios.
  fold (services_request cfg). rewrite Hreply, validateStatus_2xx by assumption.
  cbn [data]. unfold array_filter. rewrite (filterM_web_entries items Hitems).
  unfold bind at 1. unfold lift at 1.
  unfold bind at 1. unfold lift at 1. rewrite mapM_service.
  unfold bind. fold services. rewrite Hall. unfold ret.
  rewrite filter_not_null_slots. reflexivity.
Qed.

End FanOutServices.

(** C5.  In the fan-out variant, when exactly one of the detail fetches of
    the N web services fails, [fetchServices] still returns: all N event
    requests are issued, the failed branch fills its slot with [null], and
    the result is the N-1 other services, enriched and in order. *)
Theorem one_failed_detail_fetch_drops_one_service
  (server : api) (cfg : config) (w : world) (st : Z) (items : list value) :
  server (calls w) (services_request cfg) = HttpResponse st (VArr items) ->
  200 <= st < 300 ->
  forallb carries_service items = true ->
  let services := web_services items in
  let outcomes :=
    detail_outcomes server cfg (calls w ++ [services_request cfg]) services in
  length (List.filter failed outcomes) = 1%nat ->
  exists slots result w',
    promise_all_map (FanOut.detailed server cfg) services
      (sent (services_request cfg) w) = (Ok slots, w')
    /\ slots = List.map (fun '(s, o) => slot s o) (combine services outcomes)
    /\ FanOut.fetchServices server cfg w = (Ok result, w')
    /\ result = List.filter not_null slots
    /\ result = survivors services outcomes
    /\ S (length result) = length services
    /\ calls w'
       = calls w ++ services_request cfg :: event_requests cfg services.
Proof.
  intros Hreply Hst Hitems services outcomes Hone.
  destruct (FanOut_fetchServices_run server cfg w st items Hreply Hst Hitems)
    as [lines [Hall Hrun]].
  fold services outcomes in Hall, Hrun.
  eexists _, _, _. split; [exact Hall|]. split; [reflexivity|].
  split; [exact Hrun|]. split; [symmetry; apply filter_not_null_slots|].
  split; [reflexivity|]. split; [|reflexivity].
  pose proof (survivors_length services outcomes
                (detail_outcomes_length server cfg services _)) as Hlen.
  lia.
Qed.

Lemma one_failed_detail_fetch_witness :
  exists result w',
    FanOut.fetchServices one_failure_server example_config empty_world
    = (Ok result, w')
    /\ S (length result) = 2%nat.
Proof.
  destruct (one_failed_detail_fetch_drops_one_service
              one_failure_server example_config empty_world 200
              [service_entry "s1" "web_service";
               service_entry "s2" "static_site";
               service_entry "s3" "web_service"])
    as (slots & result & w' & _ & _ & Hrun & _ & _ & Hlen & _).
  - reflexivity.
  - lia.
  - reflexivity.
  - reflexivity.
  - exists result, w'. split; [exact Hrun|exact Hlen].
Defined.

(** C6, as stated, fails in the fan-out variant: of the two web services
    of the list, [s1] and [s3], only [s1] is returned, because the detail
    fetch of [s3] failed. *)
Lemma fanout_drops_web_service_counterexample :
  let items :=
    [service_entry "s1" "web_service"; service_entry "s2" "static_site";
     service_entry "s3" "web_service"] in
  one_failure_server (calls empty_world) (services_request example_config)
  = HttpResponse 200 (VArr items)
  /\ List.map (fun item => prop (prop item "service") "id")
       (List.filter web_entry items)
     = [VStr "s1"; VStr "s3"]
  /\ exists result w',
       FanOut.fetchServices one_failure_server example_config empty_world
       = (Ok result, w')
       /\ List.map (fun e => prop e "id") result = [VStr "s1"].
Proof.
  cbv zeta. split; [reflexivity|]. split; [reflexivity|].
  eexists _, _. split; [vm_compute; reflexivity|reflexivity].
Qed.

Lemma filter_web_entry_Permutation items items' :
  Permutation items items' ->
  Permutation (List.filter web_entry items) (List.filter web_entry items').
Proof.
  induction 1 as [|x l l' _ IH|x y l|l l' l'' _ IH1 _ IH2].
  - constructor.
  - cbn [List.filter]. destruct (web_entry x); [apply perm_skip|]; exact IH.
  - cbn [List.filter]. destruct (web_entry x), (web_entry y);
      try reflexivity. apply perm_swap.
  - etransitivity; eassumption.
Qed.

Lemma Interactive_fetchServices_web server cfg w st items :
  server (calls w) (services_request cfg) = HttpResponse st (VArr items) ->
  200 <= st < 300 ->
  forallb carries_service items = true ->
  Interactive.fetchServices server cfg w
  = (Ok (List.filter web_entry items), sent (services_request cfg) w).
Proof.
  intros Hreply Hst Hitems.
  rewrite Interactive_fetchServices_run, Hreply, validateStatus_2xx
    by assumption.
  cbn [rbind data array_filter]. rewrite (filterM_web_entries items Hitems).
  cbn [rbind]. rewrite filter_not_null_web. reflexivity.
Qed.

(** C6, amended.  For every services list whose entries carry a service,
    in whatever order: the interactive and the module variant return
    exactly the entries whose [service.type] is ["web_service"], in the
    order of the response; the fan-out variant returns, unwrapped and
    enriched, exactly the web services whose detail fetch succeeded, so
    never a service of another type.  Reordering the response reorders the
    retained entries and changes nothing else. *)
Theorem fetchServices_retains_web_services
  (server : api) (cfg : config) (w : world) (st : Z) (items : list value) :
  server (calls w) (services_request cfg) = HttpResponse st (VArr items) ->
  200 <= st < 300 ->
  forallb carries_service items = true ->
  Interactive.fetchServices server cfg w
  = (Ok (List.filter web_entry items), sent (services_request cfg) w)
  /\ Exported.fetchServices server cfg w
     = (Ok (List.filter web_entry items), sent (services_request cfg) w)
  /\ (forall e, In e (List.filter web_entry items)
                <-> In e items /\ web_entry e = true)
  /\ (exists w',
        FanOut.fetchServices server cfg w
        = (Ok (survivors (web_services items)
                 (detail_outcomes server cfg
                    (calls w ++ [services_request cfg]) (web_services items))),
           w'))
  /\ (forall items',
        Permutation items items' ->
        Permutation (List.filter web_entry items)
          (List.filter web_entry items')).
Proof.
  intros Hreply Hst Hitems.
  pose proof (Interactive_fetchServices_web server cfg w st items Hreply Hst
                Hitems) as Hrun.
  split; [exact Hrun|]. split; [exact Hrun|].
  split; [intros e; apply filter_In|]. split.
  - destruct (FanOut_fetchServices_run server cfg w st items Hreply Hst Hitems)
      as [lines [_ Hfan]].
    eexists. exact Hfan.
  - intros items'. apply filter_web_entry_Permutation.
Qed.

Lemma fetchServices_retains_web_services_witness :
  Interactive.fetchServices one_failure_server example_config empty_world
  = (Ok [service_entry "s1" "web_service"; service_entry "s3" "web_service"],
     sent (services_request example_config) empty_world).
Proof.
  apply (fetchServices_retains_web_services one_failure_server example_config
           empty_world 200
           [service_entry "s1" "web_service"; service_entry "s2" "static_site";
            service_entry "s3" "web_service"]).
  - reflexivity.
  - lia.
  - reflexivity.
Defined.

(** ** The details of the deploy events *)

Lemma get_prop_prop v k : is_nullish v = false -> get_prop v k = Ok (prop v k).
Proof.
  intros Hv. unfold prop. destruct (get_prop_not_nullish v k Hv) as [x ->].
  reflexivity.
Qed.

Lemma latest_step_carried o item :
  carries_event item = true ->
  FanOut.latest_step o item
  = Ok (if is_deploy_ended item then deploy_details item else o).
Proof.
  unfold carries_event. intros [Hitem Hevent]%andb_prop.
  apply negb_true_iff in Hitem, Hevent.
  unfold FanOut.latest_step, is_deploy_ended, deploy_details.
  rewrite (get_prop_prop item "event" Hitem). cbn [rbind].
  rewrite !(get_prop_prop (prop item "event") _ Hevent). cbn [rbind].
  destruct (strict_eq_str _ _); reflexivity.
Qed.

Lemma reduceM_latest items : forall acc,
  forallb carries_event items = true ->
  reduceM FanOut.latest_step items acc
  = Ok (from_option deploy_details acc (last_deploy_ended items)).
Proof.
  unfold last_deploy_ended.
  induction items as [|x rest IH]; intros acc Hall; [reflexivity|].
  cbn [forallb] in Hall. apply andb_prop in Hall as [Hx Hrest].
  cbn [reduceM List.filter]. rewrite (latest_step_carried acc x Hx).
  cbn [rbind]. rewrite (IH _ Hrest).
  destruct (is_deploy_ended x); [|reflexivity].
  rewrite last_cons. destruct (last (List.filter is_deploy_ended rest));
    reflexivity.
Qed.

(** C8, as stated, fails when the events come newest first: the deploy
    that ended last is the one of 2 May, but the details returned are those
    of the deploy of 1 May, the last of the response. *)
Lemma newest_first_events_counterexample :
  exists latest details w',
    greatest_deploy_ended descending_events = Some latest
    /\ prop (prop latest "event") "timestamp" = VStr "2024-05-02T09:00:00Z"
    /\ FanOut.fetchEventDetails descending_server example_config (VStr "s1")
         empty_world = (Ok details, w')
    /\ prop details "lastDeployed" = VStr "2024-05-01T10:00:00Z"
    /\ prop details "status" = VStr "failed".
Proof.
  eexists _, _, _. split; [vm_compute; reflexivity|].
  split; [reflexivity|]. split; [vm_compute; reflexivity|].
  split; reflexivity.
Qed.

(** C8, amended.  In the fan-out variant, a service is enriched with the
    details of the last [deploy_ended] event in the order of the events
    response, whatever its timestamp, together with a [lastDeployed] field
    equal to the timestamp of that event; when the response has no such
    event the details are the empty object, without a [lastDeployed]. *)
Theorem details_are_those_of_last_deploy_in_response
  (server : api) (cfg : config) (w : world) (service : value) (st : Z)
  (events : list value) :
  is_nullish service = false ->
  server (calls w) (events_request cfg (prop service "id"))
  = HttpResponse st (VArr events) ->
  200 <= st < 300 ->
  forallb carries_event events = true ->
  let details :=
    from_option deploy_details (obj []) (last_deploy_ended events) in
  FanOut.fetchEventDetails server cfg (prop service "id") w
  = (Ok details, sent (events_request cfg (prop service "id")) w)
  /\ FanOut.detailed server cfg service w
     = (Ok (enriched service details),
        sent (events_request cfg (prop service "id")) w)
  /\ get_prop (enriched service details) "details" = Ok details
  /\ (forall item,
        last_deploy_ended events = Some item ->
        In item events
        /\ is_deploy_ended item = true
        /\ get_prop details "lastDeployed"
           = Ok (prop (prop item "event") "timestamp"))
  /\ (last_deploy_ended events = None -> details = obj []).
Proof.
  intros Hservice Hreply Hst Hevents details.
  assert (Hdetails : details_of (server (calls w)
                                   (events_request cfg (prop service "id")))
                     = Ok details).
  { unfold details_of. rewrite Hreply, validateStatus_2xx by assumption.
    cbn [rbind data array_reduce]. apply reduceM_latest, Hevents. }
  split; [|split; [|split; [|split]]].
  - rewrite fetchEventDetails_run, Hdetails. reflexivity.
  - pose proof (detailed_run server cfg service w Hservice) as Hrun.
    cbv zeta in Hrun. rewrite Hrun, Hdetails. cbn [slot branch_lines].
    unfold sent. rewrite app_nil_r. reflexivity.
  - unfold enriched, obj. cbn [get_prop list_to_map foldr].
    unfold fmap, curry. cbn [fst snd].
    rewrite lookup_insert_ne by discriminate.
    rewrite lookup_insert_ne by discriminate.
    rewrite lookup_insert_ne by discriminate.
    rewrite lookup_insert_eq. reflexivity.
  - intros item Hlast. subst details. rewrite Hlast. cbn [from_option].
    unfold last_deploy_ended in Hlast.
    apply last_Some in Hlast as [l' Hl'].
    assert (Hin : In item (List.filter is_deploy_ended events)).
    { rewrite Hl'. apply in_or_app. right. left. reflexivity. }
    apply filter_In in Hin as [Hin Hdep]. split; [exact Hin|].
    split; [exact Hdep|]. unfold deploy_details. cbn [get_prop].
    rewrite lookup_insert_eq. reflexivity.
  - intros Hnone. subst details. rewrite Hnone. reflexivity.
Qed.

Lemma details_of_last_deploy_witness :
  FanOut.fetchEventDetails descending_server example_config
    (prop (obj [("id", VStr "s1")]) "id") empty_world
  = (Ok (from_option deploy_details (obj []) (last_deploy_ended descending_events)),
     sent (events_request example_config (prop (obj [("id", VStr "s1")]) "id"))
       empty_world).
Proof.
  apply (details_are_those_of_last_deploy_in_response descending_server
           example_config empty_world (obj [("id", VStr "s1")]) 200
           descending_events).
  - reflexivity.
  - reflexivity.
  - lia.
  - reflexivity.
Defined.

(** ** The requests a computation issues *)

Section Emits.
Context (P : request -> Prop).

Lemma emits_ret {A} (a : A) : emits P (ret a).
Proof. intros w. exists []. rewrite app_nil_r. split; [reflexivity|constructor]. Qed.

Lemma emits_throw {A} e : emits P (@throw A e).
Proof. intros w. exists []. rewrite app_nil_r. split; [reflexivity|constructor]. Qed.

Lemma emits_lift {A} (r : result A) : emits P (lift r).
Proof. intros w. exists []. rewrite app_nil_r. split; [reflexivity|constructor]. Qed.

Lemma emits_console_log args : emits P (console_log args).
Proof. intros w. exists []. rewrite app_nil_r. split; [reflexivity|constructor]. Qed.

Lemma emits_console_error args : emits P (console_error args).
Proof. intros w. exists []. rewrite app_nil_r. split; [reflexivity|constructor]. Qed.

Lemma emits_axios server r : P r -> emits P (axios server r).
Proof.
  intros Hr w. exists [r]. split; [reflexivity|]. constructor; [exact Hr|constructor].
Qed.

Lemma emits_bind {A B} (m : M A) (f : A -> M B) :
  emits P m -> (forall a, emits P (f a)) -> emits P (bind m f).
Proof.
  intros Hm Hf w. unfold bind. destruct (Hm w) as (l1 & H1 & HP1).
  destruct (m w) as [[a|e] w1]; cbn [snd] in *.
  - destruct (Hf a w1) as (l2 & H2 & HP2). exists (l1 ++ l2).
    rewrite H2, H1, app_assoc. split; [reflexivity|].
    apply Forall_app; split; assumption.
  - exists l1. split; assumption.
Qed.

Lemma emits_try_catch {A} (m : M A) (h : exn -> M A) :
  emits P m -> (forall e, emits P (h e)) -> emits P (try_catch m h).
Proof.
  intros Hm Hh w. unfold try_catch. destruct (Hm w) as (l1 & H1 & HP1).
  destruct (m w) as [[a|e] w1]; cbn [snd] in *.
  - exists l1. split; assumption.
  - destruct (Hh e w1) as (l2 & H2 & HP2). exists (l1 ++ l2).
    rewrite H2, H1, app_assoc. split; [reflexivity|].
    apply Forall_app; split; assumption.
Qed.

Lemma emits_for_of (Q : value -> Prop) l body :
  Forall Q l -> (forall x, Q x -> emits P (body x)) -> emits P (for_of l body).
Proof.
  intros Hl Hbody. induction Hl as [|x rest Hx _ IH]; cbn [for_of].
  - apply emits_ret.
  - apply emits_bind; [apply Hbody, Hx|intros _; exact IH].
Qed.

Lemma emits_promise_all_map f l :
  (forall x, emits P (f x)) -> emits P (promise_all_map f l).
Proof.
  intros Hf. induction l as [|x rest IH]; intros w; cbn [promise_all_map].
  - exists []. rewrite app_nil_r. split; [reflexivity|constructor].
  - destruct (Hf x w) as (l1 & H1 & HP1).
    destruct (f x w) as [r w1]; cbn [snd] in *.
    destruct (IH w1) as (l2 & H2 & HP2).
    destruct (promise_all_map f rest w1) as [rs w2]; cbn [snd] in *.
    exists (l1 ++ l2). rewrite H2, H1, app_assoc. split; [reflexivity|].
    apply Forall_app; split; assumption.
Qed.

End Emits.

Lemma emits_bind_lift_ok {A B} P (r : result A) (a : A) (f : A -> M B) :
  r = Ok a -> emits P (f a) -> emits P (bind (lift r) f).
Proof. intros -> Hf w. exact (Hf w). Qed.

(** Breaks a goal [emits P m] down along the structure of [m]; what is left
    is [P] of each request. *)
Ltac emits_step :=
  lazymatch goal with
  | |- emits _ (bind (lift (Ok ?a)) _) =>
      apply (emits_bind_lift_ok _ _ a); [reflexivity|]
  | |- emits _ (bind _ _) => apply emits_bind; [|intros ?]
  | |- emits _ (try_catch _ _) => apply emits_try_catch; [|intros ?]
  | |- emits _ (ret _) => apply emits_ret
  | |- emits _ (throw _) => apply emits_throw
  | |- emits _ (lift _) => apply emits_lift
  | |- emits _ (console_log _) => apply emits_console_log
  | |- emits _ (console_error _) => apply emits_console_error
  | |- emits _ (axios _ _) => apply emits_axios
  | |- emits _ (promise_all_map _ _) => apply emits_promise_all_map; intros ?
  | |- emits _ (if ?b then _ else _) => destruct b
  end.

(** ** The rebuild workflow *)

Lemma bind_run {A B} (m : M A) (f : A -> M B) w :
  bind m f w
  = match m w with
    | (Ok a, w') => f a w'
    | (Throw e, w') => (Throw e, w')
    end.
Proof. reflexivity. Qed.

Lemma bind_lift {A B} (r : result A) (f : A -> M B) w :
  bind (lift r) f w
  = match r with Ok a => f a w | Throw e => (Throw e, w) end.
Proof. destruct r; reflexivity. Qed.

Section WorkflowRuns.
Context (server : api) (cfg : config) (fetchServices : M (list value))
  (create_step : value -> list value -> M unit).

Lemma workflow_after_reads w owner services database w3 :
  reads server cfg fetchServices (started w) owner services database w3 ->
  workflow server cfg fetchServices create_step w = try_catch (guarded server cfg create_step owner services database) on_error w3.
Proof.
  intros (w1 & w2 & Howner & Hservices & Hdatabase). unfold started in Howner.
  unfold workflow, bind at 1, console_log, try_catch.
  unfold bind at 1. rewrite Howner. unfold bind at 1. rewrite Hservices.
  unfold bind at 1. rewrite Hdatabase. reflexivity.
Qed.

Lemma isEmpty_false_not_nullish database :
  isEmpty database = Ok false -> is_nullish database = false.
Proof. destruct database; cbn; intros H; try discriminate; reflexivity. Qed.

(** A delete that is not answered with 204 ends the workflow. *)
Lemma guarded_failed_delete owner services database w3 st d :
  isEmpty database = Ok false ->
  server (calls w3) (delete_request cfg (prop database "id"))
  = HttpResponse st d ->
  st <> 204 ->
  exists lines,
    try_catch (guarded server cfg create_step owner services database) on_error w3
    = (Ok tt,
       mkWorld (calls w3 ++ [delete_request cfg (prop database "id")])
         (console w3 ++ lines))
    /\ (200 <= st < 300 ->
        lines = [ConsoleError [PStr "Failed to delete existing database."]]).
Proof.
  intros Hempty Hreply Hst.
  pose proof (get_prop_prop database "id"
                (isEmpty_false_not_nullish database Hempty)) as Hid.
  unfold guarded, try_catch. rewrite bind_lift, Hempty. cbn [negb].
  rewrite bind_lift, Hid, bind_run, deleteDatabase_run, Hreply.
  destruct (validateStatus (HttpResponse st d)) as [resp|e] eqn:Hvalid.
  - cbn [settle]. unfold validateStatus in Hvalid.
    destruct ((200 <=? st) && (st <? 300)) eqn:H2xx; [|discriminate].
    injection Hvalid as <-. cbn [status].
    destruct (Z.eqb_spec st 204) as [->|_]; [contradiction|].
    cbn [negb]. eexists. split; [reflexivity|]. intros _. reflexivity.
  - cbn [settle]. eexists. split.
    + unfold on_error, console_error, logged, sent. cbn [calls console].
      rewrite <- app_assoc. reflexivity.
    + intros H2xx. rewrite validateStatus_2xx in Hvalid by assumption.
      discriminate.
Qed.

(** With no database in the list the guard is passed over. *)
Lemma guarded_empty owner services :
  guarded server cfg create_step owner services (obj []) = create_step owner services.
Proof. reflexivity. Qed.

End WorkflowRuns.

Lemma Interactive_rebuildDatabase_workflow server cfg :
  Interactive.rebuildDatabase server cfg
  = workflow server cfg (Interactive.fetchServices server cfg)
      (Interactive.create_and_repoint server cfg).
Proof. reflexivity. Qed.

Lemma FanOut_rebuildDatabase_workflow server cfg :
  FanOut.rebuildDatabase server cfg
  = workflow server cfg (FanOut.fetchServices server cfg)
      (FanOut.create_and_repoint server cfg).
Proof. reflexivity. Qed.

Lemma all_set_no_missing cfg chalk :
  all_set cfg = true -> missing_variables cfg chalk = [].
Proof.
  unfold all_set, missing_variables.
  destruct (truthy (databaseName cfg)), (truthy (databaseKey cfg)),
    (truthy (baseUrl cfg)), (truthy (key cfg)); cbn; congruence.
Qed.

Lemma Exported_rebuildDatabase_workflow server cfg chalk w :
  all_set cfg = true ->
  Exported.rebuildDatabase server cfg chalk w
  = workflow server cfg (Exported.fetchServices server cfg)
      (Exported.create_and_repoint server cfg) (validated chalk w).
Proof.
  intros Hset. unfold Exported.rebuildDatabase, Exported.validateVariables.
  unfold bind at 1. rewrite (all_set_no_missing cfg chalk Hset). reflexivity.
Qed.

(** ** The reads only read, and a refused delete ends the run *)

Lemma fetchOwner_emits_get server cfg : emits is_get (fetchOwner server cfg).
Proof.
  unfold fetchOwner, axios_get. repeat emits_step; reflexivity.
Qed.

Lemma fetchDatabase_emits_get server cfg : emits is_get (fetchDatabase server cfg).
Proof.
  unfold fetchDatabase, axios_get. repeat emits_step; reflexivity.
Qed.

Lemma Interactive_fetchServices_emits_get server cfg :
  emits is_get (Interactive.fetchServices server cfg).
Proof.
  unfold Interactive.fetchServices, axios_get. repeat emits_step; reflexivity.
Qed.

Lemma FanOut_fetchServices_emits_get server cfg :
  emits is_get (FanOut.fetchServices server cfg).
Proof.
  unfold FanOut.fetchServices, FanOut.detailed, FanOut.fetchEventDetails,
    axios_get.
  repeat emits_step; reflexivity.
Qed.

Lemma emits_run {A} P (m : M A) w r w' :
  emits P m -> m w = (r, w') -> exists l, calls w' = calls w ++ l /\ Forall P l.
Proof. intros Hm Hrun. specialize (Hm w). rewrite Hrun in Hm. exact Hm. Qed.

Lemma reads_emit_get server cfg fetchServices w0 owner services database w3 :
  emits is_get fetchServices ->
  reads server cfg fetchServices w0 owner services database w3 ->
  exists gets, calls w3 = calls w0 ++ gets /\ Forall is_get gets.
Proof.
  intros Hfs (w1 & w2 & Howner & Hservices & Hdatabase).
  destruct (emits_run _ _ _ _ _ (fetchOwner_emits_get server cfg) Howner)
    as (l1 & H1 & HP1).
  destruct (emits_run _ _ _ _ _ Hfs Hservices) as (l2 & H2 & HP2).
  destruct (emits_run _ _ _ _ _ (fetchDatabase_emits_get server cfg) Hdatabase)
    as (l3 & H3 & HP3).
  exists (l1 ++ l2 ++ l3). rewrite H3, H2, H1, <- !app_assoc.
  split; [reflexivity|]. rewrite !Forall_app. auto.
Qed.

Lemma workflow_failed_delete server cfg fetchServices create_step
  w owner services database w3 st d :
  emits is_get fetchServices ->
  reads server cfg fetchServices (started w) owner services database w3 ->
  isEmpty database = Ok false ->
  server (calls w3) (delete_request cfg (prop database "id"))
  = HttpResponse st d ->
  st <> 204 ->
  aborted_after_delete cfg w w3 database st
    (workflow server cfg fetchServices create_step w).
Proof.
  intros Hfs Hreads Hempty Hreply Hst.
  rewrite (workflow_after_reads _ _ _ _ _ _ _ _ _ Hreads).
  destruct (guarded_failed_delete server cfg create_step owner services
              database w3 st d Hempty Hreply Hst) as (lines & -> & Hlines).
  destruct (reads_emit_get _ _ _ _ _ _ _ _ Hfs Hreads) as (gets & Hcalls & Hgets).
  cbn [started logged calls] in Hcalls.
  exists gets, lines. rewrite Hcalls, <- app_assoc.
  split; [reflexivity|]. split; assumption.
Qed.

(** C1.  In each of the three scripts, when the reads found a database and
    the delete request is answered with a status other than 204, the run
    ends there: the delete is its last call, so no database is created, no
    environment variable updated and no deploy started, and every call
    before the delete is a read; when the delete resolved (a 2xx status),
    the failure line is written and the function returns. *)
Theorem failed_delete_aborts_before_create
  (server : api) (cfg : config) (chalk : styles) (w : world)
  (owner : value) (services : list value) (database : value) (w3 : world)
  (st : Z) (d : value) :
  isEmpty database = Ok false ->
  server (calls w3) (delete_request cfg (prop database "id"))
  = HttpResponse st d ->
  st <> 204 ->
  (reads server cfg (Interactive.fetchServices server cfg) (started w)
     owner services database w3 ->
   aborted_after_delete cfg w w3 database st
     (Interactive.rebuildDatabase server cfg w))
  /\ (all_set cfg = true ->
      reads server cfg (Exported.fetchServices server cfg)
        (started (validated chalk w)) owner services database w3 ->
      aborted_after_delete cfg w w3 database st
        (Exported.rebuildDatabase server cfg chalk w))
  /\ (reads server cfg (FanOut.fetchServices server cfg) (started w)
        owner services database w3 ->
      aborted_after_delete cfg w w3 database st
        (FanOut.rebuildDatabase server cfg w)).
Proof.
  intros Hempty Hreply Hst. split; [|split].
  - intros Hreads. rewrite Interactive_rebuildDatabase_workflow.
    eapply workflow_failed_delete; eauto using Interactive_fetchServices_emits_get.
  - intros Hset Hreads. rewrite Exported_rebuildDatabase_workflow by assumption.
    exact (workflow_failed_delete server cfg _ _ (validated chalk w) owner
             services database w3 st d
             (Interactive_fetchServices_emits_get server cfg)
             Hreads Hempty Hreply Hst).
  - intros Hreads. rewrite FanOut_rebuildDatabase_workflow.
    eapply workflow_failed_delete; eauto using FanOut_fetchServices_emits_get.
Qed.

Lemma failed_delete_witness :
  aborted_after_delete example_config empty_world
    (after_reads refused_delete_server example_config
       (Interactive.fetchServices refused_delete_server example_config)
       (started empty_world))
    existing_database 200
    (Interactive.rebuildDatabase refused_delete_server example_config
       empty_world)
  /\ aborted_after_delete example_config empty_world
       (after_reads refused_delete_server example_config
          (FanOut.fetchServices refused_delete_server example_config)
          (started empty_world))
       existing_database 200
       (FanOut.rebuildDatabase refused_delete_server example_config
          empty_world).
Proof.
  split.
  - apply (failed_delete_aborts_before_create refused_delete_server
             example_config plain_chalk empty_world
             (obj [("id", VStr "o1")])
             [service_entry "s1" "web_service"]
             existing_database _ 200 (obj [])).
    + reflexivity.
    + reflexivity.
    + lia.
    + eexists _, _. repeat split; vm_compute; reflexivity.
  - apply (failed_delete_aborts_before_create refused_delete_server
             example_config plain_chalk empty_world
             (obj [("id", VStr "o1")])
             [enriched (prop (service_entry "s1" "web_service") "service")
                (obj [])]
             existing_database _ 200 (obj [])).
    + reflexivity.
    + reflexivity.
    + lia.
    + eexists _, _. repeat split; vm_compute; reflexivity.
Defined.

(** ** Passing over the delete *)

Lemma try_catch_bind_lift {A B} (r : result A) (a : A) (F : A -> M B) h w :
  r = Ok a -> try_catch (bind (lift r) F) h w = try_catch (F a) h w.
Proof. intros ->. reflexivity. Qed.

(** A computation that begins with one request [req] and goes on with
    requests that satisfy [P]. *)
Lemma emits_after_first {A B} (P : request -> Prop) (m : M A) (K : A -> M B)
  (h : exn -> M B) (req : request) (w : world) :
  (forall w0, calls (m w0).2 = calls w0 ++ [req]) ->
  (forall a, emits P (K a)) ->
  (forall e, emits P (h e)) ->
  exists rest,
    calls (try_catch (bind m K) h w).2 = calls w ++ req :: rest
    /\ Forall P rest.
Proof.
  intros Hm HK Hh. unfold try_catch, bind. specialize (Hm w).
  destruct (m w) as [[a|e] w1]; cbn [snd] in Hm.
  - destruct (HK a w1) as (l & Hl & HP).
    destruct (K a w1) as [[b|e] w2]; cbn [snd] in *.
    + exists l. rewrite Hl, Hm, <- app_assoc. split; [reflexivity|exact HP].
    + destruct (Hh e w2) as (l' & Hl' & HP'). exists (l ++ l').
      rewrite Hl', Hl, Hm, <- !app_assoc. split; [reflexivity|].
      apply Forall_app; split; assumption.
  - destruct (Hh e w1) as (l' & Hl' & HP'). exists l'.
    rewrite Hl', Hm, <- app_assoc. split; [reflexivity|exact HP'].
Qed.

Lemma Forall_any {A} (l : list A) : Forall (fun _ => True) l.
Proof. induction l; constructor; auto. Qed.

Ltac emits_loop :=
  lazymatch goal with
  | |- emits _ (for_of _ _) =>
      apply (emits_for_of _ (fun _ => True)); [apply Forall_any|intros ? _]
  | _ => emits_step
  end.

Section CreateSteps.
Context (server : api) (cfg : config).

Lemma calls_createDatabase ownerId w :
  calls (createDatabase server cfg ownerId w).2
  = calls w ++ [create_request cfg (databaseName cfg) ownerId].
Proof. rewrite createDatabase_run, calls_settle. reflexivity. Qed.

Lemma calls_FanOut_createDatabase name ownerId w :
  calls (FanOut.createDatabase server cfg name ownerId w).2
  = calls w ++ [create_request cfg name ownerId].
Proof.
  unfold FanOut.createDatabase, axios_post.
  fold (create_request cfg name ownerId).
  rewrite accessor_run with (k := fun resp => Ok (data resp)).
  rewrite calls_settle. reflexivity.
Qed.

(** The steps after the guard, for an owner with an [id] to read: they
    begin with the request that creates the database and never delete. *)
Lemma Interactive_create_first owner services w :
  is_nullish owner = false ->
  exists rest,
    calls (try_catch (Interactive.create_and_repoint server cfg owner services)
             on_error w).2
    = calls w ++ create_request cfg (databaseName cfg) (prop owner "id") :: rest
    /\ Forall not_delete rest.
Proof.
  intros Howner. unfold Interactive.create_and_repoint.
  rewrite (try_catch_bind_lift _ _ _ _ _ (get_prop_prop owner "id" Howner)).
  apply emits_after_first.
  - intros w0. apply calls_createDatabase.
  - intros created.
    unfold fetchConnectionInfo, updateEnvVariable, deployService, axios_get,
      axios_put, axios_post.
    repeat emits_loop; discriminate.
  - intros e. apply emits_console_error.
Qed.

Lemma FanOut_create_first owner services w :
  is_nullish owner = false ->
  exists rest,
    calls (try_catch (FanOut.create_and_repoint server cfg owner services)
             on_error w).2
    = calls w ++ create_request cfg (VStr "my-db") (prop owner "id") :: rest
    /\ Forall not_delete rest.
Proof.
  intros Howner. unfold FanOut.create_and_repoint.
  rewrite (try_catch_bind_lift _ _ _ _ _ (get_prop_prop owner "id" Howner)).
  apply emits_after_first.
  - intros w0. apply calls_FanOut_createDatabase.
  - intros created.
    unfold FanOut.fetchDatabaseDetails, updateEnvVariable, deployService,
      axios_get, axios_put, axios_post.
    repeat emits_loop; discriminate.
  - intros e. apply emits_console_error.
Qed.

Lemma Interactive_create_never_deletes owner services :
  emits not_delete
    (try_catch (Interactive.create_and_repoint server cfg owner services)
       on_error).
Proof.
  unfold Interactive.create_and_repoint, on_error, createDatabase,
    fetchConnectionInfo, updateEnvVariable, deployService, axios_get,
    axios_put, axios_post.
  repeat emits_loop; discriminate.
Qed.

Lemma FanOut_create_never_deletes owner services :
  emits not_delete
    (try_catch (FanOut.create_and_repoint server cfg owner services)
       on_error).
Proof.
  unfold FanOut.create_and_repoint, on_error, FanOut.createDatabase,
    FanOut.fetchDatabaseDetails, updateEnvVariable, deployService, axios_get,
    axios_put, axios_post.
  repeat emits_loop; discriminate.
Qed.

End CreateSteps.

Lemma fetchDatabase_empty_list server cfg w st :
  server (calls w) (database_request cfg) = HttpResponse st (VArr []) ->
  200 <= st < 300 ->
  fetchDatabase server cfg w = (Ok (obj []), sent (database_request cfg) w).
Proof.
  intros Hreply Hst.
  rewrite fetchDatabase_run, Hreply, validateStatus_2xx by assumption.
  reflexivity.
Qed.

Lemma workflow_empty_list server cfg fetchServices create_step
  w owner services w2 st :
  reads_before_database server cfg fetchServices (started w) owner services w2 ->
  server (calls w2) (database_request cfg) = HttpResponse st (VArr []) ->
  200 <= st < 300 ->
  workflow server cfg fetchServices create_step w
  = try_catch (create_step owner services) on_error
      (sent (database_request cfg) w2).
Proof.
  intros (w1 & Howner & Hservices) Hreply Hst.
  rewrite (workflow_after_reads server cfg fetchServices create_step w owner
             services (obj []) (sent (database_request cfg) w2)).
  - reflexivity.
  - exists w1, w2. split; [exact Howner|]. split; [exact Hservices|].
    apply (fetchDatabase_empty_list server cfg w2 st Hreply Hst).
Qed.

Lemma straight_to_create server cfg fetchServices (create : M unit) name
  w owner services w2 :
  emits is_get fetchServices ->
  reads_before_database server cfg fetchServices (started w) owner services w2 ->
  emits not_delete (try_catch create on_error) ->
  (is_nullish owner = false ->
   exists rest,
     calls (try_catch create on_error (sent (database_request cfg) w2)).2
     = calls (sent (database_request cfg) w2)
         ++ create_request cfg name (prop owner "id") :: rest
     /\ Forall not_delete rest) ->
  went_straight_to_create cfg name w w2 owner
    (try_catch create on_error (sent (database_request cfg) w2)).
Proof.
  intros Hfs (w1 & Howner & Hservices) Hnever Hfirst.
  destruct (emits_run _ _ _ _ _ (fetchOwner_emits_get server cfg) Howner)
    as (l1 & H1 & HP1).
  destruct (emits_run _ _ _ _ _ Hfs Hservices) as (l2 & H2 & HP2).
  cbn [started logged calls] in H1.
  destruct (Hnever (sent (database_request cfg) w2)) as (rest & Hrest & HPrest).
  exists (l1 ++ l2), rest. split; [rewrite H2, H1, app_assoc; reflexivity|].
  split; [apply Forall_app; split; assumption|].
  split.
  - rewrite Hrest. cbn [sent calls]. rewrite H2, H1, <- !app_assoc.
    reflexivity.
  - split; [exact HPrest|]. intros Hid.
    destruct (Hfirst Hid) as (rest' & Hrest' & _). exists rest'.
    rewrite Hrest in Hrest'. apply app_inv_head in Hrest'. exact Hrest'.
Qed.

(** C2.  In each of the three scripts, when the database list comes back
    empty, [fetchDatabase] returns the empty object and the run goes on
    with the steps that create the database, in the world left by the
    reads: no delete request is issued in the whole run, and for an owner
    with an [id] to read the request that follows the database list is the
    creation of the database. *)
Theorem empty_database_list_skips_delete
  (server : api) (cfg : config) (chalk : styles) (w : world)
  (owner : value) (services : list value) (w2 : world) (st : Z) :
  server (calls w2) (database_request cfg) = HttpResponse st (VArr []) ->
  200 <= st < 300 ->
  fetchDatabase server cfg w2 = (Ok (obj []), sent (database_request cfg) w2)
  /\ (reads_before_database server cfg (Interactive.fetchServices server cfg)
        (started w) owner services w2 ->
      Interactive.rebuildDatabase server cfg w
      = try_catch (Interactive.create_and_repoint server cfg owner services)
          on_error (sent (database_request cfg) w2)
      /\ went_straight_to_create cfg (databaseName cfg) w w2 owner
           (Interactive.rebuildDatabase server cfg w))
  /\ (all_set cfg = true ->
      reads_before_database server cfg (Exported.fetchServices server cfg)
        (started (validated chalk w)) owner services w2 ->
      Exported.rebuildDatabase server cfg chalk w
      = try_catch (Exported.create_and_repoint server cfg owner services)
          on_error (sent (database_request cfg) w2)
      /\ went_straight_to_create cfg (databaseName cfg) w w2 owner
           (Exported.rebuildDatabase server cfg chalk w))
  /\ (reads_before_database server cfg (FanOut.fetchServices server cfg)
        (started w) owner services w2 ->
      FanOut.rebuildDatabase server cfg w
      = try_catch (FanOut.create_and_repoint server cfg owner services)
          on_error (sent (database_request cfg) w2)
      /\ went_straight_to_create cfg (VStr "my-db") w w2 owner
           (FanOut.rebuildDatabase server cfg w)).
Proof.
  intros Hreply Hst.
  split; [apply (fetchDatabase_empty_list server cfg w2 st Hreply Hst)|].
  split; [|split].
  - intros Hreads.
    rewrite Interactive_rebuildDatabase_workflow,
      (workflow_empty_list _ _ _ _ _ _ _ _ _ Hreads Hreply Hst).
    split; [reflexivity|].
    eapply straight_to_create;
      eauto using Interactive_fetchServices_emits_get,
        Interactive_create_never_deletes, Interactive_create_first.
  - intros Hset Hreads.
    rewrite Exported_rebuildDatabase_workflow by assumption.
    rewrite (workflow_empty_list _ _ _ _ _ _ _ _ _ Hreads Hreply Hst).
    split; [reflexivity|].
    exact (straight_to_create server cfg _ _ (databaseName cfg)
             (validated chalk w) owner services w2
             (Interactive_fetchServices_emits_get server cfg) Hreads
             (Interactive_create_never_deletes server cfg owner services)
             (Interactive_create_first server cfg owner services _)).
  - intros Hreads.
    rewrite FanOut_rebuildDatabase_workflow,
      (workflow_empty_list _ _ _ _ _ _ _ _ _ Hreads Hreply Hst).
    split; [reflexivity|].
    eapply straight_to_create;
      eauto using FanOut_fetchServices_emits_get,
        FanOut_create_never_deletes, FanOut_create_first.
Qed.

(** ** The end-to-end scenario *)

Lemma try_catch_bind_ok {A B} (m : M A) (K : A -> M B) h w a w' :
  m w = (Ok a, w') -> try_catch (bind m K) h w = try_catch (K a) h w'.
Proof. intros Hm. unfold try_catch, bind. rewrite Hm. reflexivity. Qed.

Lemma accessor_ok msg (server : api) req w st d :
  server (calls w) req = HttpResponse st d ->
  200 <= st < 300 ->
  settle msg (let+ resp := validateStatus (server (calls w) req) in Ok (data resp))
    (sent req w)
  = (Ok d, sent req w).
Proof.
  intros Hreply Hst. rewrite Hreply, validateStatus_2xx by assumption.
  reflexivity.
Qed.

Section Scenario.
Context (server : api) (cfg : config).
Hypothesis Hreads : scenario_reads server cfg.

Lemma scenario_fetchOwner w :
  fetchOwner server cfg w = (Ok scenario_owner, sent (owner_request cfg) w).
Proof.
  destruct Hreads as (Howner & _ & _).
  rewrite fetchOwner_run, Howner. reflexivity.
Qed.

Lemma scenario_fetchDatabase w :
  fetchDatabase server cfg w = (Ok (obj []), sent (database_request cfg) w).
Proof.
  destruct Hreads as (_ & _ & Hdatabase).
  apply (fetchDatabase_empty_list server cfg w 200); [apply Hdatabase|lia].
Qed.

Lemma scenario_Interactive_fetchServices w :
  Interactive.fetchServices server cfg w
  = (Ok [scenario_entry], sent (services_request cfg) w).
Proof.
  destruct Hreads as (_ & Hservices & _).
  rewrite Interactive_fetchServices_run, Hservices. reflexivity.
Qed.

End Scenario.

Lemma enriched_id s d : get_prop (enriched s d) "id" = Ok (prop s "id").
Proof. reflexivity. Qed.

Lemma newDb_url n s i c u :
  get_prop (set_prop (obj [("name", n); ("status", s); ("id", i); ("createdAt", c)])
              "internalDatabaseUrl" u) "internalDatabaseUrl" = Ok u.
Proof. reflexivity. Qed.

Lemma FanOut_createDatabase_run server cfg name ownerId w :
  FanOut.createDatabase server cfg name ownerId w
  = settle "Error creating database:"
      (let+ resp := validateStatus (server (calls w) (create_request cfg name ownerId)) in
       Ok (data resp))
      (sent (create_request cfg name ownerId) w).
Proof. rewrite <- accessor_run. reflexivity. Qed.

Lemma FanOut_fetchDatabaseDetails_eq server cfg :
  FanOut.fetchDatabaseDetails server cfg = fetchConnectionInfo server cfg.
Proof. reflexivity. Qed.

Lemma Exported_create_and_repoint_eq server cfg :
  Exported.create_and_repoint server cfg
  = Interactive.create_and_repoint server cfg.
Proof. reflexivity. Qed.

Section FanOutScenario.
Context (server : api) (cfg : config) (newId url : value).
Hypothesis Hreads : scenario_reads server cfg.
Hypothesis Hcreation : scenario_creation server cfg (VStr "my-db") newId url.
Hypothesis Hrepoint : scenario_repoint server cfg (VStr "DATABASE_URL") url.

Lemma scenario_FanOut_fetchServices w :
  exists details lines,
  FanOut.fetchServices server cfg w
  = (Ok [enriched scenario_service details],
     mkWorld (calls w ++ [services_request cfg; events_request cfg (VStr "s1")])
       (console w ++ lines)).
Proof.
  destruct Hreads as (_ & Hservices & _).
  destruct Hrepoint as (Hevents & _ & _).
  destruct (FanOut_fetchServices_run server cfg w 200 [scenario_entry]
              (Hservices _) ltac:(lia) eq_refl) as (lines & _ & Hrun).
  change (web_services [scenario_entry]) with [scenario_service] in Hrun.
  cbn [detail_outcomes event_requests List.map] in Hrun.
  change (prop scenario_service "id") with (VStr "s1") in Hrun.
  destruct (Hevents (calls w ++ [services_request cfg])) as (events & Hev & Hcarried).
  rewrite Hev in Hrun. unfold details_of in Hrun.
  rewrite validateStatus_2xx in Hrun by lia.
  cbn [rbind data array_reduce] in Hrun.
  rewrite (reduceM_latest events _ Hcarried) in Hrun.
  cbn [survivors] in Hrun. eexists _, lines. exact Hrun.
Qed.

Lemma scenario_FanOut_create details w :
  exists lines,
  try_catch (FanOut.create_and_repoint server cfg scenario_owner
     [enriched scenario_service details]) on_error w
  = (Ok tt, mkWorld (calls w ++ [create_request cfg (VStr "my-db") (VStr "o1");
        connection_request cfg newId;
        env_request cfg (VStr "s1") (VStr "DATABASE_URL") url;
        deploy_request cfg (VStr "s1")]) (console w ++ lines)).
Proof.
  destruct Hcreation as (Hcreate & Hconn).
  destruct Hrepoint as (_ & Henv & Hdeploy).
  unfold FanOut.create_and_repoint.
  rewrite (try_catch_bind_lift _ (VStr "o1")) by reflexivity.
  destruct (Hcreate (calls w)) as (created & Hc & Hcn & Hcid).
  rewrite (try_catch_bind_ok _ _ _ _ created (sent (create_request cfg (VStr "my-db") (VStr "o1")) w)).
  2:{ rewrite FanOut_createDatabase_run. apply (accessor_ok _ _ _ _ 201); [exact Hc|lia]. }
  rewrite !(try_catch_bind_lift _ _ _ _ _ (get_prop_prop created _ Hcn)).
  rewrite Hcid.
  destruct (Hconn (calls (sent (create_request cfg (VStr "my-db") (VStr "o1")) w))) as (info & Hi & Hin & Hurl).
  rewrite (try_catch_bind_ok _ _ _ _ info (sent (connection_request cfg newId) (sent (create_request cfg (VStr "my-db") (VStr "o1")) w))).
  2:{ rewrite FanOut_fetchDatabaseDetails_eq, fetchConnectionInfo_run. apply (accessor_ok _ _ _ _ 200); [exact Hi|lia]. }
  rewrite (try_catch_bind_lift _ _ _ _ _ (get_prop_prop info _ Hin)).
  rewrite Hurl.
  cbn [for_of]. unfold try_catch.
  set (w2 := sent (connection_request cfg newId)
       (sent (create_request cfg (VStr "my-db") (VStr "o1")) w)).
  rewrite bind_run, bind_run, bind_lift, enriched_id.
  change (prop scenario_service "id") with (VStr "s1").
  rewrite bind_lift, newDb_url, bind_run, updateEnvVariable_run.
  destruct (Henv (calls w2)) as (d1 & Hd1).
  rewrite (accessor_ok _ _ _ _ 200 d1 Hd1) by lia.
  rewrite bind_lift, bind_run, deployService_run.
  destruct (Hdeploy (calls (sent (env_request cfg (VStr "s1") (VStr "DATABASE_URL") url) w2))) as (d2 & Hd2).
  rewrite (accessor_ok _ _ _ _ 201 d2 Hd2) by lia.
  exists [ConsoleLog [PStr "done!"]].
  unfold w2, ret, console_log, logged, sent. cbn [calls console].
  rewrite <- !app_assoc. reflexivity.
Qed.

Lemma scenario_FanOut_trace w :
  calls (FanOut.rebuildDatabase server cfg w).2 = calls w ++ fanout_sequence cfg newId url.
Proof.
  rewrite FanOut_rebuildDatabase_workflow.
  destruct (scenario_FanOut_fetchServices (sent (owner_request cfg) (started w))) as (details & lines & Hfs).
  set (w2 := mkWorld (calls (sent (owner_request cfg) (started w)) ++ [services_request cfg; events_request cfg (VStr "s1")]) (console (sent (owner_request cfg) (started w)) ++ lines)) in Hfs.
  rewrite (workflow_empty_list server cfg _ _ w scenario_owner [enriched scenario_service details] w2 200).
  - destruct (scenario_FanOut_create details (sent (database_request cfg) w2)) as (lines' & ->).
    unfold w2. cbn [snd calls sent started logged]. unfold fanout_sequence. rewrite <- !app_assoc. reflexivity.
  - eexists. split; [apply scenario_fetchOwner, Hreads|exact Hfs].
  - destruct Hreads as (_ & _ & Hdb). apply Hdb.
  - lia.
Qed.

End FanOutScenario.

Section InteractiveScenario.
Context (server : api) (cfg : config) (newId url : value).
Hypothesis Hreads : scenario_reads server cfg.
Hypothesis Hcreation :
  scenario_creation server cfg (databaseName cfg) newId url.

Lemma scenario_Interactive_create services w :
  exists rest,
    calls (try_catch
             (Interactive.create_and_repoint server cfg scenario_owner services)
             on_error w).2
    = calls w
        ++ [create_request cfg (databaseName cfg) (VStr "o1");
            connection_request cfg newId] ++ rest.
Proof.
  destruct Hcreation as (Hcreate & _).
  unfold Interactive.create_and_repoint.
  rewrite (try_catch_bind_lift _ (VStr "o1")) by reflexivity.
  destruct (Hcreate (calls w)) as (created & Hc & Hcn & Hcid).
  rewrite (try_catch_bind_ok _ _ _ _ created
             (sent (create_request cfg (databaseName cfg) (VStr "o1")) w)).
  2:{ rewrite createDatabase_run.
      apply (accessor_ok _ _ _ _ 201); [exact Hc|lia]. }
  rewrite !(try_catch_bind_lift _ _ _ _ _ (get_prop_prop created _ Hcn)).
  rewrite Hcid.
  destruct (emits_after_first (fun _ => True)
              (fetchConnectionInfo server cfg newId)
              (fun info =>
                 let* internalConnectionString :=
                   lift (get_prop info "internalConnectionString") in
                 let* _ :=
                   for_of services (fun service =>
                     let* serviceId := lift (get_prop service "id") in
                     let* internalDatabaseUrl :=
                       lift
                         (get_prop
                            (set_prop
                               (obj [("name", prop created "name");
                                     ("status", prop created "status");
                                     ("id", newId);
                                     ("createdAt", prop created "createdAt")])
                               "internalDatabaseUrl" internalConnectionString)
                            "internalDatabaseUrl") in
                     let* _ :=
                       updateEnvVariable server cfg serviceId
                         (databaseKey cfg) internalDatabaseUrl in
                     let* serviceId := lift (get_prop service "id") in
                     let* _ := deployService server cfg serviceId in
                     ret tt) in
                 console_log [PStr "done!"])
              on_error (connection_request cfg newId)
              (sent (create_request cfg (databaseName cfg) (VStr "o1")) w))
    as (rest & Hrest & _).
  - intros w0. rewrite fetchConnectionInfo_run, calls_settle. reflexivity.
  - intros info. unfold updateEnvVariable, deployService, axios_put, axios_post.
    repeat emits_loop; exact I.
  - intros e. apply emits_console_error.
  - exists rest. rewrite Hrest. cbn [sent calls]. rewrite <- !app_assoc.
    reflexivity.
Qed.

Lemma scenario_Interactive_trace w0 :
  exists rest,
    calls (workflow server cfg (Interactive.fetchServices server cfg)
             (Interactive.create_and_repoint server cfg) w0).2
    = calls w0
        ++ [owner_request cfg; services_request cfg; database_request cfg;
            create_request cfg (databaseName cfg) (VStr "o1");
            connection_request cfg newId] ++ rest.
Proof.
  set (w2 := sent (services_request cfg) (sent (owner_request cfg) (started w0))).
  rewrite (workflow_empty_list server cfg _ _ w0 scenario_owner
             [scenario_entry] w2 200).
  - destruct (scenario_Interactive_create [scenario_entry]
                (sent (database_request cfg) w2)) as (rest & ->).
    exists rest. unfold w2. cbn [sent started logged calls].
    rewrite <- !app_assoc. reflexivity.
  - eexists. split; [apply scenario_fetchOwner, Hreads|].
    apply scenario_Interactive_fetchServices, Hreads.
  - destruct Hreads as (_ & _ & Hdb). apply Hdb.
  - lia.
Qed.

End InteractiveScenario.

Lemma scenario_server_reads : scenario_reads scenario_server example_config.
Proof. repeat split. Qed.

Lemma scenario_server_creation :
  scenario_creation scenario_server example_config (VStr "my-db") (VStr "d1")
    (VStr "postgres://u:p@d1/my_db").
Proof.
  split; intros h; eexists; (split; [reflexivity|split; reflexivity]).
Qed.

Lemma scenario_server_repoint :
  scenario_repoint scenario_server example_config (VStr "DATABASE_URL")
    (VStr "postgres://u:p@d1/my_db").
Proof.
  split; [|split]; intros h; eexists.
  - split; reflexivity.
  - reflexivity.
  - reflexivity.
Qed.

(** C3, as stated, fails in each script.  The fan-out variant fetches the
    events of [s1] between the service list and the database list, so its
    sequence has eight calls; the interactive and the module variant
    address the service as [undefined] in the update of the variable, and
    stop there on the 404. *)
Lemma scenario_sequence_counterexample :
  let stated :=
    stated_sequence example_config (VStr "my-db") (VStr "DATABASE_URL")
      (VStr "d1") (VStr "postgres://u:p@d1/my_db") in
  List.map summary
    (calls (FanOut.rebuildDatabase scenario_server example_config
              empty_world).2)
  = [(GET, "https://api.render.com/v1/owners?limit=1");
     (GET, "https://api.render.com/v1/services");
     (GET, "https://api.render.com/v1/services/s1/events");
     (GET, "https://api.render.com/v1/postgres");
     (POST, "https://api.render.com/v1/postgres");
     (GET, "https://api.render.com/v1/postgres/d1/connection-info");
     (PUT, "https://api.render.com/v1/services/s1/env-vars/DATABASE_URL");
     (POST, "https://api.render.com/v1/services/s1/deploys")]
  /\ calls (FanOut.rebuildDatabase scenario_server example_config
              empty_world).2 <> stated
  /\ List.map summary
       (calls (Interactive.rebuildDatabase scenario_server example_config
                 empty_world).2)
     = [(GET, "https://api.render.com/v1/owners?limit=1");
        (GET, "https://api.render.com/v1/services");
        (GET, "https://api.render.com/v1/postgres");
        (POST, "https://api.render.com/v1/postgres");
        (GET, "https://api.render.com/v1/postgres/d1/connection-info");
        (PUT,
         "https://api.render.com/v1/services/undefined/env-vars/DATABASE_URL")]
  /\ calls (Interactive.rebuildDatabase scenario_server example_config
              empty_world).2 <> stated
  /\ calls (Exported.rebuildDatabase scenario_server example_config
              plain_chalk empty_world).2
     = calls (Interactive.rebuildDatabase scenario_server example_config
                empty_world).2.
Proof.
  cbv zeta. split; [vm_compute; reflexivity|]. split.
  { intros H. apply (f_equal (@length request)) in H. vm_compute in H.
    discriminate. }
  split; [vm_compute; reflexivity|]. split.
  { intros H. apply (f_equal (@length request)) in H. vm_compute in H.
    discriminate. }
  vm_compute. reflexivity.
Qed.

(** C3, amended.  In the scenario (owner [o1], an empty database list and
    the one web service [s1]), with the server creating the database under
    [newId] with connection string [url]: the fan-out variant, when the
    events of [s1] are listed and its update and deploy accepted, issues
    exactly the owner fetch, the service fetch, the events fetch of [s1],
    the database fetch, the creation under the name "my-db" with owner
    [o1], the connection-info fetch of [newId], the PUT of DATABASE_URL on
    [s1] with [url], and the deploy of [s1]; the interactive and the module
    variant issue the owner fetch, the service fetch, the database fetch,
    the creation with owner [o1] and the connection-info fetch of [newId],
    in this order, before anything else. *)
Theorem scenario_call_sequence
  (server : api) (cfg : config) (chalk : styles) (w : world)
  (newId url : value) :
  scenario_reads server cfg ->
  (scenario_creation server cfg (VStr "my-db") newId url ->
   scenario_repoint server cfg (VStr "DATABASE_URL") url ->
   calls (FanOut.rebuildDatabase server cfg w).2
   = calls w ++ fanout_sequence cfg newId url)
  /\ (scenario_creation server cfg (databaseName cfg) newId url ->
      (exists rest,
         calls (Interactive.rebuildDatabase server cfg w).2
         = calls w
             ++ [owner_request cfg; services_request cfg; database_request cfg;
                 create_request cfg (databaseName cfg) (VStr "o1");
                 connection_request cfg newId] ++ rest)
      /\ (all_set cfg = true ->
          exists rest,
            calls (Exported.rebuildDatabase server cfg chalk w).2
            = calls w
                ++ [owner_request cfg; services_request cfg;
                    database_request cfg;
                    create_request cfg (databaseName cfg) (VStr "o1");
                    connection_request cfg newId] ++ rest)).
Proof.
  intros Hreads. split.
  - intros Hcreation Hrepoint.
    apply scenario_FanOut_trace; assumption.
  - intros Hcreation. split.
    + rewrite Interactive_rebuildDatabase_workflow.
      exact (scenario_Interactive_trace server cfg newId url Hreads Hcreation w).
    + intros Hset. rewrite Exported_rebuildDatabase_workflow by assumption.
      exact (scenario_Interactive_trace server cfg newId url Hreads Hcreation
               (validated chalk w)).
Qed.

Lemma scenario_call_sequence_witness :
  calls (FanOut.rebuildDatabase scenario_server example_config empty_world).2
  = calls empty_world
      ++ fanout_sequence example_config (VStr "d1")
           (VStr "postgres://u:p@d1/my_db").
Proof.
  apply (scenario_call_sequence scenario_server example_config plain_chalk
           empty_world (VStr "d1") (VStr "postgres://u:p@d1/my_db")).
  - exact scenario_server_reads.
  - exact scenario_server_creation.
  - exact scenario_server_repoint.
Defined.

Lemma empty_database_list_witness :
  went_straight_to_create example_config (VStr "my-db") empty_world
    (sent (services_request example_config)
       (sent (owner_request example_config) (started empty_world)))
    scenario_owner
    (Interactive.rebuildDatabase scenario_server example_config empty_world).
Proof.
  destruct (empty_database_list_skips_delete scenario_server example_config
              plain_chalk empty_world scenario_owner [scenario_entry]
              (sent (services_request example_config)
                 (sent (owner_request example_config) (started empty_world)))
              200) as (_ & Hrun & _).
  - reflexivity.
  - lia.
  - apply Hrun. eexists. split; vm_compute; reflexivity.
Defined.

(** ** The loop over the services *)

Lemma validateStatus_rejected r :
  rejected r = true -> validateStatus r = Throw (AxiosError r).
Proof.
  destruct r as [|st d]; [reflexivity|]. cbn [rejected validateStatus].
  destruct ((200 <=? st) && (st <? 300)); [discriminate|reflexivity].
Qed.

Lemma validateStatus_accepted r st d :
  accepted r = true -> r = HttpResponse st d ->
  validateStatus r = Ok (mkResponse st d).
Proof.
  intros Hacc ->. unfold accepted, rejected in Hacc. cbn [validateStatus].
  destruct ((200 <=? st) && (st <? 300)); [reflexivity|discriminate].
Qed.

Lemma accepted_resolves r :
  accepted r = true -> exists resp, validateStatus r = Ok resp.
Proof.
  destruct r as [|st d]; [discriminate|]. intros Hacc.
  eexists. apply (validateStatus_accepted _ st d Hacc eq_refl).
Qed.

Lemma new_database_record_url created info :
  get_prop (new_database_record created info) "internalDatabaseUrl"
  = Ok (prop info "internalConnectionString").
Proof. unfold new_database_record. apply newDb_url. Qed.

Section RepointLoop.
Context (server : api) (cfg : config) (envKey newDb url : value).
Hypothesis Hurl : get_prop newDb "internalDatabaseUrl" = Ok url.

Lemma repoint_accepted service w :
  is_nullish service = false ->
  accepted (server (calls w) (env_request cfg (prop service "id") envKey url))
  = true ->
  accepted
    (server (calls w ++ [env_request cfg (prop service "id") envKey url])
       (deploy_request cfg (prop service "id"))) = true ->
  repoint server cfg envKey newDb service w
  = (Ok tt,
     mkWorld
       (calls w ++ [env_request cfg (prop service "id") envKey url;
                    deploy_request cfg (prop service "id")])
       (console w)).
Proof.
  intros Hservice Henv Hdeploy. unfold repoint.
  rewrite bind_lift, (get_prop_prop service "id" Hservice).
  rewrite bind_lift, Hurl, bind_run, updateEnvVariable_run.
  destruct (accepted_resolves _ Henv) as (resp1 & ->). cbn [rbind settle].
  rewrite bind_lift, bind_run, deployService_run. cbn [sent calls].
  destruct (accepted_resolves _ Hdeploy) as (resp2 & ->). cbn [rbind settle].
  unfold ret, sent. cbn [calls console]. rewrite <- app_assoc. reflexivity.
Qed.

Lemma repoint_update_rejected service w :
  is_nullish service = false ->
  rejected (server (calls w) (env_request cfg (prop service "id") envKey url))
  = true ->
  let req := env_request cfg (prop service "id") envKey url in
  let e := AxiosError (server (calls w) req) in
  repoint server cfg envKey newDb service w
  = (Throw e,
     mkWorld (calls w ++ [req])
       (console w
          ++ [ConsoleError
                [PStr ("Error updating environment variable for service ID "
                         +:+ to_string (prop service "id") +:+ ":");
                 PErr e]])).
Proof.
  intros Hservice Hrej. cbv zeta. unfold repoint.
  rewrite bind_lift, (get_prop_prop service "id" Hservice).
  rewrite bind_lift, Hurl, bind_run, updateEnvVariable_run.
  rewrite (validateStatus_rejected _ Hrej). reflexivity.
Qed.

Lemma repoint_loop_accepted services : forall w,
  forallb (fun s => negb (is_nullish s)) services = true ->
  accepts_writes server cfg envKey url services ->
  for_of services (repoint server cfg envKey newDb) w
  = (Ok tt,
     mkWorld (calls w ++ repoint_requests cfg envKey url services) (console w)).
Proof.
  induction services as [|s rest IH]; intros w Hall Hacc.
  - cbn. rewrite app_nil_r. destruct w; reflexivity.
  - cbn [forallb] in Hall. apply andb_prop in Hall as [Hs Hrest].
    apply negb_true_iff in Hs.
    cbn [for_of]. rewrite bind_run.
    rewrite (repoint_accepted s w Hs);
      [|apply Hacc; left; reflexivity|apply Hacc; left; reflexivity].
    rewrite (IH _ Hrest).
    + cbn [calls console repoint_requests flat_map]. rewrite <- app_assoc.
      reflexivity.
    + intros h s' Hin. apply Hacc. right. exact Hin.
Qed.

Lemma repoint_loop_rejected before : forall w s after,
  forallb (fun s => negb (is_nullish s)) before = true ->
  accepts_writes server cfg envKey url before ->
  is_nullish s = false ->
  let h := calls w ++ repoint_requests cfg envKey url before in
  let req := env_request cfg (prop s "id") envKey url in
  let e := AxiosError (server h req) in
  rejected (server h req) = true ->
  for_of (before ++ s :: after) (repoint server cfg envKey newDb) w
  = (Throw e,
     mkWorld (h ++ [req])
       (console w
          ++ [ConsoleError
                [PStr ("Error updating environment variable for service ID "
                         +:+ to_string (prop s "id") +:+ ":");
                 PErr e]])).
Proof.
  induction before as [|b rest IH]; intros w s after Hall Hacc Hs; cbv zeta.
  - cbn [repoint_requests flat_map app]. rewrite app_nil_r. intros Hrej.
    cbn [for_of]. rewrite bind_run.
    pose proof (repoint_update_rejected s w Hs Hrej) as Hrun.
    cbv zeta in Hrun. rewrite Hrun. reflexivity.
  - cbn [forallb] in Hall. apply andb_prop in Hall as [Hb Hrest].
    apply negb_true_iff in Hb. intros Hrej.
    cbn [app for_of]. rewrite bind_run.
    rewrite (repoint_accepted b w Hb);
      [|apply Hacc; left; reflexivity|apply Hacc; left; reflexivity].
    assert (Hacc' : accepts_writes server cfg envKey url rest).
    { intros h' s' Hin. apply Hacc. right. exact Hin. }
    pose proof (IH (mkWorld
                      (calls w ++ [env_request cfg (prop b "id") envKey url;
                                   deploy_request cfg (prop b "id")])
                      (console w)) s after Hrest Hacc' Hs) as Hloop.
    cbv zeta in Hloop. cbn [calls console] in Hloop.
    cbn [repoint_requests flat_map] in Hrej |- *.
    rewrite <- !app_assoc in Hloop. rewrite <- ?app_assoc in Hrej.
    cbn [app] in Hloop, Hrej. rewrite (Hloop Hrej).
    rewrite <- ?app_assoc. reflexivity.
Qed.
End RepointLoop.

Lemma Interactive_create_reaches_loop server cfg owner services created info w :
  database_created server cfg (calls w) (databaseName cfg) owner created info ->
  try_catch (Interactive.create_and_repoint server cfg owner services)
    on_error w
  = try_catch
      (let* _ :=
         for_of services
           (repoint server cfg (databaseKey cfg)
              (new_database_record created info)) in
       console_log [PStr "done!"])
      on_error
      (mkWorld
         (calls w ++ creation_requests cfg (databaseName cfg) owner created)
         (console w)).
Proof.
  intros (Howner & Hacc1 & (st1 & Hcreate) & Hcreated & Hacc2 & (st2 & Hconn)
          & Hinfo).
  unfold Interactive.create_and_repoint.
  rewrite (try_catch_bind_lift _ _ _ _ _ (get_prop_prop owner "id" Howner)).
  rewrite (try_catch_bind_ok _ _ _ _ created
             (sent (create_request cfg (databaseName cfg) (prop owner "id")) w)).
  2:{ rewrite createDatabase_run,
        (validateStatus_accepted _ st1 created Hacc1 Hcreate).
      reflexivity. }
  rewrite !(try_catch_bind_lift _ _ _ _ _ (get_prop_prop created _ Hcreated)).
  rewrite (try_catch_bind_ok _ _ _ _ info
             (sent (connection_request cfg (prop created "id"))
                (sent (create_request cfg (databaseName cfg) (prop owner "id"))
                   w))).
  2:{ rewrite fetchConnectionInfo_run. cbn [sent calls].
      rewrite (validateStatus_accepted _ st2 info Hacc2 Hconn). reflexivity. }
  rewrite (try_catch_bind_lift _ _ _ _ _ (get_prop_prop info _ Hinfo)).
  unfold sent, creation_requests. cbn [calls console].
  rewrite <- app_assoc. reflexivity.
Qed.

Lemma FanOut_create_reaches_loop server cfg owner services created info w :
  database_created server cfg (calls w) (VStr "my-db") owner created info ->
  try_catch (FanOut.create_and_repoint server cfg owner services) on_error w
  = try_catch
      (let* _ :=
         for_of services
           (repoint server cfg (VStr "DATABASE_URL")
              (new_database_record created info)) in
       console_log [PStr "done!"])
      on_error
      (mkWorld
         (calls w ++ creation_requests cfg (VStr "my-db") owner created)
         (console w)).
Proof.
  intros (Howner & Hacc1 & (st1 & Hcreate) & Hcreated & Hacc2 & (st2 & Hconn)
          & Hinfo).
  unfold FanOut.create_and_repoint.
  rewrite (try_catch_bind_lift _ _ _ _ _ (get_prop_prop owner "id" Howner)).
  rewrite (try_catch_bind_ok _ _ _ _ created
             (sent (create_request cfg (VStr "my-db") (prop owner "id")) w)).
  2:{ rewrite FanOut_createDatabase_run,
        (validateStatus_accepted _ st1 created Hacc1 Hcreate).
      reflexivity. }
  rewrite !(try_catch_bind_lift _ _ _ _ _ (get_prop_prop created _ Hcreated)).
  rewrite (try_catch_bind_ok _ _ _ _ info
             (sent (connection_request cfg (prop created "id"))
                (sent (create_request cfg (VStr "my-db") (prop owner "id")) w))).
  2:{ rewrite FanOut_fetchDatabaseDetails_eq, fetchConnectionInfo_run.
      cbn [sent calls].
      rewrite (validateStatus_accepted _ st2 info Hacc2 Hconn). reflexivity. }
  rewrite (try_catch_bind_lift _ _ _ _ _ (get_prop_prop info _ Hinfo)).
  unfold sent, creation_requests. cbn [calls console].
  rewrite <- app_assoc. reflexivity.
Qed.

Lemma loop_accepted_run server cfg envKey created info services w :
  forallb (fun s => negb (is_nullish s)) services = true ->
  accepts_writes server cfg envKey (prop info "internalConnectionString")
    services ->
  try_catch
    (let* _ :=
       for_of services
         (repoint server cfg envKey (new_database_record created info)) in
     console_log [PStr "done!"])
    on_error w
  = (Ok tt,
     mkWorld
       (calls w
          ++ repoint_requests cfg envKey (prop info "internalConnectionString")
               services)
       (console w ++ [ConsoleLog [PStr "done!"]])).
Proof.
  intros Hall Hacc. unfold try_catch. rewrite bind_run.
  rewrite (repoint_loop_accepted server cfg envKey _ _
             (new_database_record_url created info) services w Hall Hacc).
  reflexivity.
Qed.

Lemma loop_rejected_run server cfg envKey created info before s after w :
  forallb (fun s => negb (is_nullish s)) before = true ->
  accepts_writes server cfg envKey (prop info "internalConnectionString")
    before ->
  is_nullish s = false ->
  let url := prop info "internalConnectionString" in
  let h := calls w ++ repoint_requests cfg envKey url before in
  let req := env_request cfg (prop s "id") envKey url in
  let e := AxiosError (server h req) in
  rejected (server h req) = true ->
  try_catch
    (let* _ :=
       for_of (before ++ s :: after)
         (repoint server cfg envKey (new_database_record created info)) in
     console_log [PStr "done!"])
    on_error w
  = (Ok tt,
     mkWorld (h ++ [req])
       (console w
          ++ [ConsoleError
                [PStr ("Error updating environment variable for service ID "
                         +:+ to_string (prop s "id") +:+ ":");
                 PErr e];
              rebuild_error_line e])).
Proof.
  intros Hall Hacc Hs. cbv zeta. intros Hrej. unfold try_catch.
  rewrite bind_run.
  pose proof (repoint_loop_rejected server cfg envKey _ _
                (new_database_record_url created info) before w s after Hall
                Hacc Hs) as Hloop.
  cbv zeta in Hloop. rewrite (Hloop Hrej).
  unfold rebuild_error_line, on_error, console_error, logged.
  cbn [calls console]. rewrite <- (app_assoc (console w)). reflexivity.
Qed.

(** ** Services addressed through the list wrapper *)

Lemma emits_after_run {A B} (P : request -> Prop) (m : M A) (K : A -> M B)
  (h : exn -> M B) w r w' l0 :
  m w = (r, w') ->
  calls w' = calls w ++ l0 ->
  Forall P l0 ->
  (forall a, r = Ok a -> exists l, calls (try_catch (K a) h w').2 = calls w' ++ l /\ Forall P l) ->
  (forall e, emits P (h e)) ->
  exists l, calls (try_catch (bind m K) h w).2 = calls w ++ l /\ Forall P l.
Proof.
  intros Hm Hcalls HP0 HK Hh. unfold try_catch at 1, bind. rewrite Hm.
  destruct r as [a|e].
  - destruct (HK a eq_refl) as (l & Hl & HP). unfold try_catch in Hl.
    exists (l0 ++ l). rewrite Hl, Hcalls, <- app_assoc.
    split; [reflexivity|]. apply Forall_app; split; assumption.
  - destruct (Hh e w') as (l & Hl & HP). exists (l0 ++ l).
    rewrite Hl, Hcalls, <- app_assoc. split; [reflexivity|].
    apply Forall_app; split; assumption.
Qed.


Lemma web_entry_nested item :
  web_entry item = true ->
  exists service,
    get_prop item "service" = Ok service
    /\ get_prop service "type" = Ok (VStr "web_service").
Proof.
  unfold web_entry. destruct item as [| | | | |l|m]; try discriminate.
  cbn [get_prop]. destruct (m !! "service") as [[| | | | |l|sm]|];
    try discriminate.
  intros Hweb. exists (VObj sm). split; [reflexivity|]. cbn [get_prop].
  destruct (sm !! "type") as [[| | | |t| |]|]; try discriminate.
  apply String.eqb_eq in Hweb. subst t. reflexivity.
Qed.


Lemma scenario_entry_is_wrapper : is_wrapper scenario_entry.
Proof.
  eexists. split; [reflexivity|]. cbn [list_to_map foldr].
  unfold fmap, curry. cbn [fst snd].
  rewrite dom_insert_L, dom_empty_L, union_empty_r_L.
  apply union_subseteq_r.
Qed.

Lemma wrapper_lacks_id item : is_wrapper item -> lacks_id item.
Proof.
  intros (m & -> & Hdom). exists m. split; [reflexivity|].
  apply not_elem_of_dom. intros Hin. apply Hdom in Hin.
  apply elem_of_union in Hin as [Hin|Hin];
    apply elem_of_singleton in Hin; discriminate.
Qed.

Lemma lacks_id_undefined item :
  lacks_id item -> get_prop item "id" = Ok VUndefined.
Proof. intros (m & -> & Hnone). cbn [get_prop]. rewrite Hnone. reflexivity. Qed.

Lemma lacks_id_prop item : lacks_id item -> prop item "id" = VUndefined.
Proof. intros Hitem. unfold prop. rewrite (lacks_id_undefined item Hitem). reflexivity. Qed.

Lemma lacks_id_not_nullish entries :
  Forall lacks_id entries ->
  forallb (fun s => negb (is_nullish s)) entries = true.
Proof.
  induction 1 as [|x rest (m & -> & _) _ IH]; [reflexivity|].
  cbn [forallb is_nullish negb andb]. exact IH.
Qed.

Section Undefined.
Context (server : api) (cfg : config).

Lemma Interactive_create_addresses_undefined owner services :
  Forall lacks_id services ->
  emits (addressed_as_undefined cfg)
    (Interactive.create_and_repoint server cfg owner services).
Proof.
  intros Hservices.
  unfold Interactive.create_and_repoint, createDatabase, fetchConnectionInfo,
    axios_get, axios_post.
  repeat emits_step; try exact I.
  - right. eexists. reflexivity.
  - apply (emits_for_of _ lacks_id); [exact Hservices|].
    intros service Hservice.
    rewrite (lacks_id_undefined service Hservice).
    unfold updateEnvVariable, deployService, axios_put, axios_post.
    repeat emits_step.
    + eexists. reflexivity.
    + left. reflexivity.
Qed.

Lemma repoint_requests_undefined url entries :
  Forall lacks_id entries ->
  repoint_requests cfg (databaseKey cfg) url entries
  = undefined_requests cfg url entries.
Proof.
  unfold repoint_requests, undefined_requests.
  induction 1 as [|x rest Hx _ IH]; [reflexivity|].
  cbn [flat_map]. rewrite (lacks_id_prop x Hx), IH. reflexivity.
Qed.

Lemma accepts_writes_undefined url entries :
  Forall lacks_id entries ->
  accepts_undefined server cfg url ->
  accepts_writes server cfg (databaseKey cfg) url entries.
Proof.
  intros Hentries Hacc h s Hs. rewrite List.Forall_forall in Hentries.
  rewrite (lacks_id_prop s (Hentries s Hs)). apply Hacc.
Qed.

Lemma fetchOwner_ok_world w owner w1 :
  fetchOwner server cfg w = (Ok owner, w1) -> w1 = sent (owner_request cfg) w.
Proof.
  rewrite fetchOwner_run.
  destruct (let+ resp := validateStatus (server (calls w) (owner_request cfg))
            in owner_of resp) as [a|e]; cbn [settle]; congruence.
Qed.

End Undefined.

Section UndefinedRun.
Context (server : api) (cfg : config).

Lemma workflow_addresses_undefined w st items :
  server (calls w ++ [owner_request cfg]) (services_request cfg)
  = HttpResponse st (VArr items) ->
  200 <= st < 300 ->
  forallb carries_service items = true ->
  Forall lacks_id (List.filter web_entry items) ->
  exists issued,
    calls (workflow server cfg (Interactive.fetchServices server cfg)
             (Interactive.create_and_repoint server cfg) w).2
    = calls w ++ issued
    /\ Forall (addressed_as_undefined cfg) issued.
Proof.
  intros Hreply Hst Hcarried Hfiltered.
  unfold workflow. rewrite bind_run. cbn [console_log]. fold (started w).
  change (calls w) with (calls (started w)).
  destruct (fetchOwner server cfg (started w)) as [r w1] eqn:Howner.
  assert (Hw1 : calls w1 = calls (started w) ++ [owner_request cfg]).
  { rewrite fetchOwner_run in Howner.
    apply (f_equal (fun p => calls p.2)) in Howner.
    rewrite calls_settle in Howner. symmetry. exact Howner. }
  apply (emits_after_run _ _ _ _ _ r w1 [owner_request cfg] Howner Hw1).
  - repeat constructor.
  - intros owner _.
    assert (Hfs : Interactive.fetchServices server cfg w1
                  = (Ok (List.filter web_entry items),
                     sent (services_request cfg) w1)).
    { apply (Interactive_fetchServices_web server cfg w1 st items);
        [rewrite Hw1; exact Hreply|assumption|assumption]. }
    apply (emits_after_run _ _ _ _ _ _ _ [services_request cfg] Hfs eq_refl).
    + repeat constructor.
    + intros services [= <-].
      apply emits_try_catch; [|intros e; apply emits_console_error].
      unfold guarded, fetchDatabase, deleteDatabase, axios_get, axios_delete.
      pose proof (Interactive_create_addresses_undefined server cfg owner _
                    Hfiltered) as Hcreate.
      repeat emits_step; try exact I; exact Hcreate.
    + intros e. apply emits_console_error.
  - intros e. apply emits_console_error.
Qed.

(** The run up to the loop: the reads, the empty database list, the
    creation and the connection info. *)
Lemma workflow_reaches_loop w st items owner w1 created info st' :
  server (calls w ++ [owner_request cfg]) (services_request cfg)
  = HttpResponse st (VArr items) ->
  200 <= st < 300 ->
  forallb carries_service items = true ->
  fetchOwner server cfg (started w) = (Ok owner, w1) ->
  server (calls w ++ [owner_request cfg; services_request cfg])
    (database_request cfg) = HttpResponse st' (VArr []) ->
  200 <= st' < 300 ->
  let h :=
    calls w
      ++ [owner_request cfg; services_request cfg; database_request cfg] in
  database_created server cfg h (databaseName cfg) owner created info ->
  workflow server cfg (Interactive.fetchServices server cfg)
    (Interactive.create_and_repoint server cfg) w
  = try_catch
      (let* _ :=
         for_of (List.filter web_entry items)
           (repoint server cfg (databaseKey cfg)
              (new_database_record created info)) in
       console_log [PStr "done!"])
      on_error
      (mkWorld (h ++ creation_requests cfg (databaseName cfg) owner created)
         (console w1)).
Proof.
  intros Hreply Hst Hcarried Howner Hempty Hst' h Hcreated.
  pose proof (fetchOwner_ok_world server cfg _ _ _ Howner) as Hw1.
  assert (Hcalls1 : calls w1 = calls w ++ [owner_request cfg]).
  { rewrite Hw1. reflexivity. }
  assert (Hfs : Interactive.fetchServices server cfg w1
                = (Ok (List.filter web_entry items),
                   sent (services_request cfg) w1)).
  { apply (Interactive_fetchServices_web server cfg w1 st items);
      [rewrite Hcalls1; exact Hreply|assumption|assumption]. }
  assert (Hreads : reads_before_database server cfg
                     (Interactive.fetchServices server cfg) (started w) owner
                     (List.filter web_entry items)
                     (sent (services_request cfg) w1)).
  { exists w1. split; assumption. }
  assert (Hcalls2 : calls (sent (services_request cfg) w1)
                    = calls w ++ [owner_request cfg; services_request cfg]).
  { cbn [sent calls]. rewrite Hcalls1, <- app_assoc. reflexivity. }
  rewrite (workflow_empty_list _ _ _ _ _ _ _ _ st' Hreads);
    [|rewrite Hcalls2; exact Hempty|exact Hst'].
  assert (Hcalls3 : calls (sent (database_request cfg)
                             (sent (services_request cfg) w1)) = h).
  { cbn [sent calls]. rewrite Hcalls1, <- !app_assoc. reflexivity. }
  rewrite <- Hcalls3 in Hcreated.
  rewrite (Interactive_create_reaches_loop server cfg owner _ created info
             _ Hcreated).
  rewrite Hcalls3. reflexivity.
Qed.

Lemma workflow_undefined_accepted w st items owner w1 created info st' :
  server (calls w ++ [owner_request cfg]) (services_request cfg)
  = HttpResponse st (VArr items) ->
  200 <= st < 300 ->
  forallb carries_service items = true ->
  Forall lacks_id (List.filter web_entry items) ->
  fetchOwner server cfg (started w) = (Ok owner, w1) ->
  server (calls w ++ [owner_request cfg; services_request cfg])
    (database_request cfg) = HttpResponse st' (VArr []) ->
  200 <= st' < 300 ->
  let h :=
    calls w
      ++ [owner_request cfg; services_request cfg; database_request cfg] in
  let url := prop info "internalConnectionString" in
  database_created server cfg h (databaseName cfg) owner created info ->
  accepts_undefined server cfg url ->
  workflow server cfg (Interactive.fetchServices server cfg)
    (Interactive.create_and_repoint server cfg) w
  = (Ok tt,
     mkWorld
       ((h ++ creation_requests cfg (databaseName cfg) owner created)
          ++ undefined_requests cfg url (List.filter web_entry items))
       (console w1 ++ [ConsoleLog [PStr "done!"]])).
Proof.
  intros Hreply Hst Hcarried Hentries Howner Hempty Hst' h url Hcreated Hacc.
  rewrite (workflow_reaches_loop w st items owner w1 created info st')
    by assumption.
  fold h.
  rewrite (loop_accepted_run server cfg (databaseKey cfg) created info
             (List.filter web_entry items)
             (mkWorld
                (h ++ creation_requests cfg (databaseName cfg) owner created)
                (console w1))
             (lacks_id_not_nullish _ Hentries)
             (accepts_writes_undefined server cfg url _ Hentries Hacc)).
  cbn [calls console]. fold url.
  rewrite (repoint_requests_undefined cfg url _ Hentries). reflexivity.
Qed.

Lemma workflow_undefined_rejected w st items owner w1 created info st' :
  server (calls w ++ [owner_request cfg]) (services_request cfg)
  = HttpResponse st (VArr items) ->
  200 <= st < 300 ->
  forallb carries_service items = true ->
  Forall lacks_id (List.filter web_entry items) ->
  fetchOwner server cfg (started w) = (Ok owner, w1) ->
  server (calls w ++ [owner_request cfg; services_request cfg])
    (database_request cfg) = HttpResponse st' (VArr []) ->
  200 <= st' < 300 ->
  let h :=
    calls w
      ++ [owner_request cfg; services_request cfg; database_request cfg] in
  let url := prop info "internalConnectionString" in
  let reached :=
    h ++ creation_requests cfg (databaseName cfg) owner created in
  let put := env_request cfg VUndefined (databaseKey cfg) url in
  let e := AxiosError (server reached put) in
  database_created server cfg h (databaseName cfg) owner created info ->
  List.filter web_entry items <> [] ->
  rejected (server reached put) = true ->
  workflow server cfg (Interactive.fetchServices server cfg)
    (Interactive.create_and_repoint server cfg) w
  = (Ok tt,
     mkWorld (reached ++ [put])
       (console w1 ++ [undefined_update_line e; rebuild_error_line e])).
Proof.
  intros Hreply Hst Hcarried Hentries Howner Hempty Hst' h url reached put e
    Hcreated Hsome Hrej.
  rewrite (workflow_reaches_loop w st items owner w1 created info st')
    by assumption.
  fold h reached.
  destruct (List.filter web_entry items) as [|s after] eqn:Hfilter;
    [contradiction|].
  apply Forall_cons in Hentries as [Hs _].
  pose proof (loop_rejected_run server cfg (databaseKey cfg) created info
                [] s after (mkWorld reached (console w1)) eq_refl) as Hloop.
  cbv zeta in Hloop. cbn [calls console repoint_requests flat_map app] in Hloop.
  rewrite app_nil_r, (lacks_id_prop s Hs) in Hloop.
  apply Hloop.
  - intros h' s' [].
  - destruct Hs as (m & -> & _). reflexivity.
  - exact Hrej.
Qed.

End UndefinedRun.

(** C9, as stated, fails for an entry that carries an [id] of its own
    beside the service: [fetchServices] of the interactive variant returns
    the entry as it came, reading [id] on it gives that id and not
    [undefined], and the update and the deploy of the rebuild go to
    [/services/w1]. *)
Lemma entry_with_own_id_counterexample :
  Interactive.fetchServices own_id_server example_config
    (sent (owner_request example_config) (started empty_world))
  = (Ok [own_id_entry],
     sent (services_request example_config)
       (sent (owner_request example_config) (started empty_world)))
  /\ get_prop own_id_entry "id" = Ok (VStr "w1")
  /\ get_prop own_id_entry "id" <> Ok VUndefined
  /\ List.map summary
       (calls (Interactive.rebuildDatabase own_id_server example_config
                 empty_world).2)
     = [(GET, "https://api.render.com/v1/owners?limit=1");
        (GET, "https://api.render.com/v1/services");
        (GET, "https://api.render.com/v1/postgres");
        (POST, "https://api.render.com/v1/postgres");
        (GET, "https://api.render.com/v1/postgres/d1/connection-info");
        (PUT, "https://api.render.com/v1/services/w1/env-vars/DATABASE_URL");
        (POST, "https://api.render.com/v1/services/w1/deploys")].
Proof.
  split; [vm_compute; reflexivity|]. split; [reflexivity|].
  split; [discriminate|]. vm_compute. reflexivity.
Qed.

(** C9.  In the interactive and the module variant [fetchServices] returns
    the entries of the list as they came: each returned entry is an entry
    of the response, with the service still under its [service] field.
    For returned entries that have no [id] field of their own, as the
    wrappers of the API, which hold a cursor and the service and nothing
    else, reading [id] on the entry gives [undefined], and the rebuild
    addresses every service as [undefined].  Whatever the server answers,
    every PUT of the run is the update of the variable under
    [/services/undefined/env-vars/] and every POST other than the creation
    of the database is the deploy under [/services/undefined/deploys].
    When the run reaches the loop (no database to delete, the new one
    created and its connection info read), it issues these requests: on a
    server that accepts them, for each returned entry the update under
    [/services/undefined] and then the deploy under [/services/undefined],
    ending with "done!"; on a server that refuses the update, that update
    as the last request of the run, with the error logged.  The fan-out
    variant, which unwraps the service, keeps its [id]. *)
Theorem wrapped_services_are_addressed_as_undefined
  (server : api) (cfg : config) (chalk : styles) (w : world) (st : Z)
  (items : list value) :
  server (calls w ++ [owner_request cfg]) (services_request cfg)
  = HttpResponse st (VArr items) ->
  200 <= st < 300 ->
  forallb carries_service items = true ->
  Forall lacks_id (List.filter web_entry items) ->
  let entries := List.filter web_entry items in
  (forall w1,
     calls w1 = calls w ++ [owner_request cfg] ->
     Interactive.fetchServices server cfg w1
     = (Ok entries, sent (services_request cfg) w1)
     /\ Exported.fetchServices server cfg w1
        = (Ok entries, sent (services_request cfg) w1))
  /\ (forall e,
        In e entries ->
        In e items
        /\ (exists service,
              get_prop e "service" = Ok service
              /\ get_prop service "type" = Ok (VStr "web_service"))
        /\ get_prop e "id" = Ok VUndefined)
  /\ (forall item, is_wrapper item -> lacks_id item)
  /\ (exists issued,
        calls (Interactive.rebuildDatabase server cfg w).2 = calls w ++ issued
        /\ Forall (addressed_as_undefined cfg) issued)
  /\ (all_set cfg = true ->
      exists issued,
        calls (Exported.rebuildDatabase server cfg chalk w).2
        = calls w ++ issued
        /\ Forall (addressed_as_undefined cfg) issued)
  /\ (forall owner created info,
        let h :=
          calls w
            ++ [owner_request cfg; services_request cfg;
                database_request cfg] in
        let url := prop info "internalConnectionString" in
        let reached :=
          h ++ creation_requests cfg (databaseName cfg) owner created in
        let put := env_request cfg VUndefined (databaseKey cfg) url in
        let e := AxiosError (server reached put) in
        (exists st',
           server (calls w ++ [owner_request cfg; services_request cfg])
             (database_request cfg) = HttpResponse st' (VArr [])
           /\ 200 <= st' < 300) ->
        database_created server cfg h (databaseName cfg) owner created info ->
        (accepts_undefined server cfg url ->
         (forall w1,
            fetchOwner server cfg (started w) = (Ok owner, w1) ->
            Interactive.rebuildDatabase server cfg w
            = (Ok tt,
               mkWorld (reached ++ undefined_requests cfg url entries)
                 (console w1 ++ [ConsoleLog [PStr "done!"]])))
         /\ (all_set cfg = true ->
             forall w1,
               fetchOwner server cfg (started (validated chalk w))
               = (Ok owner, w1) ->
               Exported.rebuildDatabase server cfg chalk w
               = (Ok tt,
                  mkWorld (reached ++ undefined_requests cfg url entries)
                    (console w1 ++ [ConsoleLog [PStr "done!"]]))))
        /\ (entries <> [] ->
            rejected (server reached put) = true ->
            (forall w1,
               fetchOwner server cfg (started w) = (Ok owner, w1) ->
               Interactive.rebuildDatabase server cfg w
               = (Ok tt,
                  mkWorld (reached ++ [put])
                    (console w1
                       ++ [undefined_update_line e; rebuild_error_line e])))
            /\ (all_set cfg = true ->
                forall w1,
                  fetchOwner server cfg (started (validated chalk w))
                  = (Ok owner, w1) ->
                  Exported.rebuildDatabase server cfg chalk w
                  = (Ok tt,
                     mkWorld (reached ++ [put])
                       (console w1
                          ++ [undefined_update_line e;
                              rebuild_error_line e])))))
  /\ (forall v,
        req_url (env_request cfg VUndefined (databaseKey cfg) v)
        = to_string (baseUrl cfg) +:+ "/services/undefined/env-vars/"
            +:+ to_string (databaseKey cfg))
  /\ req_url (deploy_request cfg VUndefined)
     = to_string (baseUrl cfg) +:+ "/services/undefined/deploys"
  /\ (forall service details,
        get_prop (enriched service details) "id" = Ok (prop service "id")).
Proof.
  intros Hreply Hst Hcarried Hentries entries.
  split; [|split; [|split; [|split; [|split; [|split; [|split; [|split]]]]]]].
  - intros w1 Hw1. rewrite <- Hw1 in Hreply.
    pose proof (Interactive_fetchServices_web server cfg w1 st items Hreply
                  Hst Hcarried) as Hrun.
    split; exact Hrun.
  - intros e He. pose proof He as Hin. apply filter_In in Hin as [Hin Hweb].
    split; [exact Hin|]. split; [apply web_entry_nested, Hweb|].
    apply lacks_id_undefined. rewrite List.Forall_forall in Hentries.
    apply Hentries, He.
  - exact wrapper_lacks_id.
  - rewrite Interactive_rebuildDatabase_workflow.
    apply (workflow_addresses_undefined server cfg w st items); assumption.
  - intros Hset. rewrite Exported_rebuildDatabase_workflow by assumption.
    apply (workflow_addresses_undefined server cfg (validated chalk w) st items);
      assumption.
  - intros owner created info h url reached put e (st' & Hempty & Hst') Hcreated.
    split.
    + intros Hacc. split.
      * intros w1 Howner. rewrite Interactive_rebuildDatabase_workflow.
        exact (workflow_undefined_accepted server cfg w st items owner w1
                 created info st' Hreply Hst Hcarried Hentries Howner Hempty
                 Hst' Hcreated Hacc).
      * intros Hset w1 Howner.
        rewrite Exported_rebuildDatabase_workflow by assumption.
        exact (workflow_undefined_accepted server cfg (validated chalk w) st
                 items owner w1 created info st' Hreply Hst Hcarried Hentries
                 Howner Hempty Hst' Hcreated Hacc).
    + intros Hsome Hrej. split.
      * intros w1 Howner. rewrite Interactive_rebuildDatabase_workflow.
        exact (workflow_undefined_rejected server cfg w st items owner w1
                 created info st' Hreply Hst Hcarried Hentries Howner Hempty
                 Hst' Hcreated Hsome Hrej).
      * intros Hset w1 Howner.
        rewrite Exported_rebuildDatabase_workflow by assumption.
        exact (workflow_undefined_rejected server cfg (validated chalk w) st
                 items owner w1 created info st' Hreply Hst Hcarried Hentries
                 Howner Hempty Hst' Hcreated Hsome Hrej).
  - intros v. reflexivity.
  - reflexivity.
  - intros service details. apply enriched_id.
Qed.

Lemma service_entry_lacks_id id type : lacks_id (service_entry id type).
Proof. eexists. split; reflexivity. Qed.

Lemma wrapped_services_witness :
  List.map summary
    (calls (Interactive.rebuildDatabase scenario_server example_config
              empty_world).2)
  = [(GET, "https://api.render.com/v1/owners?limit=1");
     (GET, "https://api.render.com/v1/services");
     (GET, "https://api.render.com/v1/postgres");
     (POST, "https://api.render.com/v1/postgres");
     (GET, "https://api.render.com/v1/postgres/d1/connection-info");
     (PUT, "https://api.render.com/v1/services/undefined/env-vars/DATABASE_URL")]
  /\ List.map summary
       (calls (Interactive.rebuildDatabase lenient_server example_config
                 empty_world).2)
     = [(GET, "https://api.render.com/v1/owners?limit=1");
        (GET, "https://api.render.com/v1/services");
        (GET, "https://api.render.com/v1/postgres");
        (POST, "https://api.render.com/v1/postgres");
        (GET, "https://api.render.com/v1/postgres/d1/connection-info");
        (PUT, "https://api.render.com/v1/services/undefined/env-vars/DATABASE_URL");
        (POST, "https://api.render.com/v1/services/undefined/deploys");
        (PUT, "https://api.render.com/v1/services/undefined/env-vars/DATABASE_URL");
        (POST, "https://api.render.com/v1/services/undefined/deploys")].
Proof.
  split.
  - destruct (wrapped_services_are_addressed_as_undefined scenario_server
                example_config plain_chalk empty_world 200 [scenario_entry])
      as (_ & _ & _ & _ & _ & Hrun & _).
    + reflexivity.
    + lia.
    + reflexivity.
    + constructor; [|constructor].
      apply wrapper_lacks_id, scenario_entry_is_wrapper.
    + destruct (Hrun scenario_owner new_database new_connection)
        as (_ & Hrefused).
      * exists 200. split; [reflexivity|lia].
      * repeat split; try reflexivity; eexists; reflexivity.
      * destruct Hrefused as (Hinteractive & _).
        -- discriminate.
        -- reflexivity.
        -- rewrite (Hinteractive
                      (sent (owner_request example_config)
                         (started empty_world)) eq_refl).
           vm_compute. reflexivity.
  - destruct (wrapped_services_are_addressed_as_undefined lenient_server
                example_config plain_chalk empty_world 200
                [service_entry "s1" "web_service";
                 service_entry "s2" "static_site";
                 service_entry "s3" "web_service"])
      as (_ & _ & _ & _ & _ & Hrun & _).
    + reflexivity.
    + lia.
    + reflexivity.
    + repeat constructor; apply service_entry_lacks_id.
    + destruct (Hrun scenario_owner new_database new_connection)
        as (Haccepted & _).
      * exists 200. split; [reflexivity|lia].
      * repeat split; try reflexivity; eexists; reflexivity.
      * destruct Haccepted as (Hinteractive & _).
        -- intros h. split; reflexivity.
        -- rewrite (Hinteractive
                      (sent (owner_request example_config)
                         (started empty_world)) eq_refl).
           vm_compute. reflexivity.
Defined.


(** * Further properties of the scripts *)

(** ** The rebuild never throws *)

Lemma try_catch_on_error_ok (m : M unit) w :
  (try_catch m on_error w).1 = Ok tt.
Proof. unfold try_catch. destruct (m w) as [[[]|e] w']; reflexivity. Qed.

Lemma workflow_never_throws server cfg fetchServices create_step w :
  (workflow server cfg fetchServices create_step w).1 = Ok tt.
Proof. unfold workflow. rewrite bind_run. apply try_catch_on_error_ok. Qed.

(** X1.  [rebuildDatabase] never throws, in any of the three scripts and
    whatever the server answers: an error of any step is caught at the top,
    and the function returns normally; so does [runScript]. *)
Theorem rebuildDatabase_never_throws
  (server : api) (cfg : config) (chalk : styles) (w : world) :
  (Interactive.rebuildDatabase server cfg w).1 = Ok tt
  /\ (Exported.rebuildDatabase server cfg chalk w).1 = Ok tt
  /\ (FanOut.rebuildDatabase server cfg w).1 = Ok tt
  /\ (Interactive.runScript server cfg chalk w).1 = Ok tt.
Proof.
  split; [apply workflow_never_throws|].
  split; [|split; [apply workflow_never_throws|]].
  - destruct (all_set cfg) eqn:Hset.
    + rewrite Exported_rebuildDatabase_workflow by assumption.
      apply workflow_never_throws.
    + unfold Exported.rebuildDatabase, Exported.validateVariables.
      rewrite bind_run, (missing_variables_length cfg chalk Hset). reflexivity.
  - unfold Interactive.runScript.
    destruct (negb (Nat.eqb (length (missing_variables cfg chalk)) 0)).
    + reflexivity.
    + rewrite bind_run. apply workflow_never_throws.
Qed.

(** ** Every request is authenticated *)

Lemma options_authorization cfg :
  get_prop (prop (options cfg) "headers") "authorization"
  = Ok (VStr ("Bearer " +:+ to_string (key cfg))).
Proof. reflexivity. Qed.

Ltac authenticated_request :=
  split; [reflexivity|eexists; reflexivity].

Lemma workflow_authenticated server cfg fetchServices create_step :
  emits (authenticated cfg) fetchServices ->
  (forall owner services,
     emits (authenticated cfg) (create_step owner services)) ->
  emits (authenticated cfg) (workflow server cfg fetchServices create_step).
Proof.
  intros Hfs Hcreate.
  unfold workflow, guarded, on_error, fetchOwner, fetchDatabase, deleteDatabase,
    axios_get, axios_delete.
  repeat emits_step; try authenticated_request;
    first [exact Hfs|apply Hcreate].
Qed.

Lemma Interactive_fetchServices_authenticated server cfg :
  emits (authenticated cfg) (Interactive.fetchServices server cfg).
Proof.
  unfold Interactive.fetchServices, axios_get.
  repeat emits_step; authenticated_request.
Qed.

Lemma FanOut_fetchServices_authenticated server cfg :
  emits (authenticated cfg) (FanOut.fetchServices server cfg).
Proof.
  unfold FanOut.fetchServices, FanOut.detailed, FanOut.fetchEventDetails,
    axios_get.
  repeat emits_step; authenticated_request.
Qed.

Lemma Interactive_create_authenticated server cfg owner services :
  emits (authenticated cfg)
    (Interactive.create_and_repoint server cfg owner services).
Proof.
  unfold Interactive.create_and_repoint, createDatabase, fetchConnectionInfo,
    updateEnvVariable, deployService, axios_get, axios_put, axios_post.
  repeat emits_loop; authenticated_request.
Qed.

Lemma FanOut_create_authenticated server cfg owner services :
  emits (authenticated cfg)
    (FanOut.create_and_repoint server cfg owner services).
Proof.
  unfold FanOut.create_and_repoint, FanOut.createDatabase,
    FanOut.fetchDatabaseDetails, updateEnvVariable, deployService, axios_get,
    axios_put, axios_post.
  repeat emits_loop; authenticated_request.
Qed.

(** X2.  Every request issued by a run of [rebuildDatabase], in each of the
    three scripts, carries the options of the script, whose authorization
    header is the bearer token built from the key, with the JSON accept and
    content type, and goes to a URL under the base URL. *)
Theorem every_request_is_authenticated
  (server : api) (cfg : config) (chalk : styles) :
  emits (authenticated cfg) (Interactive.rebuildDatabase server cfg)
  /\ emits (authenticated cfg) (Exported.rebuildDatabase server cfg chalk)
  /\ emits (authenticated cfg) (FanOut.rebuildDatabase server cfg)
  /\ get_prop (prop (options cfg) "headers") "authorization"
     = Ok (VStr ("Bearer " +:+ to_string (key cfg)))
  /\ get_prop (prop (options cfg) "headers") "accept"
     = Ok (VStr "application/json")
  /\ get_prop (prop (options cfg) "headers") "Content-Type"
     = Ok (VStr "application/json").
Proof.
  split; [|split; [|split; [|repeat split]]].
  - apply workflow_authenticated;
      [apply Interactive_fetchServices_authenticated|].
    intros owner services. apply Interactive_create_authenticated.
  - unfold Exported.rebuildDatabase, Exported.validateVariables.
    apply emits_bind.
    + destruct (negb (Nat.eqb (length (missing_variables cfg chalk)) 0));
        repeat emits_step.
    + intros isValid. destruct (negb isValid); [apply emits_ret|].
      apply (workflow_authenticated server cfg
               (Exported.fetchServices server cfg)
               (Exported.create_and_repoint server cfg));
        [apply Interactive_fetchServices_authenticated|].
      intros owner services. apply Interactive_create_authenticated.
  - apply workflow_authenticated; [apply FanOut_fetchServices_authenticated|].
    intros owner services. apply FanOut_create_authenticated.
Qed.

(** ** A rejected request *)


Lemma settle_rejected {A} (server : api) msg req w (k : response -> result A) :
  rejected (server (calls w) req) = true ->
  rethrown server msg req w
    (settle msg (let+ resp := validateStatus (server (calls w) req) in k resp)
       (sent req w)).
Proof.
  intros Hrej. unfold rethrown. rewrite (validateStatus_rejected _ Hrej).
  reflexivity.
Qed.

(** X3.  Each accessor handles a rejected request the same way: it has
    issued that one request and no other, it writes one line to the error
    console, made of its heading and the error of axios, and it throws that
    same error again; nothing is retried and no value is returned. *)
Theorem rejected_request_is_logged_and_rethrown
  (server : api) (cfg : config) (w : world)
  (databaseId ownerId name serviceId envKey envValue : value) :
  (rejected (server (calls w) (owner_request cfg)) = true ->
   rethrown server "Error fetching owner:" (owner_request cfg) w
     (fetchOwner server cfg w))
  /\ (rejected (server (calls w) (services_request cfg)) = true ->
      rethrown server "Error fetching services:" (services_request cfg) w
        (Interactive.fetchServices server cfg w)
      /\ rethrown server "Error fetching services:" (services_request cfg) w
           (Exported.fetchServices server cfg w)
      /\ rethrown server "Error fetching services:" (services_request cfg) w
           (FanOut.fetchServices server cfg w))
  /\ (rejected (server (calls w) (events_request cfg serviceId)) = true ->
      rethrown server
        ("Error fetching event details for service ID "
           +:+ to_string serviceId +:+ ":")
        (events_request cfg serviceId) w
        (FanOut.fetchEventDetails server cfg serviceId w))
  /\ (rejected (server (calls w) (database_request cfg)) = true ->
      rethrown server "Error fetching database:" (database_request cfg) w
        (fetchDatabase server cfg w))
  /\ (rejected (server (calls w) (connection_request cfg databaseId)) = true ->
      rethrown server
        ("Error fetching details for database ID " +:+ to_string databaseId
           +:+ ":")
        (connection_request cfg databaseId) w
        (fetchConnectionInfo server cfg databaseId w)
      /\ rethrown server
           ("Error fetching details for database ID " +:+ to_string databaseId
              +:+ ":")
           (connection_request cfg databaseId) w
           (FanOut.fetchDatabaseDetails server cfg databaseId w))
  /\ (rejected (server (calls w) (create_request cfg (databaseName cfg) ownerId))
      = true ->
      rethrown server "Error creating database:"
        (create_request cfg (databaseName cfg) ownerId) w
        (createDatabase server cfg ownerId w))
  /\ (rejected (server (calls w) (create_request cfg name ownerId)) = true ->
      rethrown server "Error creating database:"
        (create_request cfg name ownerId) w
        (FanOut.createDatabase server cfg name ownerId w))
  /\ (rejected (server (calls w) (delete_request cfg databaseId)) = true ->
      rethrown server
        ("Error deleting database ID " +:+ to_string databaseId +:+ ":")
        (delete_request cfg databaseId) w
        (deleteDatabase server cfg databaseId w))
  /\ (rejected (server (calls w) (env_request cfg serviceId envKey envValue))
      = true ->
      rethrown server
        ("Error updating environment variable for service ID "
           +:+ to_string serviceId +:+ ":")
        (env_request cfg serviceId envKey envValue) w
        (updateEnvVariable server cfg serviceId envKey envValue w))
  /\ (rejected (server (calls w) (deploy_request cfg serviceId)) = true ->
      rethrown server
        ("Error deploying service ID " +:+ to_string serviceId +:+ ":")
        (deploy_request cfg serviceId) w
        (deployService server cfg serviceId w)).
Proof.
  repeat match goal with
         | |- _ /\ _ => split
         | |- rejected _ = true -> _ => intros Hrej
         end.
  - rewrite fetchOwner_run. apply settle_rejected, Hrej.
  - rewrite Interactive_fetchServices_run. apply settle_rejected, Hrej.
  - rewrite Exported_fetchServices_eq, Interactive_fetchServices_run.
    apply settle_rejected, Hrej.
  - unfold rethrown, FanOut.fetchServices, try_catch, axios_get.
    fold (services_request cfg). rewrite bind_run. unfold axios.
    rewrite (validateStatus_rejected _ Hrej). reflexivity.
  - rewrite fetchEventDetails_run. unfold details_of.
    apply settle_rejected, Hrej.
  - rewrite fetchDatabase_run. apply settle_rejected, Hrej.
  - rewrite fetchConnectionInfo_run. apply settle_rejected, Hrej.
  - rewrite FanOut_fetchDatabaseDetails_eq, fetchConnectionInfo_run.
    apply settle_rejected, Hrej.
  - rewrite createDatabase_run. apply settle_rejected, Hrej.
  - rewrite FanOut_createDatabase_run. apply settle_rejected, Hrej.
  - rewrite deleteDatabase_run. unfold rethrown.
    rewrite (validateStatus_rejected _ Hrej). reflexivity.
  - rewrite updateEnvVariable_run. apply settle_rejected, Hrej.
  - rewrite deployService_run. apply settle_rejected, Hrej.
Qed.

Lemma rejected_request_witness :
  rethrown (constant_server NetworkFailure) "Error fetching owner:"
    (owner_request example_config) empty_world
    (fetchOwner (constant_server NetworkFailure) example_config empty_world)
  /\ rethrown (constant_server NetworkFailure) "Error deleting database ID d0:"
       (delete_request example_config (VStr "d0")) empty_world
       (deleteDatabase (constant_server NetworkFailure) example_config
          (VStr "d0") empty_world).
Proof.
  destruct (rejected_request_is_logged_and_rethrown
              (constant_server NetworkFailure) example_config empty_world
              (VStr "d0") (VStr "o1") (VStr "my-db") (VStr "s1")
              (VStr "DATABASE_URL") (VStr "postgres://u:p@d1/my_db"))
    as (Howner & _ & _ & _ & _ & _ & _ & Hdelete & _).
  split; [apply Howner|apply Hdelete]; reflexivity.
Defined.

(** ** The validation, when it passes *)

Lemma missing_variables_unset cfg chalk :
  missing_variables cfg chalk = List.map (red chalk) (unset_names cfg).
Proof.
  unfold missing_variables, unset_names. cbn [List.filter snd].
  destruct (truthy (databaseName cfg)), (truthy (databaseKey cfg)),
    (truthy (baseUrl cfg)), (truthy (key cfg)); reflexivity.
Qed.

(** X4.  [validateVariables] answers whether the four constants are all
    set and never issues a request: when they are it writes the one line
    that announces the rebuild, otherwise the report, which names exactly
    the unset constants in the order databaseName, databaseKey, baseUrl,
    key.  With all four set, [runScript] writes that line and runs
    [rebuildDatabase]. *)
Theorem validation_reports_the_unset_constants
  (server : api) (cfg : config) (chalk : styles) (w : world) :
  Exported.validateVariables cfg chalk w
  = (Ok (all_set cfg),
     mkWorld (calls w)
       (console w
          ++ (if all_set cfg then [validated_line chalk]
              else missing_report cfg chalk)))
  /\ missing_variables cfg chalk = List.map (red chalk) (unset_names cfg)
  /\ (all_set cfg = true <-> unset_names cfg = [])
  /\ (all_set cfg = true ->
      Interactive.runScript server cfg chalk w
      = Interactive.rebuildDatabase server cfg
          (logged (validated_line chalk) w)).
Proof.
  split; [|split; [apply missing_variables_unset|split]].
  - unfold Exported.validateVariables. destruct (all_set cfg) eqn:Hset.
    + rewrite (all_set_no_missing cfg chalk Hset). reflexivity.
    + rewrite (missing_variables_length cfg chalk Hset).
      unfold missing_report, bind, console_log, ret, logged.
      cbn [negb calls console]. rewrite <- app_assoc. reflexivity.
  - unfold all_set, unset_names. cbn [List.filter snd].
    destruct (truthy (databaseName cfg)), (truthy (databaseKey cfg)),
      (truthy (baseUrl cfg)), (truthy (key cfg)); cbn; split; congruence.
  - intros Hset. unfold Interactive.runScript.
    rewrite (all_set_no_missing cfg chalk Hset). reflexivity.
Qed.

Lemma validation_witness :
  Interactive.runScript scenario_server example_config plain_chalk empty_world
  = Interactive.rebuildDatabase scenario_server example_config
      (logged (validated_line plain_chalk) empty_world).
Proof.
  apply (validation_reports_the_unset_constants scenario_server example_config
           plain_chalk empty_world).
  reflexivity.
Defined.

(** ** The service list, when it is malformed or partly enriched *)

Lemma array_filter_malformed d :
  well_formed_list d = false ->
  array_filter is_web_service d = Throw TypeError.
Proof.
  destruct d as [| | | | |items|m]; try reflexivity.
  cbn [well_formed_list array_filter]. apply filterM_web_throws.
Qed.

(** X5.  One malformed entry fails the whole listing.  When the services
    response is not an array, or holds an entry without a service,
    [fetchServices] throws a TypeError in every script, logged under its
    heading; the services request is the only request issued, so the
    fan-out variant fetches no events. *)
Theorem malformed_service_list_fails_the_listing
  (server : api) (cfg : config) (w : world) (st : Z) (d : value) :
  server (calls w) (services_request cfg) = HttpResponse st d ->
  200 <= st < 300 ->
  well_formed_list d = false ->
  let failure :=
    (@Throw (list value) TypeError,
     logged (ConsoleError [PStr "Error fetching services:"; PErr TypeError])
       (sent (services_request cfg) w)) in
  Interactive.fetchServices server cfg w = failure
  /\ Exported.fetchServices server cfg w = failure
  /\ FanOut.fetchServices server cfg w = failure.
Proof.
  intros Hreply Hst Hbad failure.
  assert (Hrun : Interactive.fetchServices server cfg w = failure).
  { rewrite Interactive_fetchServices_run, Hreply, validateStatus_2xx
      by assumption.
    cbn [rbind data]. rewrite (array_filter_malformed d Hbad). reflexivity. }
  split; [exact Hrun|]. split; [exact Hrun|].
  unfold FanOut.fetchServices, try_catch, axios_get.
  fold (services_request cfg). rewrite bind_run. unfold axios.
  rewrite Hreply, validateStatus_2xx by assumption. cbn [data].
  rewrite bind_lift, (array_filter_malformed d Hbad). reflexivity.
Qed.

Lemma malformed_service_list_witness :
  FanOut.fetchServices malformed_list_server example_config empty_world
  = (Throw TypeError,
     logged (ConsoleError [PStr "Error fetching services:"; PErr TypeError])
       (sent (services_request example_config) empty_world)).
Proof.
  apply (malformed_service_list_fails_the_listing malformed_list_server
           example_config empty_world 200
           (VArr [service_entry "s1" "web_service";
                  obj [("cursor", VStr "c2")]])).
  - reflexivity.
  - lia.
  - reflexivity.
Defined.






Section FanOutExact.
Context (server : api) (cfg : config).



End FanOutExact.




(** ** The delete guard, when the delete is confirmed *)

Lemma fetchDatabase_first server cfg w st item rest :
  server (calls w) (database_request cfg) = HttpResponse st (VArr (item :: rest)) ->
  200 <= st < 300 ->
  is_nullish item = false ->
  fetchDatabase server cfg w
  = (Ok (prop item "postgres"), sent (database_request cfg) w).
Proof.
  intros Hreply Hst Hitem.
  rewrite fetchDatabase_run, Hreply, validateStatus_2xx by assumption.
  cbn [rbind]. unfold database_of. cbn [data get_prop String.eqb Ascii.eqb Bool.eqb].
  cbn [rbind truthy length Z.of_nat Z.eqb negb get_index nth].
  rewrite (get_prop_prop item "postgres" Hitem). reflexivity.
Qed.

Lemma guarded_confirmed_delete server cfg create_step owner services database
  w3 d :
  isEmpty database = Ok false ->
  server (calls w3) (delete_request cfg (prop database "id"))
  = HttpResponse 204 d ->
  try_catch (guarded server cfg create_step owner services database) on_error w3
  = try_catch (create_step owner services) on_error
      (sent (delete_request cfg (prop database "id")) w3).
Proof.
  intros Hempty Hreply.
  pose proof (get_prop_prop database "id"
                (isEmpty_false_not_nullish database Hempty)) as Hid.
  unfold guarded, try_catch. rewrite bind_lift, Hempty. cbn [negb].
  rewrite bind_lift, Hid, bind_run, deleteDatabase_run, Hreply.
  reflexivity.
Qed.

Lemma workflow_confirmed_delete server cfg fetchServices create_step
  w owner services w2 item rest :
  reads_before_database server cfg fetchServices (started w) owner services w2 ->
  found_first_database server cfg w2 item rest ->
  delete_confirmed server cfg w2 item ->
  workflow server cfg fetchServices create_step w
  = try_catch (create_step owner services) on_error
      (mkWorld (calls w2 ++ list_and_delete cfg item) (console w2)).
Proof.
  intros (w1 & Howner & Hservices) ((st & Hreply & Hst) & Hitem & Hempty)
    (d & Hdelete).
  rewrite (workflow_after_reads server cfg fetchServices create_step w owner
             services (prop item "postgres") (sent (database_request cfg) w2)).
  - rewrite (guarded_confirmed_delete server cfg create_step owner services
               (prop item "postgres") (sent (database_request cfg) w2) d
               Hempty Hdelete).
    unfold sent, list_and_delete. cbn [calls console].
    rewrite <- app_assoc. reflexivity.
  - exists w1, w2. split; [exact Howner|]. split; [exact Hservices|].
    apply (fetchDatabase_first server cfg w2 st item rest Hreply Hst Hitem).
Qed.

Lemma Interactive_create_missing_owner server cfg owner services w :
  is_nullish owner = true ->
  try_catch (Interactive.create_and_repoint server cfg owner services)
    on_error w
  = (Ok tt, logged (rebuild_error_line TypeError) w).
Proof. destruct owner; try discriminate; reflexivity. Qed.

Lemma FanOut_create_missing_owner server cfg owner services w :
  is_nullish owner = true ->
  try_catch (FanOut.create_and_repoint server cfg owner services) on_error w
  = (Ok tt, logged (rebuild_error_line TypeError) w).
Proof. destruct owner; try discriminate; reflexivity. Qed.

Lemma Interactive_create_rejected server cfg owner services w :
  is_nullish owner = false ->
  rejected (server (calls w)
              (create_request cfg (databaseName cfg) (prop owner "id"))) = true ->
  let req := create_request cfg (databaseName cfg) (prop owner "id") in
  let e := AxiosError (server (calls w) req) in
  try_catch (Interactive.create_and_repoint server cfg owner services)
    on_error w
  = (Ok tt,
     mkWorld (calls w ++ [req])
       (console w
          ++ [ConsoleError [PStr "Error creating database:"; PErr e];
              rebuild_error_line e])).
Proof.
  intros Howner Hrej. cbv zeta. unfold Interactive.create_and_repoint.
  rewrite (try_catch_bind_lift _ _ _ _ _ (get_prop_prop owner "id" Howner)).
  unfold try_catch. rewrite bind_run, createDatabase_run.
  rewrite (validateStatus_rejected _ Hrej).
  cbn [rbind settle].
  unfold rebuild_error_line, on_error, console_error, logged, sent.
  cbn [calls console]. rewrite <- app_assoc. reflexivity.
Qed.

Lemma FanOut_create_rejected server cfg owner services w :
  is_nullish owner = false ->
  rejected (server (calls w)
              (create_request cfg (VStr "my-db") (prop owner "id"))) = true ->
  let req := create_request cfg (VStr "my-db") (prop owner "id") in
  let e := AxiosError (server (calls w) req) in
  try_catch (FanOut.create_and_repoint server cfg owner services) on_error w
  = (Ok tt,
     mkWorld (calls w ++ [req])
       (console w
          ++ [ConsoleError [PStr "Error creating database:"; PErr e];
              rebuild_error_line e])).
Proof.
  intros Howner Hrej. cbv zeta. unfold FanOut.create_and_repoint.
  rewrite (try_catch_bind_lift _ _ _ _ _ (get_prop_prop owner "id" Howner)).
  unfold try_catch. rewrite bind_run, FanOut_createDatabase_run.
  rewrite (validateStatus_rejected _ Hrej).
  cbn [rbind settle].
  unfold rebuild_error_line, on_error, console_error, logged, sent.
  cbn [calls console]. rewrite <- app_assoc. reflexivity.
Qed.

(** X7.  When the first database of the list is not empty and its delete
    is confirmed with 204, the run goes on with the steps that create the
    new database, in the world left by the delete: only the first entry of
    the list is looked at, its database is the one deleted, and for an
    owner with an [id] to read the request that follows the delete is the
    creation; nothing is deleted after it. *)
Theorem confirmed_delete_goes_on_to_create
  (server : api) (cfg : config) (chalk : styles) (w : world)
  (owner : value) (services : list value) (w2 : world)
  (item : value) (rest : list value) :
  found_first_database server cfg w2 item rest ->
  delete_confirmed server cfg w2 item ->
  let w4 := mkWorld (calls w2 ++ list_and_delete cfg item) (console w2) in
  (reads_before_database server cfg (Interactive.fetchServices server cfg)
     (started w) owner services w2 ->
   Interactive.rebuildDatabase server cfg w
   = try_catch (Interactive.create_and_repoint server cfg owner services)
       on_error w4
   /\ (is_nullish owner = false ->
       exists rest',
         calls (Interactive.rebuildDatabase server cfg w).2
         = calls w4
             ++ create_request cfg (databaseName cfg) (prop owner "id") :: rest'
         /\ Forall not_delete rest'))
  /\ (all_set cfg = true ->
      reads_before_database server cfg (Exported.fetchServices server cfg)
        (started (validated chalk w)) owner services w2 ->
      Exported.rebuildDatabase server cfg chalk w
      = try_catch (Exported.create_and_repoint server cfg owner services)
          on_error w4
      /\ (is_nullish owner = false ->
          exists rest',
            calls (Exported.rebuildDatabase server cfg chalk w).2
            = calls w4
                ++ create_request cfg (databaseName cfg) (prop owner "id")
                   :: rest'
            /\ Forall not_delete rest'))
  /\ (reads_before_database server cfg (FanOut.fetchServices server cfg)
        (started w) owner services w2 ->
      FanOut.rebuildDatabase server cfg w
      = try_catch (FanOut.create_and_repoint server cfg owner services)
          on_error w4
      /\ (is_nullish owner = false ->
          exists rest',
            calls (FanOut.rebuildDatabase server cfg w).2
            = calls w4
                ++ create_request cfg (VStr "my-db") (prop owner "id") :: rest'
            /\ Forall not_delete rest')).
Proof.
  intros Hfound Hdelete w4. split; [|split].
  - intros Hreads.
    rewrite Interactive_rebuildDatabase_workflow,
      (workflow_confirmed_delete _ _ _ _ _ _ _ _ _ _ Hreads Hfound Hdelete).
    split; [reflexivity|]. intros Howner.
    apply Interactive_create_first, Howner.
  - intros Hset Hreads.
    rewrite Exported_rebuildDatabase_workflow by assumption.
    rewrite (workflow_confirmed_delete _ _ _ _ _ _ _ _ _ _ Hreads Hfound
               Hdelete).
    split; [reflexivity|]. intros Howner.
    apply (Interactive_create_first server cfg owner services w4 Howner).
  - intros Hreads.
    rewrite FanOut_rebuildDatabase_workflow,
      (workflow_confirmed_delete _ _ _ _ _ _ _ _ _ _ Hreads Hfound Hdelete).
    split; [reflexivity|]. intros Howner.
    apply FanOut_create_first, Howner.
Qed.

Lemma replacing_server_found :
  found_first_database replacing_server example_config
    (after_two_reads replacing_server example_config
       (FanOut.fetchServices replacing_server example_config)
       (started empty_world))
    (obj [("postgres", existing_database)])
    [obj [("postgres", obj [("id", VStr "d9")])]].
Proof.
  split; [|split; reflexivity]. exists 200. split; [reflexivity|lia].
Qed.

Lemma confirmed_delete_witness :
  List.map summary
    (calls (FanOut.rebuildDatabase replacing_server example_config
              empty_world).2)
  = [(GET, "https://api.render.com/v1/owners?limit=1");
     (GET, "https://api.render.com/v1/services");
     (GET, "https://api.render.com/v1/services/s1/events");
     (GET, "https://api.render.com/v1/postgres");
     (DELETE, "https://api.render.com/v1/postgres/d0");
     (POST, "https://api.render.com/v1/postgres");
     (GET, "https://api.render.com/v1/postgres/d1/connection-info");
     (PUT, "https://api.render.com/v1/services/s1/env-vars/DATABASE_URL");
     (POST, "https://api.render.com/v1/services/s1/deploys")].
Proof.
  destruct (confirmed_delete_goes_on_to_create replacing_server example_config
              plain_chalk empty_world scenario_owner
              [enriched (prop (service_entry "s1" "web_service") "service")
                 (obj [])]
              (after_two_reads replacing_server example_config
                 (FanOut.fetchServices replacing_server example_config)
                 (started empty_world))
              (obj [("postgres", existing_database)])
              [obj [("postgres", obj [("id", VStr "d9")])]]
              replacing_server_found)
    as (_ & _ & Hrun).
  - eexists. reflexivity.
  - destruct Hrun as [-> _].
    + eexists. split; vm_compute; reflexivity.
    + vm_compute. reflexivity.
Defined.

(** X8.  A missing owner is noticed only after the existing database has
    been deleted.  When [fetchOwner] gave no owner ([undefined] or [null]),
    the first database of the list is not empty and its delete is confirmed,
    the run ends with the delete as its last call: the create steps stop on
    the TypeError of reading [id], which the top-level catch logs, and no
    database is created in place of the one deleted. *)
Theorem missing_owner_is_noticed_after_the_delete
  (server : api) (cfg : config) (chalk : styles) (w : world)
  (owner : value) (services : list value) (w2 : world)
  (item : value) (rest : list value) :
  is_nullish owner = true ->
  found_first_database server cfg w2 item rest ->
  delete_confirmed server cfg w2 item ->
  let out :=
    (Ok tt,
     mkWorld (calls w2 ++ list_and_delete cfg item)
       (console w2 ++ [rebuild_error_line TypeError])) in
  (reads_before_database server cfg (Interactive.fetchServices server cfg)
     (started w) owner services w2 ->
   Interactive.rebuildDatabase server cfg w = out)
  /\ (all_set cfg = true ->
      reads_before_database server cfg (Exported.fetchServices server cfg)
        (started (validated chalk w)) owner services w2 ->
      Exported.rebuildDatabase server cfg chalk w = out)
  /\ (reads_before_database server cfg (FanOut.fetchServices server cfg)
        (started w) owner services w2 ->
      FanOut.rebuildDatabase server cfg w = out).
Proof.
  intros Howner Hfound Hdelete out. split; [|split].
  - intros Hreads.
    rewrite Interactive_rebuildDatabase_workflow,
      (workflow_confirmed_delete _ _ _ _ _ _ _ _ _ _ Hreads Hfound Hdelete).
    apply Interactive_create_missing_owner, Howner.
  - intros Hset Hreads.
    rewrite Exported_rebuildDatabase_workflow by assumption.
    rewrite (workflow_confirmed_delete _ _ _ _ _ _ _ _ _ _ Hreads Hfound
               Hdelete).
    exact (Interactive_create_missing_owner server cfg owner services
             (mkWorld (calls w2 ++ list_and_delete cfg item) (console w2))
             Howner).
  - intros Hreads.
    rewrite FanOut_rebuildDatabase_workflow,
      (workflow_confirmed_delete _ _ _ _ _ _ _ _ _ _ Hreads Hfound Hdelete).
    apply FanOut_create_missing_owner, Howner.
Qed.

Lemma missing_owner_witness :
  List.map summary
    (calls (Interactive.rebuildDatabase ownerless_server example_config
              empty_world).2)
  = [(GET, "https://api.render.com/v1/owners?limit=1");
     (GET, "https://api.render.com/v1/services");
     (GET, "https://api.render.com/v1/postgres");
     (DELETE, "https://api.render.com/v1/postgres/d0")].
Proof.
  destruct (missing_owner_is_noticed_after_the_delete ownerless_server
              example_config plain_chalk empty_world VUndefined
              [service_entry "s1" "web_service"]
              (after_two_reads ownerless_server example_config
                 (Interactive.fetchServices ownerless_server example_config)
                 (started empty_world))
              (obj [("postgres", existing_database)]) [])
    as (Hrun & _).
  - reflexivity.
  - split; [|split; reflexivity]. exists 200. split; [reflexivity|lia].
  - eexists. reflexivity.
  - rewrite Hrun.
    + vm_compute. reflexivity.
    + eexists. split; vm_compute; reflexivity.
Defined.

(** X9.  Nothing is rolled back.  When the delete of the existing database
    was confirmed and the request that creates the new one is rejected, the
    run ends with that request as its last call: the error is logged by
    [createDatabase] and by the top-level catch, the function returns
    normally, and the deleted database is neither restored nor replaced. *)
Theorem rejected_creation_after_delete_is_not_rolled_back
  (server : api) (cfg : config) (chalk : styles) (w : world)
  (owner : value) (services : list value) (w2 : world)
  (item : value) (rest : list value) (name : value) :
  is_nullish owner = false ->
  found_first_database server cfg w2 item rest ->
  delete_confirmed server cfg w2 item ->
  let req := create_request cfg name (prop owner "id") in
  let e := AxiosError (server (calls w2 ++ list_and_delete cfg item) req) in
  rejected (server (calls w2 ++ list_and_delete cfg item) req) = true ->
  let out :=
    (Ok tt,
     mkWorld ((calls w2 ++ list_and_delete cfg item) ++ [req])
       (console w2
          ++ [ConsoleError [PStr "Error creating database:"; PErr e];
              rebuild_error_line e])) in
  (name = databaseName cfg ->
   reads_before_database server cfg (Interactive.fetchServices server cfg)
     (started w) owner services w2 ->
   Interactive.rebuildDatabase server cfg w = out)
  /\ (name = databaseName cfg ->
      all_set cfg = true ->
      reads_before_database server cfg (Exported.fetchServices server cfg)
        (started (validated chalk w)) owner services w2 ->
      Exported.rebuildDatabase server cfg chalk w = out)
  /\ (name = VStr "my-db" ->
      reads_before_database server cfg (FanOut.fetchServices server cfg)
        (started w) owner services w2 ->
      FanOut.rebuildDatabase server cfg w = out).
Proof.
  intros Howner Hfound Hdelete req e Hrej out. split; [|split].
  - intros Hname Hreads. subst name.
    rewrite Interactive_rebuildDatabase_workflow,
      (workflow_confirmed_delete _ _ _ _ _ _ _ _ _ _ Hreads Hfound Hdelete).
    exact (Interactive_create_rejected server cfg owner services
             (mkWorld (calls w2 ++ list_and_delete cfg item) (console w2))
             Howner Hrej).
  - intros Hname Hset Hreads. subst name.
    rewrite Exported_rebuildDatabase_workflow by assumption.
    rewrite (workflow_confirmed_delete _ _ _ _ _ _ _ _ _ _ Hreads Hfound
               Hdelete).
    exact (Interactive_create_rejected server cfg owner services
             (mkWorld (calls w2 ++ list_and_delete cfg item) (console w2))
             Howner Hrej).
  - intros Hname Hreads. subst name.
    rewrite FanOut_rebuildDatabase_workflow,
      (workflow_confirmed_delete _ _ _ _ _ _ _ _ _ _ Hreads Hfound Hdelete).
    exact (FanOut_create_rejected server cfg owner services
             (mkWorld (calls w2 ++ list_and_delete cfg item) (console w2))
             Howner Hrej).
Qed.

Lemma rejected_creation_witness :
  List.map summary
    (calls (Interactive.rebuildDatabase refusing_creation_server example_config
              empty_world).2)
  = [(GET, "https://api.render.com/v1/owners?limit=1");
     (GET, "https://api.render.com/v1/services");
     (GET, "https://api.render.com/v1/postgres");
     (DELETE, "https://api.render.com/v1/postgres/d0");
     (POST, "https://api.render.com/v1/postgres")].
Proof.
  destruct (rejected_creation_after_delete_is_not_rolled_back
              refusing_creation_server example_config plain_chalk empty_world
              scenario_owner [service_entry "s1" "web_service"]
              (after_two_reads refusing_creation_server example_config
                 (Interactive.fetchServices refusing_creation_server
                    example_config)
                 (started empty_world))
              (obj [("postgres", existing_database)]) [] (VStr "my-db"))
    as (Hrun & _).
  - reflexivity.
  - split; [|split; reflexivity]. exists 200. split; [reflexivity|lia].
  - eexists. reflexivity.
  - reflexivity.
  - rewrite Hrun.
    + vm_compute. reflexivity.
    + reflexivity.
    + eexists. split; vm_compute; reflexivity.
Defined.

(** ** Runs that stop at the reads *)

Lemma isEmpty_nullish database :
  is_nullish database = true -> isEmpty database = Throw TypeError.
Proof. destruct database; try discriminate; reflexivity. Qed.

Lemma workflow_missing_postgres server cfg fetchServices create_step
  w owner services w2 st item rest :
  reads_before_database server cfg fetchServices (started w) owner services w2 ->
  server (calls w2) (database_request cfg) = HttpResponse st (VArr (item :: rest)) ->
  200 <= st < 300 ->
  is_nullish item = false ->
  is_nullish (prop item "postgres") = true ->
  workflow server cfg fetchServices create_step w
  = (Ok tt,
     mkWorld (calls w2 ++ [database_request cfg])
       (console w2 ++ [rebuild_error_line TypeError])).
Proof.
  intros (w1 & Howner & Hservices) Hreply Hst Hitem Hmissing.
  rewrite (workflow_after_reads server cfg fetchServices create_step w owner
             services (prop item "postgres") (sent (database_request cfg) w2)).
  - unfold guarded, try_catch.
    rewrite bind_lift, (isEmpty_nullish _ Hmissing). reflexivity.
  - exists w1, w2. split; [exact Howner|]. split; [exact Hservices|].
    apply (fetchDatabase_first server cfg w2 st item rest Hreply Hst Hitem).
Qed.

(** X10.  When the first entry of the database list has no [postgres]
    field (or a null one), [fetchDatabase] returns it as it is, the
    emptiness test of [rebuildDatabase] throws a TypeError on it, and the
    run ends after the three reads: the error is logged by the top-level
    catch, and nothing is deleted, created, updated or deployed. *)
Theorem database_entry_without_postgres_stops_the_run
  (server : api) (cfg : config) (chalk : styles) (w : world)
  (owner : value) (services : list value) (w2 : world) (st : Z)
  (item : value) (rest : list value) :
  server (calls w2) (database_request cfg) = HttpResponse st (VArr (item :: rest)) ->
  200 <= st < 300 ->
  is_nullish item = false ->
  is_nullish (prop item "postgres") = true ->
  let out :=
    (Ok tt,
     mkWorld (calls w2 ++ [database_request cfg])
       (console w2 ++ [rebuild_error_line TypeError])) in
  fetchDatabase server cfg w2
  = (Ok (prop item "postgres"), sent (database_request cfg) w2)
  /\ isEmpty (prop item "postgres") = Throw TypeError
  /\ (reads_before_database server cfg (Interactive.fetchServices server cfg)
        (started w) owner services w2 ->
      Interactive.rebuildDatabase server cfg w = out)
  /\ (all_set cfg = true ->
      reads_before_database server cfg (Exported.fetchServices server cfg)
        (started (validated chalk w)) owner services w2 ->
      Exported.rebuildDatabase server cfg chalk w = out)
  /\ (reads_before_database server cfg (FanOut.fetchServices server cfg)
        (started w) owner services w2 ->
      FanOut.rebuildDatabase server cfg w = out).
Proof.
  intros Hreply Hst Hitem Hmissing out.
  split; [apply (fetchDatabase_first server cfg w2 st item rest Hreply Hst Hitem)|].
  split; [apply isEmpty_nullish, Hmissing|]. split; [|split].
  - intros Hreads. rewrite Interactive_rebuildDatabase_workflow.
    apply (workflow_missing_postgres _ _ _ _ _ _ _ _ _ _ _ Hreads Hreply Hst
             Hitem Hmissing).
  - intros Hset Hreads.
    rewrite Exported_rebuildDatabase_workflow by assumption.
    apply (workflow_missing_postgres _ _ _ _ _ _ _ _ _ _ _ Hreads Hreply Hst
             Hitem Hmissing).
  - intros Hreads. rewrite FanOut_rebuildDatabase_workflow.
    apply (workflow_missing_postgres _ _ _ _ _ _ _ _ _ _ _ Hreads Hreply Hst
             Hitem Hmissing).
Qed.

Lemma database_entry_without_postgres_witness :
  List.map summary
    (calls (Interactive.rebuildDatabase bare_entry_server example_config
              empty_world).2)
  = [(GET, "https://api.render.com/v1/owners?limit=1");
     (GET, "https://api.render.com/v1/services");
     (GET, "https://api.render.com/v1/postgres")].
Proof.
  destruct (database_entry_without_postgres_stops_the_run bare_entry_server
              example_config plain_chalk empty_world scenario_owner
              [service_entry "s1" "web_service"]
              (after_two_reads bare_entry_server example_config
                 (Interactive.fetchServices bare_entry_server example_config)
                 (started empty_world))
              200 (obj [("cursor", VStr "c1")]) [])
    as (_ & _ & Hrun & _).
  - reflexivity.
  - lia.
  - reflexivity.
  - reflexivity.
  - rewrite Hrun.
    + vm_compute. reflexivity.
    + eexists. split; vm_compute; reflexivity.
Defined.

Lemma workflow_reads_fail server cfg fetchServices create_step w e w3 :
  emits is_get fetchServices ->
  reads_fail server cfg fetchServices (started w) e w3 ->
  workflow server cfg fetchServices create_step w
  = (Ok tt, logged (rebuild_error_line e) w3)
  /\ exists gets, calls w3 = calls w ++ gets /\ Forall is_get gets.
Proof.
  intros Hfs Hfail. unfold workflow. rewrite bind_run.
  cbn [console_log]. fold (started w). unfold try_catch.
  destruct Hfail as [Howner|[(owner & w1 & Howner & Hservices)
                             |(owner & w1 & services & w2 & Howner & Hservices
                               & Hdatabase)]].
  - rewrite bind_run, Howner. split; [reflexivity|].
    apply (emits_run _ _ _ _ _ (fetchOwner_emits_get server cfg) Howner).
  - rewrite bind_run, Howner, bind_run, Hservices. split; [reflexivity|].
    destruct (emits_run _ _ _ _ _ (fetchOwner_emits_get server cfg) Howner)
      as (l1 & H1 & HP1).
    destruct (emits_run _ _ _ _ _ Hfs Hservices) as (l2 & H2 & HP2).
    exists (l1 ++ l2). rewrite H2, H1, <- app_assoc.
    split; [reflexivity|]. apply Forall_app; split; assumption.
  - rewrite bind_run, Howner, bind_run, Hservices, bind_run, Hdatabase.
    split; [reflexivity|].
    destruct (emits_run _ _ _ _ _ (fetchOwner_emits_get server cfg) Howner)
      as (l1 & H1 & HP1).
    destruct (emits_run _ _ _ _ _ Hfs Hservices) as (l2 & H2 & HP2).
    destruct (emits_run _ _ _ _ _ (fetchDatabase_emits_get server cfg) Hdatabase)
      as (l3 & H3 & HP3).
    exists (l1 ++ l2 ++ l3). rewrite H3, H2, H1, <- !app_assoc.
    split; [reflexivity|]. rewrite !Forall_app. auto.
Qed.

(** X11.  A read that fails leaves the account untouched.  When the owner,
    the services or the database list cannot be read, the error thrown by
    the read is logged by the top-level catch and the run ends there: it
    returns normally, every request it has issued is a GET, and none of the
    reads that come after the failed one is attempted. *)
Theorem failed_read_leaves_the_account_untouched
  (server : api) (cfg : config) (chalk : styles) (w : world)
  (e : exn) (w3 : world) :
  (reads_fail server cfg (Interactive.fetchServices server cfg) (started w)
     e w3 ->
   Interactive.rebuildDatabase server cfg w
   = (Ok tt, logged (rebuild_error_line e) w3)
   /\ exists gets, calls w3 = calls w ++ gets /\ Forall is_get gets)
  /\ (all_set cfg = true ->
      reads_fail server cfg (Exported.fetchServices server cfg)
        (started (validated chalk w)) e w3 ->
      Exported.rebuildDatabase server cfg chalk w
      = (Ok tt, logged (rebuild_error_line e) w3)
      /\ exists gets, calls w3 = calls w ++ gets /\ Forall is_get gets)
  /\ (reads_fail server cfg (FanOut.fetchServices server cfg) (started w)
        e w3 ->
      FanOut.rebuildDatabase server cfg w
      = (Ok tt, logged (rebuild_error_line e) w3)
      /\ exists gets, calls w3 = calls w ++ gets /\ Forall is_get gets).
Proof.
  split; [|split].
  - intros Hfail. rewrite Interactive_rebuildDatabase_workflow.
    apply workflow_reads_fail;
      [apply Interactive_fetchServices_emits_get|exact Hfail].
  - intros Hset Hfail.
    rewrite Exported_rebuildDatabase_workflow by assumption.
    exact (workflow_reads_fail server cfg _ _ (validated chalk w) e w3
             (Interactive_fetchServices_emits_get server cfg) Hfail).
  - intros Hfail. rewrite FanOut_rebuildDatabase_workflow.
    apply workflow_reads_fail;
      [apply FanOut_fetchServices_emits_get|exact Hfail].
Qed.

Lemma failed_read_witness :
  List.map summary
    (calls (FanOut.rebuildDatabase unreadable_databases_server example_config
              empty_world).2)
  = [(GET, "https://api.render.com/v1/owners?limit=1");
     (GET, "https://api.render.com/v1/services");
     (GET, "https://api.render.com/v1/services/s1/events");
     (GET, "https://api.render.com/v1/postgres")].
Proof.
  destruct (failed_read_leaves_the_account_untouched
              unreadable_databases_server example_config plain_chalk
              empty_world
              (AxiosError (HttpResponse 503 (VStr "Service Unavailable")))
              (fetchDatabase unreadable_databases_server example_config
                 (after_two_reads unreadable_databases_server example_config
                    (FanOut.fetchServices unreadable_databases_server
                       example_config)
                    (started empty_world))).2)
    as (_ & _ & Hrun).
  destruct Hrun as [-> _].
  - right. right. eexists _, _, _, _.
    split; [vm_compute; reflexivity|].
    split; vm_compute; reflexivity.
  - vm_compute. reflexivity.
Defined.

(** ** At most one delete *)

Lemma deletes_none_of_gets cfg l : Forall is_get l -> deletes_at_most_once cfg l.
Proof.
  intros Hl. exists l, [], []. rewrite !app_nil_r.
  split; [reflexivity|]. split; [exact Hl|]. split; [left; reflexivity|constructor].
Qed.

Lemma deletes_none cfg l : Forall not_delete l -> deletes_at_most_once cfg l.
Proof.
  intros Hl. exists [], [], l. split; [reflexivity|]. split; [constructor|].
  split; [left; reflexivity|exact Hl].
Qed.

Lemma deletes_after_gets cfg l0 l :
  Forall is_get l0 -> deletes_at_most_once cfg l ->
  deletes_at_most_once cfg (l0 ++ l).
Proof.
  intros H0 (gets & mid & after & -> & Hgets & Hmid & Hafter).
  exists (l0 ++ gets), mid, after. rewrite <- app_assoc.
  split; [reflexivity|]. split; [apply Forall_app; split; assumption|].
  split; assumption.
Qed.

Lemma emits_one_delete_bind {A B} cfg (m : M A) (K : A -> M B) :
  emits is_get m ->
  (forall a, emits_one_delete cfg (K a)) ->
  emits_one_delete cfg (bind m K).
Proof.
  intros Hm HK w. unfold bind. destruct (Hm w) as (l0 & H0 & HP0).
  destruct (m w) as [[a|e] w1]; cbn [snd] in *.
  - destruct (HK a w1) as (l & Hl & Hshape). exists (l0 ++ l).
    rewrite Hl, H0, app_assoc. split; [reflexivity|].
    apply deletes_after_gets; assumption.
  - exists l0. split; [exact H0|]. apply deletes_none_of_gets, HP0.
Qed.

Lemma emits_one_delete_on_error cfg (m : M unit) :
  emits_one_delete cfg m -> emits_one_delete cfg (try_catch m on_error).
Proof.
  intros Hm w. unfold try_catch. destruct (Hm w) as (l & Hl & Hshape).
  destruct (m w) as [[a|e] w1]; cbn [snd] in *; exists l; split; assumption.
Qed.

Lemma emits_one_delete_of {A} cfg (m : M A) :
  emits not_delete m -> emits_one_delete cfg m.
Proof.
  intros Hm w. destruct (Hm w) as (l & Hl & HP). exists l.
  split; [exact Hl|]. apply deletes_none, HP.
Qed.

Lemma emits_one_delete_then {B} server cfg databaseId (K : response -> M B) :
  (forall a, emits not_delete (K a)) ->
  emits_one_delete cfg (bind (deleteDatabase server cfg databaseId) K).
Proof.
  intros HK w. unfold bind.
  pose proof (deleteDatabase_run server cfg databaseId w) as Hrun.
  apply (f_equal (fun p => calls p.2)) in Hrun. rewrite calls_settle in Hrun.
  cbn [sent calls] in Hrun.
  destruct (deleteDatabase server cfg databaseId w) as [[a|e] w1];
    cbn [snd] in Hrun |- *.
  - destruct (HK a w1) as (l & Hl & HP).
    exists ([delete_request cfg databaseId] ++ l).
    rewrite Hl, Hrun, <- app_assoc. split; [reflexivity|].
    exists [], [delete_request cfg databaseId], l.
    split; [reflexivity|]. split; [constructor|].
    split; [right; eexists; reflexivity|exact HP].
  - exists [delete_request cfg databaseId]. split; [exact Hrun|].
    exists [], [delete_request cfg databaseId], [].
    split; [reflexivity|]. split; [constructor|].
    split; [right; eexists; reflexivity|constructor].
Qed.

Lemma is_get_not_delete r : is_get r -> not_delete r.
Proof. unfold is_get, not_delete. intros ->. discriminate. Qed.

Lemma workflow_deletes_at_most_once server cfg fetchServices create_step :
  emits is_get fetchServices ->
  (forall owner services, emits not_delete (create_step owner services)) ->
  emits_one_delete cfg (workflow server cfg fetchServices create_step).
Proof.
  intros Hfs Hcreate. unfold workflow.
  apply emits_one_delete_bind; [apply emits_console_log|]. intros _.
  apply emits_one_delete_on_error.
  apply emits_one_delete_bind; [apply fetchOwner_emits_get|]. intros owner.
  apply emits_one_delete_bind; [exact Hfs|]. intros services.
  apply emits_one_delete_bind; [apply fetchDatabase_emits_get|].
  intros database. unfold guarded.
  apply emits_one_delete_bind; [apply emits_lift|]. intros empty.
  destruct (negb empty); [|apply emits_one_delete_of, Hcreate].
  apply emits_one_delete_bind; [apply emits_lift|]. intros databaseId.
  apply emits_one_delete_then. intros deleteDb.
  destruct (negb (status deleteDb =? 204));
    [apply emits_console_error|apply Hcreate].
Qed.

Lemma Interactive_create_step_never_deletes server cfg owner services :
  emits not_delete (Interactive.create_and_repoint server cfg owner services).
Proof.
  unfold Interactive.create_and_repoint, createDatabase, fetchConnectionInfo,
    updateEnvVariable, deployService, axios_get, axios_put, axios_post.
  repeat emits_loop; discriminate.
Qed.

Lemma FanOut_create_step_never_deletes server cfg owner services :
  emits not_delete (FanOut.create_and_repoint server cfg owner services).
Proof.
  unfold FanOut.create_and_repoint, FanOut.createDatabase,
    FanOut.fetchDatabaseDetails, updateEnvVariable, deployService, axios_get,
    axios_put, axios_post.
  repeat emits_loop; discriminate.
Qed.

Lemma unset_constant_stops server cfg chalk w :
  all_set cfg = false ->
  (Exported.rebuildDatabase server cfg chalk w).1 = Ok tt
  /\ calls (Exported.rebuildDatabase server cfg chalk w).2 = calls w.
Proof.
  intros Hset. unfold Exported.rebuildDatabase, Exported.validateVariables.
  rewrite bind_run, (missing_variables_length cfg chalk Hset).
  split; reflexivity.
Qed.

(** X12.  A run deletes at most one database.  Whatever the server answers,
    the requests of a run of [rebuildDatabase] are reads, then at most one
    delete request, then requests none of which is a delete; this holds in
    each of the three scripts. *)
Theorem a_run_deletes_at_most_one_database
  (server : api) (cfg : config) (chalk : styles) :
  emits_one_delete cfg (Interactive.rebuildDatabase server cfg)
  /\ emits_one_delete cfg (Exported.rebuildDatabase server cfg chalk)
  /\ emits_one_delete cfg (FanOut.rebuildDatabase server cfg).
Proof.
  split; [|split].
  - apply workflow_deletes_at_most_once;
      [apply Interactive_fetchServices_emits_get|].
    intros owner services. apply Interactive_create_step_never_deletes.
  - intros w. destruct (all_set cfg) eqn:Hset.
    + rewrite Exported_rebuildDatabase_workflow by assumption.
      change (calls w) with (calls (validated chalk w)).
      apply (workflow_deletes_at_most_once server cfg
               (Exported.fetchServices server cfg)
               (Exported.create_and_repoint server cfg));
        [apply Interactive_fetchServices_emits_get|].
      intros owner services. apply Interactive_create_step_never_deletes.
    + destruct (unset_constant_stops server cfg chalk w Hset) as [_ ->].
      exists []. rewrite app_nil_r. split; [reflexivity|].
      apply deletes_none. constructor.
  - apply workflow_deletes_at_most_once;
      [apply FanOut_fetchServices_emits_get|].
    intros owner services. apply FanOut_create_step_never_deletes.
Qed.

(** ** The loop over the services, to its end or to the first refusal *)


Lemma three_services_created s2_put h :
  database_created (three_services_server s2_put) example_config h
    (VStr "my-db") scenario_owner new_database new_connection.
Proof.
  repeat split; try reflexivity; eexists; reflexivity.
Qed.

(** X13.  In the fan-out variant, when no database exists, the creation
    and the connection info succeed and the server accepts every update
    and deploy, the run repoints the services returned by [fetchServices]
    one by one, in the order of the list and each under its own [id]:
    after the creation and the connection-info fetch it issues, for each
    service, the PUT of [DATABASE_URL] under [/services/<id>/env-vars/]
    carrying the connection string of the new database and then the deploy
    under [/services/<id>/deploys], nothing else, and it ends with the line
    "done!". *)
Theorem services_are_repointed_in_order
  (server : api) (cfg : config) (w : world)
  (owner : value) (services : list value) (w2 : world)
  (created info : value) :
  empty_database_list server cfg w2 ->
  forallb (fun s => negb (is_nullish s)) services = true ->
  let h := calls w2 ++ [database_request cfg] in
  let url := prop info "internalConnectionString" in
  database_created server cfg h (VStr "my-db") owner created info ->
  accepts_writes server cfg (VStr "DATABASE_URL") url services ->
  reads_before_database server cfg (FanOut.fetchServices server cfg)
    (started w) owner services w2 ->
  FanOut.rebuildDatabase server cfg w
  = (Ok tt,
     mkWorld
       ((h ++ creation_requests cfg (VStr "my-db") owner created)
          ++ repoint_requests cfg (VStr "DATABASE_URL") url services)
       (console w2 ++ [ConsoleLog [PStr "done!"]]))
  /\ List.map summary (repoint_requests cfg (VStr "DATABASE_URL") url services)
     = flat_map
         (fun s =>
            [(PUT,
              to_string (baseUrl cfg) +:+ "/services/"
                +:+ to_string (prop s "id") +:+ "/env-vars/DATABASE_URL");
             (POST,
              to_string (baseUrl cfg) +:+ "/services/"
                +:+ to_string (prop s "id") +:+ "/deploys")])
         services
  /\ Forall
       (fun r =>
          req_method r = PUT -> req_body r = Some (obj [("value", url)]))
       (repoint_requests cfg (VStr "DATABASE_URL") url services).
Proof.
  intros (st & Hreply & Hst) Hall h url Hcreated Hacc Hreads.
  split; [|split].
  - rewrite FanOut_rebuildDatabase_workflow,
      (workflow_empty_list _ _ _ _ _ _ _ _ _ Hreads Hreply Hst).
    rewrite (FanOut_create_reaches_loop server cfg owner services created info
               (sent (database_request cfg) w2) Hcreated).
    exact (loop_accepted_run server cfg (VStr "DATABASE_URL") created info
             services
             (mkWorld (h ++ creation_requests cfg (VStr "my-db") owner created)
                (console w2))
             Hall Hacc).
  - unfold repoint_requests. clear.
    induction services as [|s rest IH]; [reflexivity|].
    cbn [flat_map List.map app]. rewrite IH. reflexivity.
  - unfold repoint_requests. clear.
    induction services as [|s rest IH]; [constructor|].
    cbn [flat_map app]. constructor; [reflexivity|].
    constructor; [discriminate|exact IH].
Qed.

Lemma services_are_repointed_witness :
  List.map summary
    (calls (FanOut.rebuildDatabase
              (three_services_server (HttpResponse 200 (obj [])))
              example_config empty_world).2)
  = [(GET, "https://api.render.com/v1/owners?limit=1");
     (GET, "https://api.render.com/v1/services");
     (GET, "https://api.render.com/v1/services/s1/events");
     (GET, "https://api.render.com/v1/services/s2/events");
     (GET, "https://api.render.com/v1/services/s3/events");
     (GET, "https://api.render.com/v1/postgres");
     (POST, "https://api.render.com/v1/postgres");
     (GET, "https://api.render.com/v1/postgres/d1/connection-info");
     (PUT, "https://api.render.com/v1/services/s1/env-vars/DATABASE_URL");
     (POST, "https://api.render.com/v1/services/s1/deploys");
     (PUT, "https://api.render.com/v1/services/s2/env-vars/DATABASE_URL");
     (POST, "https://api.render.com/v1/services/s2/deploys");
     (PUT, "https://api.render.com/v1/services/s3/env-vars/DATABASE_URL");
     (POST, "https://api.render.com/v1/services/s3/deploys")].
Proof.
  destruct (services_are_repointed_in_order
              (three_services_server (HttpResponse 200 (obj [])))
              example_config empty_world scenario_owner
              [plain_service "s1"; plain_service "s2"; plain_service "s3"]
              (after_two_reads
                 (three_services_server (HttpResponse 200 (obj [])))
                 example_config
                 (FanOut.fetchServices
                    (three_services_server (HttpResponse 200 (obj [])))
                    example_config)
                 (started empty_world))
              new_database new_connection)
    as (Hrun & _).
  - exists 200. split; [reflexivity|lia].
  - reflexivity.
  - apply three_services_created.
  - intros h s [<-|[<-|[<-|[]]]]; split; reflexivity.
  - eexists. split; vm_compute; reflexivity.
  - rewrite Hrun. vm_compute. reflexivity.
Defined.

(** X14.  The first refused update ends the loop.  In the same situation,
    when the update of the variable of one service is rejected after the
    services before it were repointed, the run ends with that PUT as its
    last call: the service is not deployed, the services after it in the
    list get neither update nor deploy, the error is logged by
    [updateEnvVariable] and by the top-level catch, and "done!" is not
    written. *)
Theorem first_refused_update_ends_the_loop
  (server : api) (cfg : config) (chalk : styles) (w : world)
  (owner : value) (before : list value) (s : value) (after : list value)
  (w2 : world) (created info : value) :
  empty_database_list server cfg w2 ->
  forallb (fun s => negb (is_nullish s)) before = true ->
  is_nullish s = false ->
  let h := calls w2 ++ [database_request cfg] in
  let url := prop info "internalConnectionString" in
  let reached name envKey :=
    (h ++ creation_requests cfg name owner created)
      ++ repoint_requests cfg envKey url before in
  let out name envKey :=
    let req := env_request cfg (prop s "id") envKey url in
    let e := AxiosError (server (reached name envKey) req) in
    (Ok tt,
     mkWorld (reached name envKey ++ [req])
       (console w2
          ++ [ConsoleError
                [PStr ("Error updating environment variable for service ID "
                         +:+ to_string (prop s "id") +:+ ":");
                 PErr e];
              rebuild_error_line e])) in
  (database_created server cfg h (databaseName cfg) owner created info ->
   accepts_writes server cfg (databaseKey cfg) url before ->
   rejected
     (server (reached (databaseName cfg) (databaseKey cfg))
        (env_request cfg (prop s "id") (databaseKey cfg) url)) = true ->
   (reads_before_database server cfg (Interactive.fetchServices server cfg)
      (started w) owner (before ++ s :: after) w2 ->
    Interactive.rebuildDatabase server cfg w
    = out (databaseName cfg) (databaseKey cfg))
   /\ (all_set cfg = true ->
       reads_before_database server cfg (Exported.fetchServices server cfg)
         (started (validated chalk w)) owner (before ++ s :: after) w2 ->
       Exported.rebuildDatabase server cfg chalk w
       = out (databaseName cfg) (databaseKey cfg)))
  /\ (database_created server cfg h (VStr "my-db") owner created info ->
      accepts_writes server cfg (VStr "DATABASE_URL") url before ->
      rejected
        (server (reached (VStr "my-db") (VStr "DATABASE_URL"))
           (env_request cfg (prop s "id") (VStr "DATABASE_URL") url)) = true ->
      reads_before_database server cfg (FanOut.fetchServices server cfg)
        (started w) owner (before ++ s :: after) w2 ->
      FanOut.rebuildDatabase server cfg w
      = out (VStr "my-db") (VStr "DATABASE_URL")).
Proof.
  intros (st & Hreply & Hst) Hall Hs h url reached out. split.
  - intros Hcreated Hacc Hrej. split.
    + intros Hreads.
      rewrite Interactive_rebuildDatabase_workflow,
        (workflow_empty_list _ _ _ _ _ _ _ _ _ Hreads Hreply Hst).
      rewrite (Interactive_create_reaches_loop server cfg owner _
                 created info (sent (database_request cfg) w2) Hcreated).
      exact (loop_rejected_run server cfg (databaseKey cfg) created info
               before s after
               (mkWorld (h ++ creation_requests cfg (databaseName cfg) owner
                                created)
                  (console w2))
               Hall Hacc Hs Hrej).
    + intros Hset Hreads.
      rewrite Exported_rebuildDatabase_workflow by assumption.
      rewrite (workflow_empty_list _ _ _ _ _ _ _ _ _ Hreads Hreply Hst).
      rewrite Exported_create_and_repoint_eq.
      rewrite (Interactive_create_reaches_loop server cfg owner _
                 created info (sent (database_request cfg) w2) Hcreated).
      exact (loop_rejected_run server cfg (databaseKey cfg) created info
               before s after
               (mkWorld (h ++ creation_requests cfg (databaseName cfg) owner
                                created)
                  (console w2))
               Hall Hacc Hs Hrej).
  - intros Hcreated Hacc Hrej Hreads.
    rewrite FanOut_rebuildDatabase_workflow,
      (workflow_empty_list _ _ _ _ _ _ _ _ _ Hreads Hreply Hst).
    rewrite (FanOut_create_reaches_loop server cfg owner _ created info
               (sent (database_request cfg) w2) Hcreated).
    exact (loop_rejected_run server cfg (VStr "DATABASE_URL") created info
             before s after
             (mkWorld (h ++ creation_requests cfg (VStr "my-db") owner created)
                (console w2))
             Hall Hacc Hs Hrej).
Qed.

Lemma first_refused_update_witness :
  List.map summary
    (calls (FanOut.rebuildDatabase
              (three_services_server
                 (HttpResponse 500 (VStr "Internal Server Error")))
              example_config empty_world).2)
  = [(GET, "https://api.render.com/v1/owners?limit=1");
     (GET, "https://api.render.com/v1/services");
     (GET, "https://api.render.com/v1/services/s1/events");
     (GET, "https://api.render.com/v1/services/s2/events");
     (GET, "https://api.render.com/v1/services/s3/events");
     (GET, "https://api.render.com/v1/postgres");
     (POST, "https://api.render.com/v1/postgres");
     (GET, "https://api.render.com/v1/postgres/d1/connection-info");
     (PUT, "https://api.render.com/v1/services/s1/env-vars/DATABASE_URL");
     (POST, "https://api.render.com/v1/services/s1/deploys");
     (PUT, "https://api.render.com/v1/services/s2/env-vars/DATABASE_URL")].
Proof.
  destruct (first_refused_update_ends_the_loop
              (three_services_server
                 (HttpResponse 500 (VStr "Internal Server Error")))
              example_config plain_chalk empty_world scenario_owner
              [plain_service "s1"] (plain_service "s2") [plain_service "s3"]
              (after_two_reads
                 (three_services_server
                    (HttpResponse 500 (VStr "Internal Server Error")))
                 example_config
                 (FanOut.fetchServices
                    (three_services_server
                       (HttpResponse 500 (VStr "Internal Server Error")))
                    example_config)
                 (started empty_world))
              new_database new_connection)
    as (_ & Hrun).
  - exists 200. split; [reflexivity|lia].
  - reflexivity.
  - reflexivity.
  - rewrite Hrun.
    + vm_compute. reflexivity.
    + apply three_services_created.
    + intros h s [<-|[]]; split; reflexivity.
    + reflexivity.
    + eexists. split; vm_compute; reflexivity.
Defined.

(** ** A rejected connection info *)

Lemma Interactive_create_connection_rejected server cfg owner services created
  w :
  creation_accepted server cfg (calls w) (databaseName cfg) owner created ->
  let h := calls w ++ [create_request cfg (databaseName cfg) (prop owner "id")] in
  let req := connection_request cfg (prop created "id") in
  let e := AxiosError (server h req) in
  rejected (server h req) = true ->
  try_catch (Interactive.create_and_repoint server cfg owner services)
    on_error w
  = (Ok tt,
     mkWorld (h ++ [req])
       (console w
          ++ [ConsoleError
                [PStr ("Error fetching details for database ID "
                         +:+ to_string (prop created "id") +:+ ":");
                 PErr e];
              rebuild_error_line e])).
Proof.
  intros (Howner & Hacc & (st & Hcreate) & Hcreated). cbv zeta. intros Hrej.
  unfold Interactive.create_and_repoint.
  rewrite (try_catch_bind_lift _ _ _ _ _ (get_prop_prop owner "id" Howner)).
  rewrite (try_catch_bind_ok _ _ _ _ created
             (sent (create_request cfg (databaseName cfg) (prop owner "id")) w)).
  2:{ rewrite createDatabase_run,
        (validateStatus_accepted _ st created Hacc Hcreate).
      reflexivity. }
  rewrite !(try_catch_bind_lift _ _ _ _ _ (get_prop_prop created _ Hcreated)).
  unfold try_catch. rewrite bind_run, fetchConnectionInfo_run.
  cbn [sent calls]. rewrite (validateStatus_rejected _ Hrej).
  cbn [rbind settle].
  unfold rebuild_error_line, on_error, console_error, logged.
  cbn [calls console]. rewrite <- (app_assoc (console w)). reflexivity.
Qed.

Lemma FanOut_create_connection_rejected server cfg owner services created w :
  creation_accepted server cfg (calls w) (VStr "my-db") owner created ->
  let h := calls w ++ [create_request cfg (VStr "my-db") (prop owner "id")] in
  let req := connection_request cfg (prop created "id") in
  let e := AxiosError (server h req) in
  rejected (server h req) = true ->
  try_catch (FanOut.create_and_repoint server cfg owner services) on_error w
  = (Ok tt,
     mkWorld (h ++ [req])
       (console w
          ++ [ConsoleError
                [PStr ("Error fetching details for database ID "
                         +:+ to_string (prop created "id") +:+ ":");
                 PErr e];
              rebuild_error_line e])).
Proof.
  intros (Howner & Hacc & (st & Hcreate) & Hcreated). cbv zeta. intros Hrej.
  unfold FanOut.create_and_repoint.
  rewrite (try_catch_bind_lift _ _ _ _ _ (get_prop_prop owner "id" Howner)).
  rewrite (try_catch_bind_ok _ _ _ _ created
             (sent (create_request cfg (VStr "my-db") (prop owner "id")) w)).
  2:{ rewrite FanOut_createDatabase_run,
        (validateStatus_accepted _ st created Hacc Hcreate).
      reflexivity. }
  rewrite !(try_catch_bind_lift _ _ _ _ _ (get_prop_prop created _ Hcreated)).
  unfold try_catch.
  rewrite bind_run, FanOut_fetchDatabaseDetails_eq, fetchConnectionInfo_run.
  cbn [sent calls]. rewrite (validateStatus_rejected _ Hrej).
  cbn [rbind settle].
  unfold rebuild_error_line, on_error, console_error, logged.
  cbn [calls console]. rewrite <- (app_assoc (console w)). reflexivity.
Qed.

(** X15.  When the new database has been created and the request for its
    connection info is rejected, the run ends with that request as its last
    call: the error is logged by the accessor and by the top-level catch,
    no variable is updated and no service deployed, and the database just
    created is left in place. *)
Theorem rejected_connection_info_repoints_nothing
  (server : api) (cfg : config) (chalk : styles) (w : world)
  (owner : value) (services : list value) (w2 : world) (created : value) :
  empty_database_list server cfg w2 ->
  let h := calls w2 ++ [database_request cfg] in
  let req := connection_request cfg (prop created "id") in
  let out name :=
    let h' := h ++ [create_request cfg name (prop owner "id")] in
    let e := AxiosError (server h' req) in
    (Ok tt,
     mkWorld (h' ++ [req])
       (console w2
          ++ [ConsoleError
                [PStr ("Error fetching details for database ID "
                         +:+ to_string (prop created "id") +:+ ":");
                 PErr e];
              rebuild_error_line e])) in
  (creation_accepted server cfg h (databaseName cfg) owner created ->
   rejected
     (server (h ++ [create_request cfg (databaseName cfg) (prop owner "id")])
        req) = true ->
   (reads_before_database server cfg (Interactive.fetchServices server cfg)
      (started w) owner services w2 ->
    Interactive.rebuildDatabase server cfg w = out (databaseName cfg))
   /\ (all_set cfg = true ->
       reads_before_database server cfg (Exported.fetchServices server cfg)
         (started (validated chalk w)) owner services w2 ->
       Exported.rebuildDatabase server cfg chalk w = out (databaseName cfg)))
  /\ (creation_accepted server cfg h (VStr "my-db") owner created ->
      rejected
        (server (h ++ [create_request cfg (VStr "my-db") (prop owner "id")])
           req) = true ->
      reads_before_database server cfg (FanOut.fetchServices server cfg)
        (started w) owner services w2 ->
      FanOut.rebuildDatabase server cfg w = out (VStr "my-db")).
Proof.
  intros (st & Hreply & Hst) h req out. split.
  - intros Hcreated Hrej. split.
    + intros Hreads.
      rewrite Interactive_rebuildDatabase_workflow,
        (workflow_empty_list _ _ _ _ _ _ _ _ _ Hreads Hreply Hst).
      exact (Interactive_create_connection_rejected server cfg owner services
               created (sent (database_request cfg) w2) Hcreated Hrej).
    + intros Hset Hreads.
      rewrite Exported_rebuildDatabase_workflow by assumption.
      rewrite (workflow_empty_list _ _ _ _ _ _ _ _ _ Hreads Hreply Hst).
      exact (Interactive_create_connection_rejected server cfg owner services
               created (sent (database_request cfg) w2) Hcreated Hrej).
  - intros Hcreated Hrej Hreads.
    rewrite FanOut_rebuildDatabase_workflow,
      (workflow_empty_list _ _ _ _ _ _ _ _ _ Hreads Hreply Hst).
    exact (FanOut_create_connection_rejected server cfg owner services created
             (sent (database_request cfg) w2) Hcreated Hrej).
Qed.

Lemma rejected_connection_info_witness :
  List.map summary
    (calls (FanOut.rebuildDatabase no_connection_server example_config
              empty_world).2)
  = [(GET, "https://api.render.com/v1/owners?limit=1");
     (GET, "https://api.render.com/v1/services");
     (GET, "https://api.render.com/v1/services/s1/events");
     (GET, "https://api.render.com/v1/postgres");
     (POST, "https://api.render.com/v1/postgres");
     (GET, "https://api.render.com/v1/postgres/d1/connection-info")].
Proof.
  destruct (rejected_connection_info_repoints_nothing no_connection_server
              example_config plain_chalk empty_world scenario_owner
              [plain_service "s1"]
              (after_two_reads no_connection_server example_config
                 (FanOut.fetchServices no_connection_server example_config)
                 (started empty_world))
              new_database)
    as (_ & Hrun).
  - exists 200. split; [reflexivity|lia].
  - rewrite Hrun.
    + vm_compute. reflexivity.
    + repeat split; try reflexivity. eexists. reflexivity.
    + reflexivity.
    + eexists. split; vm_compute; reflexivity.
Defined.

(** ** A malformed events response *)

Lemma latest_step_not_carried o item :
  carries_event item = false -> FanOut.latest_step o item = Throw TypeError.
Proof.
  unfold carries_event, FanOut.latest_step. intros Hbad.
  destruct (is_nullish item) eqn:Hitem.
  - destruct item; try discriminate; reflexivity.
  - rewrite (get_prop_prop item "event" Hitem). cbn [rbind].
    cbn [negb andb] in Hbad. apply negb_false_iff in Hbad.
    destruct (prop item "event"); try discriminate; reflexivity.
Qed.

Lemma reduceM_latest_malformed items : forall acc,
  forallb carries_event items = false ->
  reduceM FanOut.latest_step items acc = Throw TypeError.
Proof.
  induction items as [|x rest IH]; intros acc Hbad; [discriminate|].
  cbn [forallb] in Hbad. cbn [reduceM].
  destruct (carries_event x) eqn:Hx.
  - rewrite (latest_step_carried acc x Hx). cbn [rbind]. apply IH, Hbad.
  - rewrite (latest_step_not_carried acc x Hx). reflexivity.
Qed.

(** X16.  A malformed events response drops the service, it does not fail
    the listing.  When the events response is not an array, or holds an
    item without an event, [fetchEventDetails] throws a TypeError, logged
    under its heading; the branch of the fan-out for that service logs it
    again and yields [null], having issued the one events request. *)
Theorem malformed_events_drop_the_service
  (server : api) (cfg : config) (w : world) (service : value) (st : Z)
  (d : value) :
  is_nullish service = false ->
  server (calls w) (events_request cfg (prop service "id")) = HttpResponse st d ->
  200 <= st < 300 ->
  well_formed_events d = false ->
  FanOut.fetchEventDetails server cfg (prop service "id") w
  = (Throw TypeError,
     logged
       (ConsoleError
          [PStr ("Error fetching event details for service ID "
                   +:+ to_string (prop service "id") +:+ ":");
           PErr TypeError])
       (sent (events_request cfg (prop service "id")) w))
  /\ FanOut.detailed server cfg service w
     = (Ok VNull,
        mkWorld (calls w ++ [events_request cfg (prop service "id")])
          (console w ++ branch_lines service (Throw TypeError))).
Proof.
  intros Hservice Hreply Hst Hbad.
  assert (Hdetails : details_of
                       (server (calls w)
                          (events_request cfg (prop service "id")))
                     = Throw TypeError).
  { unfold details_of. rewrite Hreply, validateStatus_2xx by assumption.
    cbn [rbind data]. destruct d as [| | | | |items|m]; try reflexivity.
    cbn [array_reduce]. apply reduceM_latest_malformed, Hbad. }
  split.
  - rewrite fetchEventDetails_run, Hdetails. reflexivity.
  - pose proof (detailed_run server cfg service w Hservice) as Hrun.
    cbv zeta in Hrun. rewrite Hrun, Hdetails. reflexivity.
Qed.

Lemma malformed_events_witness :
  FanOut.detailed malformed_events_server example_config
    (prop (service_entry "s1" "web_service") "service")
    (sent (services_request example_config) empty_world)
  = (Ok VNull,
     mkWorld
       [services_request example_config;
        events_request example_config (VStr "s1")]
       (branch_lines (prop (service_entry "s1" "web_service") "service") (Throw TypeError))).
Proof.
  destruct (malformed_events_drop_the_service malformed_events_server
              example_config
              (sent (services_request example_config) empty_world)
              (prop (service_entry "s1" "web_service") "service") 200
              (VStr "<html>maintenance</html>"))
    as (_ & Hbranch).
  - reflexivity.
  - reflexivity.
  - lia.
  - reflexivity.
  - exact Hbranch.
Defined.
